(** * Period-based capacity and booking engine of mane-api-sp

    A shallow embedding of the availability calculator
    ([src/modules/areas/areas.service.ts]), of the public reservation route
    ([src/infrastructure/http/routes/reservations.public.routes.ts]) and of
    the staff middleware [enrichAndValidate]
    ([api/src/infrastructure/http/routes/reservations.routes.ts]), with the
    properties the specification states about them. *)

From Stdlib Require Import ZArith List String Ascii Bool Lia QArith Qround.
From stdpp Require Import base option list gmap strings pretty.

Local Open Scope string_scope.
Local Open Scope Z_scope.

(** ** Wall-clock time

    The system does no time-zone conversion: every [Date] is read through
    its local getters and rebuilt with the local constructor
    [new Date(y, m, d, hh, mm, ss, ms)].  A [Date] is modelled as the number
    of local wall-clock milliseconds since local midnight of day 0; the
    triple (getFullYear, getMonth, getDate) is its day index. *)

Module WallClock.

Definition Date := Z.

Definition MS_PER_DAY : Z := 86400000.

Definition dayIndex (d : Date) : Z := d / MS_PER_DAY.
Definition msOfDay (d : Date) : Z := d mod MS_PER_DAY.

Definition getHours (d : Date) : Z := msOfDay d / 3600000.
Definition getMinutes (d : Date) : Z := (msOfDay d mod 3600000) / 60000.

(** [new Date(y, m, d, hh, mm, ss, ms)] for the calendar day [day]. *)
Definition newDate (day hh mm ss ms : Z) : Date :=
  day * MS_PER_DAY + ((hh * 60 + mm) * 60 + ss) * 1000 + ms.

Definition startOfDay (d : Date) : Date := newDate (dayIndex d) 0 0 0 0.
Definition endOfDay (d : Date) : Date := newDate (dayIndex d) 23 59 59 999.
Definition at_ (d : Date) (hh mm ss ms : Z) : Date :=
  newDate (dayIndex d) hh mm ss ms.

(** Day index 0 is 1970-01-01.  The proleptic Gregorian calendar, by the
    usual era/day-of-era arithmetic. *)
Definition days_from_civil (y m d : Z) : Z :=
  let y' := if m <=? 2 then y - 1 else y in
  let era := y' / 400 in
  let yoe := y' - era * 400 in
  let doy := (153 * (if m >? 2 then m - 3 else m + 9) + 2) / 5 + d - 1 in
  let doe := yoe * 365 + yoe / 4 - yoe / 100 + doy in
  era * 146097 + doe - 719468.

Definition civil_from_days (z : Z) : Z * Z * Z :=
  let z' := z + 719468 in
  let era := z' / 146097 in
  let doe := z' - era * 146097 in
  let yoe := (doe - doe / 1460 + doe / 36524 - doe / 146096) / 365 in
  let y := yoe + era * 400 in
  let doy := doe - (365 * yoe + yoe / 4 - yoe / 100) in
  let mp := (5 * doy + 2) / 153 in
  let d := doy - (153 * mp + 2) / 5 + 1 in
  let m := if mp <? 10 then mp + 3 else mp - 9 in
  (if m <=? 2 then y + 1 else y, m, d).

End WallClock.
Export WallClock.

(** ** Strings and numbers as JavaScript uses them here *)

Module Js.

Definition is_digit (c : ascii) : bool :=
  let n := Z.of_nat (nat_of_ascii c) in (48 <=? n) && (n <=? 57).

Definition digit_val (c : ascii) : Z := Z.of_nat (nat_of_ascii c) - 48.

Definition digit_char (n : Z) : ascii := ascii_of_nat (Z.to_nat (48 + n)).

(** Truthiness of a string: the empty string is falsy. *)
Definition truthy (s : string) : bool :=
  match s with EmptyString => false | _ => true end.

(** Truthiness of an optional string ([undefined], [null] and the empty
    string are falsy). *)
Definition truthy_opt (o : option string) : bool :=
  match o with Some s => truthy s | None => false end.

(** [s.split(c)] for a one-character separator. *)
Fixpoint split_aux (c : ascii) (cur : string) (s : string) : list string :=
  match s with
  | EmptyString => [cur]
  | String a rest =>
      if Ascii.eqb a c then cur :: split_aux c EmptyString rest
      else split_aux c (cur ++ String a EmptyString) rest
  end.
Definition split (c : ascii) (s : string) : list string :=
  split_aux c EmptyString s.

Fixpoint all_digits (s : string) : bool :=
  match s with
  | EmptyString => true
  | String a rest => is_digit a && all_digits rest
  end.

Fixpoint decimal_aux (acc : Z) (s : string) : Z :=
  match s with
  | EmptyString => acc
  | String a rest => decimal_aux (10 * acc + digit_val a) rest
  end.

(** [Number(s)] on a string.  [None] is [NaN].  The model is exact on the
    empty string (0) and on strings of decimal digits, which is all the
    availability calculator ever converts (its argument has passed
    [isValidHHmm] or is the literal '12:00'); every other string is read
    as [NaN]. *)
Definition Number (s : string) : option Z :=
  if all_digits s then Some (decimal_aux 0 s) else None.

(** [x || 0] for a number that may be [undefined] or [NaN]. *)
Definition or0 (x : option Z) : Z := default 0 x.

(** Two-digit, zero-padded rendering (dayjs' [HH], [mm], [MM], [DD]). *)
Definition pad2 (n : Z) : string :=
  String (digit_char (n / 10)) (String (digit_char (n mod 10)) EmptyString).

(** Four-digit rendering (dayjs' [YYYY]) of a year in 0..9999. *)
Definition pad4 (n : Z) : string := pad2 (n / 100) ++ pad2 (n mod 100).

(** ASCII white space, as [trim] removes it (the Unicode spaces that
    [trim] also removes are outside the byte-string model). *)
Definition is_space (c : ascii) : bool :=
  let n := nat_of_ascii c in
  (Nat.eqb n 32 || (Nat.leb 9 n && Nat.leb n 13))%bool.

Fixpoint trimStart (s : string) : string :=
  match s with
  | String a rest => if is_space a then trimStart rest else s
  | EmptyString => EmptyString
  end.

Fixpoint trimEnd (s : string) : string :=
  match s with
  | EmptyString => EmptyString
  | String a rest =>
      match trimEnd rest with
      | EmptyString => if is_space a then EmptyString else String a EmptyString
      | r => String a r
      end
  end.

Definition trim (s : string) : string := trimEnd (trimStart s).

Definition lower_char (c : ascii) : ascii :=
  let n := nat_of_ascii c in
  if (Nat.leb 65 n && Nat.leb n 90)%bool then ascii_of_nat (n + 32) else c.

Definition upper_char (c : ascii) : ascii :=
  let n := nat_of_ascii c in
  if (Nat.leb 97 n && Nat.leb n 122)%bool then ascii_of_nat (n - 32) else c.

Fixpoint map_chars (f : ascii -> ascii) (s : string) : string :=
  match s with
  | EmptyString => EmptyString
  | String a rest => String (f a) (map_chars f rest)
  end.

(** [toLowerCase] and [toUpperCase] on the ASCII letters. *)
Definition toLowerCase : string -> string := map_chars lower_char.
Definition toUpperCase : string -> string := map_chars upper_char.

Fixpoint filter_chars (f : ascii -> bool) (s : string) : string :=
  match s with
  | EmptyString => EmptyString
  | String a rest =>
      if f a then String a (filter_chars f rest) else filter_chars f rest
  end.

(** [s.replace(/\D+/g, '')]. *)
Definition digits_only : string -> string := filter_chars is_digit.

Fixpoint includes_from (fuel : nat) (s sub : string) : bool :=
  if String.prefix sub s then true
  else match fuel, s with
       | S n, String _ rest => includes_from n rest sub
       | _, _ => false
       end.

(** [s.includes(sub)]. *)
Definition includes (s sub : string) : bool :=
  includes_from (String.length s) s sub.

(** [s[i]] for an integer index; [None] is [undefined]. *)
Definition charAt (s : string) (i : Z) : option ascii :=
  if i <? 0 then None else String.get (Z.to_nat i) s.

(** Comparisons of finite numbers. *)
Definition Qltb (a b : Q) : bool := negb (Qle_bool b a).

End Js.

(** ** Period classifier *)

Inductive Period := AFTERNOON | NIGHT.

#[global] Instance Period_eq_dec : EqDecision Period.
Proof. solve_decision. Defined.

(** 17:30, the start of the NIGHT period. *)
Definition EVENING_CUTOFF_MIN : Z := 17 * 60 + 30.

(** [isValidHHmm] of areas.service.ts: [/^\d{2}:\d{2}$/]. *)
Definition isValidHHmm (input : option string) : bool :=
  match input with
  | Some (String a (String b (String c (String d (String e EmptyString))))) =>
      Js.is_digit a && Js.is_digit b && Ascii.eqb c ":"%char
      && Js.is_digit d && Js.is_digit e
  | _ => false
  end.

(** [clampToBusinessWindow] of areas.service.ts. *)
Definition clampToBusinessWindow (hhmm : string) : Period :=
  let parts := map Js.Number (Js.split ":"%char hhmm) in
  let hh := mjoin (parts !! 0%nat) in
  let mm := mjoin (parts !! 1%nat) in
  let mins := Js.or0 hh * 60 + Js.or0 mm in
  if mins <? 12 * 60 then AFTERNOON
  else if mins >=? EVENING_CUTOFF_MIN then NIGHT else AFTERNOON.

Definition getPeriodFromHM (hhmm : string) : Period :=
  clampToBusinessWindow hhmm.

(** [getPeriodFromDate] of reservations.public.routes.ts. *)
Definition getPeriodFromDate (dt : Date) : Period :=
  let mins := getHours dt * 60 + getMinutes dt in
  if mins <? 12 * 60 then AFTERNOON
  else if mins >=? EVENING_CUTOFF_MIN then NIGHT else AFTERNOON.

(** [toHHmm] and [toYMD] of reservations.routes.ts:
    [dayjs(d).format('HH:mm')] and [dayjs(d).format('YYYY-MM-DD')]. *)
Definition toHHmm (d : Date) : string :=
  Js.pad2 (getHours d) ++ ":" ++ Js.pad2 (getMinutes d).

Definition toYMD (d : Date) : string :=
  let '(y, m, dd) := civil_from_days (dayIndex d) in
  Js.pad4 y ++ "-" ++ Js.pad2 m ++ "-" ++ Js.pad2 dd.

Record Window := { from : Date; to : Date }.

Definition inWindow (win : Window) (d : Date) : bool :=
  (from win <=? d) && (d <=? to win).

(** [periodWindow] of areas.service.ts (the period is returned beside the
    window). *)
Definition periodWindow (dt : Date) (hhmm : string) : Window * Period :=
  let period := getPeriodFromHM hhmm in
  match period with
  | NIGHT => ({| from := at_ dt 17 30 0 0; to := endOfDay dt |}, period)
  | AFTERNOON =>
      ({| from := at_ dt 12 0 0 0; to := at_ dt 17 29 59 999 |}, period)
  end.

(** [periodWindow] of reservations.public.routes.ts. *)
Definition periodWindowOfDate (dt : Date) : Window :=
  match getPeriodFromDate dt with
  | NIGHT => {| from := at_ dt 17 30 0 0; to := endOfDay dt |}
  | AFTERNOON => {| from := at_ dt 12 0 0 0; to := at_ dt 17 29 59 999 |}
  end.

(** ** Data model (the Prisma models the engine reads and writes) *)

(** Modelled from the spec: the Prisma schema (schema.prisma) is not among the
    sources.  The data model lists the statuses AWAITING_CHECKIN and
    CHECKED_IN and "other terminal/administrative states"; the status route
    stores any trimmed string, kept here under [OTHER]. *)
Module ReservationStatus.
Inductive t := AWAITING_CHECKIN | CHECKED_IN | OTHER (name : string).
#[global] Instance eq_dec : EqDecision t.
Proof. solve_decision. Defined.
End ReservationStatus.

(** Modelled from the spec: the enum of block modes is declared in the
    missing schema; "mode (currently only PERIOD is used)". *)
Module ReservationBlockMode.
Inductive t := PERIOD | OTHER.
#[global] Instance eq_dec : EqDecision t.
Proof. solve_decision. Defined.
End ReservationBlockMode.

Module ReservationBlockPeriod.
Inductive t := AFTERNOON | NIGHT | ALL_DAY.
#[global] Instance eq_dec : EqDecision t.
Proof. solve_decision. Defined.
End ReservationBlockPeriod.

Module ReservationType.
Inductive t := ANIVERSARIO | PARTICULAR | CONFRATERNIZACAO | EMPRESA.
End ReservationType.

Module Unit.
Record t := mk {
  id : string;
  name : string;
  slug : string;
  isActive : bool
}.
End Unit.

Module Area.
Record t := mk {
  id : string;
  unitId : string;
  name : string;
  capacityAfternoon : option Z;
  capacityNight : option Z;
  photoUrl : option string;
  isActive : bool;
  description : option string;
  iconEmoji : option string
}.
End Area.

Module Reservation.
Record t := mk {
  id : string;
  createdAt : Date;
  fullName : string;
  cpf : option string;
  people : Z;
  kids : Z;
  reservationDate : Date;
  birthdayDate : option Date;
  phone : option string;
  email : option string;
  notes : option string;
  unitId : option string;
  unit : option string;
  areaId : option string;
  areaName : option string;
  utm_source : option string;
  utm_medium : option string;
  utm_campaign : option string;
  utm_content : option string;
  utm_term : option string;
  url : option string;
  ref : option string;
  source : option string;
  reservationCode : option string;
  qrToken : string;
  qrExpiresAt : option Date;
  checkedInAt : option Date;
  status : ReservationStatus.t;
  reservationType : ReservationType.t
}.
End Reservation.

Module ReservationBlock.
Record t := mk {
  id : string;
  unitId : string;
  areaId : option string;
  date : Date;
  mode : ReservationBlockMode.t;
  period : ReservationBlockPeriod.t;
  reason : option string
}.
End ReservationBlock.

(** The relational store: one list of rows per table. *)
Record Store := {
  units : list Unit.t;
  areas : list Area.t;
  reservations : list Reservation.t;
  reservationBlocks : list ReservationBlock.t
}.

(** What the code reads from outside the store: the clock, the dayjs
    library, process.env (through [normalizePhotoUrl]), the collation of the
    store's text columns, and the random sources. *)
Record World := {
  (** [new Date()] and [Date.now()]. *)
  now : Date;
  (** [dayjs(s, 'YYYY-MM-DD', true)]: [Some d] when [isValid()], with
      [d = toDate()]. *)
  dayjs_strict : string -> option Date;
  (** [normalizePhotoUrl] of areas.service.ts, which reads process.env. *)
  normalizePhotoUrl : option string -> option string;
  (** ORDER BY name ASC and the [contains] filter of the store. *)
  name_leb : string -> string -> bool;
  name_contains : string -> string -> bool;
  (** The successive results of [Math.random()]. *)
  random : nat -> Q;
  (** The successive identifiers the store assigns to new rows. *)
  cuid : nat -> string;
  (** The successive results of [cryptoRandom()]. *)
  cryptoRandom : nat -> string
}.

(** What the arguments of [dayjs(s, 'YYYY-MM-DD', true)] ask for: the
    strict reading of the customParseFormat plug-in, which accepts the shape
    dddd-dd-dd with a month and a day that exist.  The code never loads that
    plug-in, so this is not how its call answers (see [dayjsParse]); it is
    kept to say where the two differ. *)
Definition strictYMD (s : string) : option Date :=
  match s with
  | String y1 (String y2 (String y3 (String y4 (String s1
      (String m1 (String m2 (String s2 (String d1 (String d2
      EmptyString))))))))) =>
      if forallb Js.is_digit [y1; y2; y3; y4; m1; m2; d1; d2]
         && Ascii.eqb s1 "-"%char && Ascii.eqb s2 "-"%char
      then
        let y := Js.decimal_aux 0
                   (String y1 (String y2 (String y3 (String y4 EmptyString)))) in
        let m := Js.decimal_aux 0 (String m1 (String m2 EmptyString)) in
        let d := Js.decimal_aux 0 (String d1 (String d2 EmptyString)) in
        let day := days_from_civil y m d in
        if bool_decide (civil_from_days day = (y, m, d))
        then Some (newDate day 0 0 0 0) else None
      else None
  | _ => None
  end.

(** How the call answers.  The factory of dayjs keeps a second argument only
    when it is an object, so without the plug-in the format and the strict
    flag are never looked at, and the string goes to the library's
    [parseDate] (dayjs 1.11):

      if (typeof date === 'string' && !/Z$/i.test(date)) {
        const d = date.match(REGEX_PARSE)
        if (d) {
          const m = d[2] - 1 || 0
          const ms = (d[7] || '0').substring(0, 3)
          return new Date(d[1], m, d[3] || 1,
                          d[4] || 0, d[5] || 0, d[6] || 0, ms)
        }
      }
      return new Date(date)

    where REGEX_PARSE is
      ^(\d{4})[-/]?(\d{1,2})?[-/]?(\d{0,2})[Tt\s]*
       (\d{1,2})?:?(\d{1,2})?:?(\d{1,2})?[.:]?(\d+)?$
    The pieces of such a pattern are groups of digits, [(\d{lo,hi})] or
    [(\d{lo,})], optional or not, and character classes taken at most once
    ([c?]) or any number of times ([c*]); all are greedy and give back what
    they took when the rest does not match. *)
Inductive Piece :=
| Group (lo : nat) (hi : option nat) (optional : bool)
| Chars (cls : ascii -> bool) (many : bool).

(** Exactly [n] characters of the class [cls] at the head of [s]. *)
Fixpoint take_class (cls : ascii -> bool) (n : nat) (s : string)
  : option (string * string) :=
  match n with
  | O => Some (EmptyString, s)
  | S n' =>
      match s with
      | String c rest =>
          if cls c
          then match take_class cls n' rest with
               | Some (d, r) => Some (String c d, r)
               | None => None
               end
          else None
      | EmptyString => None
      end
  end.

(** The first of [f n], [f (n - 1)], ..., [f 0] that succeeds. *)
Fixpoint first_from {A : Type} (n : nat) (f : nat -> option A) : option A :=
  match f n with
  | Some a => Some a
  | None => match n with O => None | S n' => first_from n' f end
  end.

(** [s.match(/^...$/)]: the captures of the groups, [None] for a group that
    did not take part ([undefined]). *)
Fixpoint regex_match (ps : list Piece) (s : string)
  : option (list (option string)) :=
  match ps with
  | [] => match s with EmptyString => Some [] | _ => None end
  | Group lo hi optional :: rest =>
      match first_from (default (String.length s) hi)
              (fun n =>
                 if (n <? lo)%nat then None
                 else match take_class Js.is_digit n s with
                      | Some (d, r) =>
                          option_map (cons (Some d)) (regex_match rest r)
                      | None => None
                      end) with
      | Some caps => Some caps
      | None =>
          if optional then option_map (cons None) (regex_match rest s)
          else None
      end
  | Chars cls many :: rest =>
      first_from (if many then String.length s else 1%nat)
        (fun n =>
           match take_class cls n s with
           | Some (_, r) => regex_match rest r
           | None => None
           end)
  end.

Definition one_of (cs : list ascii) (c : ascii) : bool :=
  existsb (Ascii.eqb c) cs.

(** [\s] on the characters of one byte. *)
Definition is_space (c : ascii) : bool :=
  let n := nat_of_ascii c in
  ((9 <=? n)%nat && (n <=? 13)%nat) || (n =? 32)%nat.

Definition REGEX_PARSE : list Piece :=
  [ Group 4 (Some 4%nat) false;
    Chars (one_of ["-"; "/"]%char) false;
    Group 1 (Some 2%nat) true;
    Chars (one_of ["-"; "/"]%char) false;
    Group 0 (Some 2%nat) false;
    Chars (fun c => one_of ["T"; "t"]%char c || is_space c) true;
    Group 1 (Some 2%nat) true;
    Chars (one_of [":"]%char) false;
    Group 1 (Some 2%nat) true;
    Chars (one_of [":"]%char) false;
    Group 1 (Some 2%nat) true;
    Chars (one_of ["."; ":"]%char) false;
    Group 1 None true ].

(** [/Z$/i.test(s)]. *)
Fixpoint ends_with_Z (s : string) : bool :=
  match s with
  | EmptyString => false
  | String c EmptyString => one_of ["Z"; "z"]%char c
  | String _ rest => ends_with_Z rest
  end.

(** [d || dflt] as a number, for a capture [d] of digits. *)
Definition capture_or (d : option string) (dflt : Z) : Z :=
  match d with
  | Some s => if Js.truthy s then Js.decimal_aux 0 s else dflt
  | None => dflt
  end.

(** [new Date(y, m, d, hh, mm, ss, ms)] for integers, the month counted from
    0: the years 0..99 are read as 1900..1999, and a month, a day or a time
    out of range is carried over. *)
Definition jsDate (y m d hh mm ss ms : Z) : Date :=
  let yr := if (0 <=? y) && (y <=? 99) then 1900 + y else y in
  newDate (days_from_civil (yr + m / 12) (m mod 12 + 1) 1 + (d - 1))
    hh mm ss ms.

(** [parseDate] on a string; [DateOfString] is the engine's [new Date(s)]. *)
Definition parseDate (DateOfString : string -> option Date) (date : string)
  : option Date :=
  if ends_with_Z date then DateOfString date
  else
    match regex_match REGEX_PARSE date with
    | Some [d1; d2; d3; d4; d5; d6; d7] =>
        let m := match d2 with
                 | Some s => Js.decimal_aux 0 s - 1
                 | None => 0
                 end in
        let ms := Js.decimal_aux 0 (String.substring 0 3 (default "0" d7)) in
        Some (jsDate (capture_or d1 0) m (capture_or d3 1)
                (capture_or d4 0) (capture_or d5 0) (capture_or d6 0) ms)
    | _ => DateOfString date
    end.

(** [new Date(s)] in the concrete runs, for the strings [parseDate] leaves
    to the engine.  The runs reach it at 'amanha' and at the empty string,
    which no engine reads as a date.  This stand-in answers Invalid Date
    throughout, so it says nothing about the other strings that get there
    (an ISO string that ends in Z, 'March 10, 2025'). *)
Definition DateOfString (s : string) : option Date := None.

(** [dayjs(s, 'YYYY-MM-DD', true)] in the concrete runs. *)
Definition dayjsParse (s : string) : option Date := parseDate DateOfString s.

(** ** Queries *)

Fixpoint insert_by {A} (leb : A -> A -> bool) (x : A) (l : list A) : list A :=
  match l with
  | [] => [x]
  | y :: l' => if leb x y then x :: l else y :: insert_by leb x l'
  end.

(** A stable sort, for [orderBy]. *)
Definition sort_by {A} (leb : A -> A -> bool) (l : list A) : list A :=
  foldr (insert_by leb) [] l.

(** [prisma.area.findMany({ where: { unitId, isActive: true },
    orderBy: { name: 'asc' } })]. *)
Definition area_findMany (w : World) (db : Store) (unitId : string)
  : list Area.t :=
  sort_by (fun a b => name_leb w (Area.name a) (Area.name b))
    (filter (fun a => String.eqb (Area.unitId a) unitId && Area.isActive a)
       (areas db)).

Definition block_period_in (ps : list ReservationBlockPeriod.t)
  (b : ReservationBlock.t) : bool :=
  bool_decide (ReservationBlock.period b ∈ ps).

(** [prisma.reservationBlock.findMany] with the filters of the availability
    calculator: unit, mode PERIOD, date within the day, period in [ps]. *)
Definition reservationBlock_findMany (db : Store) (unitId : string)
  (dayStart dayEnd : Date) (ps : list ReservationBlockPeriod.t)
  : list ReservationBlock.t :=
  filter (fun b =>
            String.eqb (ReservationBlock.unitId b) unitId
            && bool_decide (ReservationBlock.mode b = ReservationBlockMode.PERIOD)
            && (dayStart <=? ReservationBlock.date b)
            && (ReservationBlock.date b <=? dayEnd)
            && block_period_in ps b)
    (reservationBlocks db).

(** [status: { in: [AWAITING_CHECKIN, CHECKED_IN] }]. *)
Definition status_counts (s : ReservationStatus.t) : bool :=
  match s with
  | ReservationStatus.AWAITING_CHECKIN | ReservationStatus.CHECKED_IN => true
  | ReservationStatus.OTHER _ => false
  end.

(** One row of [groupBy({ by: ['areaId'], _sum: { people, kids } })]. *)
Record AreaGroup := {
  g_areaId : option string;
  g_sum_people : option Z;
  g_sum_kids : option Z
}.

Definition sumZ (l : list Z) : Z := foldr Z.add 0 l.

Definition rows_of_area (k : option string) (rows : list Reservation.t)
  : list Reservation.t :=
  filter (fun r => bool_decide (Reservation.areaId r = k)) rows.

(** [groupBy]: one group per distinct [areaId] among the selected rows, with
    the column sums ([people] and [kids] are NOT NULL columns, so the sums
    of a group are never null). *)
Definition groupBy_areaId (rows : list Reservation.t) : list AreaGroup :=
  map (fun k =>
         {| g_areaId := k;
            g_sum_people := Some (sumZ (map Reservation.people (rows_of_area k rows)));
            g_sum_kids := Some (sumZ (map Reservation.kids (rows_of_area k rows))) |})
    (remove_dups (map Reservation.areaId rows)).

(** The [where] of the availability calculator's [groupBy]:
    [areaId: { not: null }], the date window and the counting statuses. *)
Definition reservation_where_window (win : Window) (r : Reservation.t) : bool :=
  bool_decide (Reservation.areaId r <> None)
  && inWindow win (Reservation.reservationDate r)
  && status_counts (Reservation.status r).

Definition group_used (g : AreaGroup) : Z :=
  default 0 (g_sum_people g) + default 0 (g_sum_kids g).

(** The loop that fills [usedMap]. *)
Definition usedMap_of (grouped : list AreaGroup) : gmap string Z :=
  foldl (fun m g =>
           match g_areaId g with
           | Some id => if Js.truthy id then <[id := group_used g]> m else m
           | None => m
           end) ∅ grouped.

(** ** Availability calculator (areas.service.ts) *)

Record AreaPublicDTO := {
  dto_id : string;
  dto_name : string;
  dto_capacityAfternoon : option Z;
  dto_capacityNight : option Z;
  dto_photoUrl : option string;
  dto_isActive : bool;
  dto_description : option string;
  dto_iconEmoji : option string;
  remaining : option Z;
  available : option Z;
  isAvailable : option bool
}.

(** [{ ...a, photoUrl: normalizePhotoUrl(a.photoUrl) }]. *)
Definition withResolvedPhoto (w : World) (a : Area.t) : AreaPublicDTO :=
  {| dto_id := Area.id a;
     dto_name := Area.name a;
     dto_capacityAfternoon := Area.capacityAfternoon a;
     dto_capacityNight := Area.capacityNight a;
     dto_photoUrl := normalizePhotoUrl w (Area.photoUrl a);
     dto_isActive := Area.isActive a;
     dto_description := Area.description a;
     dto_iconEmoji := Area.iconEmoji a;
     remaining := None;
     available := None;
     isAvailable := None |}.

(** [{ ...a, remaining: available, available, isAvailable: available > 0 }]. *)
Definition withAvailability (a : AreaPublicDTO) (avail : Z) : AreaPublicDTO :=
  {| dto_id := dto_id a;
     dto_name := dto_name a;
     dto_capacityAfternoon := dto_capacityAfternoon a;
     dto_capacityNight := dto_capacityNight a;
     dto_photoUrl := dto_photoUrl a;
     dto_isActive := dto_isActive a;
     dto_description := dto_description a;
     dto_iconEmoji := dto_iconEmoji a;
     remaining := Some avail;
     available := Some avail;
     isAvailable := Some (0 <? avail) |}.

Definition blockPeriodOf (p : Period) : ReservationBlockPeriod.t :=
  match p with
  | AFTERNOON => ReservationBlockPeriod.AFTERNOON
  | NIGHT => ReservationBlockPeriod.NIGHT
  end.

(** [blocks.some((b) => !b.areaId)]. *)
Definition blockedAll_of (blocks : list ReservationBlock.t) : bool :=
  existsb (fun b => negb (Js.truthy_opt (ReservationBlock.areaId b))) blocks.

(** [new Set(blocks.filter((b) => b.areaId).map((b) => b.areaId))]. *)
Definition blockedAreas_of (blocks : list ReservationBlock.t) : gset string :=
  list_to_set
    (omap ReservationBlock.areaId
       (filter (fun b => Js.truthy_opt (ReservationBlock.areaId b)) blocks)).

(** The branch of [listByUnitPublic] taken when [timeHHmm] is truthy. *)
Definition availabilityForPeriod (w : World) (db : Store) (unitId : string)
  (base : Date) (timeHHmm : string) : list AreaPublicDTO :=
  let safeTime := if isValidHHmm (Some timeHHmm) then timeHHmm else "12:00" in
  let '(win, currentPeriod) := periodWindow base safeTime in
  let dayStart := startOfDay base in
  let dayEnd := endOfDay base in
  let blocks :=
    reservationBlock_findMany db unitId dayStart dayEnd
      [ReservationBlockPeriod.ALL_DAY;
       match currentPeriod with
       | AFTERNOON => ReservationBlockPeriod.AFTERNOON
       | NIGHT => ReservationBlockPeriod.NIGHT
       end] in
  let blockedAll := blockedAll_of blocks in
  let blockedAreas := blockedAreas_of blocks in
  let grouped :=
    groupBy_areaId (filter (reservation_where_window win) (reservations db)) in
  let usedMap := usedMap_of grouped in
  map (fun a =>
         let isBlocked := blockedAll || bool_decide (dto_id a ∈ blockedAreas) in
         let periodCap :=
           match currentPeriod with
           | AFTERNOON => default 0 (dto_capacityAfternoon a)
           | NIGHT => default 0 (dto_capacityNight a)
           end in
         let used := default 0 (usedMap !! dto_id a) in
         let availableBase := Z.max 0 (periodCap - used) in
         let available := if isBlocked then 0 else availableBase in
         withAvailability a available)
    (map (withResolvedPhoto w) (area_findMany w db unitId)).

(** The whole-day branch of [listByUnitPublic]. *)
Definition availabilityForDay (w : World) (db : Store) (unitId : string)
  (base : Date) : list AreaPublicDTO :=
  let win := {| from := startOfDay base; to := endOfDay base |} in
  let dayBlocks :=
    reservationBlock_findMany db unitId (from win) (to win)
      [ReservationBlockPeriod.ALL_DAY] in
  let blockedAllDayAll := blockedAll_of dayBlocks in
  let blockedAllDayAreas := blockedAreas_of dayBlocks in
  let grouped :=
    groupBy_areaId (filter (reservation_where_window win) (reservations db)) in
  let usedMap := usedMap_of grouped in
  map (fun a =>
         let isBlocked :=
           blockedAllDayAll || bool_decide (dto_id a ∈ blockedAllDayAreas) in
         let dayCap :=
           default 0 (dto_capacityAfternoon a) + default 0 (dto_capacityNight a) in
         let used := default 0 (usedMap !! dto_id a) in
         let availableBase := Z.max 0 (dayCap - used) in
         let available := if isBlocked then 0 else availableBase in
         withAvailability a available)
    (map (withResolvedPhoto w) (area_findMany w db unitId)).

(** [areasService.listByUnitPublic(unitId, dateISO?, timeHHmm?)], against
    one state of the store. *)
Definition listByUnitPublic (w : World) (db : Store) (unitId : string)
  (dateISO timeHHmm : option string) : list AreaPublicDTO :=
  if negb (Js.truthy unitId) then []
  else
    match dateISO with
    | Some dateStr =>
        if Js.truthy dateStr then
          let base := default (now w) (dayjs_strict w dateStr) in
          match timeHHmm with
          | Some t =>
              if Js.truthy t then availabilityForPeriod w db unitId base t
              else availabilityForDay w db unitId base
          | None => availabilityForDay w db unitId base
          end
        else map (withResolvedPhoto w) (area_findMany w db unitId)
    | None => map (withResolvedPhoto w) (area_findMany w db unitId)
    end.

(** ** Requests as sequences of atomic store operations

    A route handler runs synchronous code between [await]s; each awaited
    Prisma call is one atomic operation on the store, and other requests may
    run between two of them.  [Await op k] is "the synchronous code up to and
    including the next awaited operation [op], then [k]". *)

Record Sys := {
  db : Store;
  rngCalls : nat;
  idCalls : nat;
  tokCalls : nat
}.

Inductive Proc (A : Type) : Type :=
| Ret (a : A)
| Await {X : Type} (op : Sys -> X * Sys) (k : X -> Proc A).
Arguments Ret {A} a.
Arguments Await {A X} op k.

Fixpoint bind {A B} (p : Proc A) (f : A -> Proc B) : Proc B :=
  match p with
  | Ret a => f a
  | Await op k => Await op (fun x => bind (k x) f)
  end.

(** One request served alone, from start to end. *)
Fixpoint run {A} (p : Proc A) (s : Sys) : A * Sys :=
  match p with
  | Ret a => (a, s)
  | Await op k => let '(x, s') := op s in run (k x) s'
  end.

(** Several requests in flight: [step_at i] lets request [i] perform its
    next operation; a schedule is the order in which the requests move. *)
Definition step_at {A} (i : nat) (st : list (Proc A) * Sys)
  : list (Proc A) * Sys :=
  match st.1 !! i with
  | Some (Await op k) => let '(x, s') := op st.2 in (<[i := k x]> st.1, s')
  | _ => st
  end.

Definition run_schedule {A} (sched : list nat) (st : list (Proc A) * Sys)
  : list (Proc A) * Sys :=
  foldl (fun st i => step_at i st) st sched.

Definition finished {A} (p : Proc A) : bool :=
  match p with Ret _ => true | Await _ _ => false end.

(** A bound on the number of operations of a process, whatever it reads. *)
Inductive within {A} : nat -> Proc A -> Prop :=
| within_ret n a : within n (Ret a)
| within_await n X (op : Sys -> X * Sys) k :
    (forall x, within n (k x)) -> within (S n) (Await op k).

(** Reading the store without changing anything. *)
Definition query {X} (f : Store -> X) : Sys -> X * Sys :=
  fun s => (f (db s), s).

(** ** Reservation codes (reservations.public.routes.ts) *)

Definition code_alphabet : string := "ABCDEFGHJKLMNPQRSTUVWXYZ23456789".

(** [Math.random()]. *)
Definition Math_random (w : World) (s : Sys) : Q * Sys :=
  (random w (rngCalls s),
   {| db := db s; rngCalls := S (rngCalls s);
      idCalls := idCalls s; tokCalls := tokCalls s |}).

(** [base[Math.floor(r * base.length)]], appended to a string: an index out
    of range reads [undefined], which [+=] renders as 'undefined'. *)
Definition pick_symbol (r : Q) : string :=
  let i := Qfloor (r * inject_Z (Z.of_nat (String.length code_alphabet))) in
  match Js.charAt code_alphabet i with
  | Some c => String c EmptyString
  | None => "undefined"
  end.

Fixpoint genCode6_loop (w : World) (n : nat) (out : string) (s : Sys)
  : string * Sys :=
  match n with
  | O => (out, s)
  | S n' =>
      let '(r, s') := Math_random w s in
      genCode6_loop w n' (out ++ pick_symbol r) s'
  end.

Definition genCode6 (w : World) (s : Sys) : string * Sys :=
  genCode6_loop w 6 EmptyString s.

(** [prisma.reservation.findUnique({ where: { reservationCode: code } })],
    as the test [exists]. *)
Definition reservationCode_exists (code : string) (st : Store) : bool :=
  existsb (fun r => bool_decide (Reservation.reservationCode r = Some code))
    (reservations st).

Fixpoint generateUniqueReservationCode_loop (w : World) (n : nat)
  : Proc string :=
  match n with
  | O => Await (genCode6 w) Ret
  | S n' =>
      Await (fun s =>
               let '(code, s') := genCode6 w s in
               ((code, reservationCode_exists code (db s')), s'))
            (fun r =>
               if negb r.2 then Ret r.1
               else generateUniqueReservationCode_loop w n')
  end.

Definition generateUniqueReservationCode (w : World) : Proc string :=
  generateUniqueReservationCode_loop w 8.

(** ** Public creation of a reservation (POST /v1/reservations/public) *)

Module Body.
(** The JSON body after destructuring.  Numbers are the finite values
    [Number(x)] yields; [reservationDate] is [Some dt] when the field is
    present and [dayjs(reservationDate).isValid()], with
    [dt = new Date(reservationDate)]. *)
Record t := mk {
  fullName : option string;
  cpf : option string;
  people : option Q;
  kids : option Q;
  reservationDate : option Date;
  birthdayDate : option Date;
  email : option string;
  phone : option string;
  notes : option string;
  unitId : option string;
  areaId : option string;
  utm_source : option string;
  utm_medium : option string;
  utm_campaign : option string;
  utm_content : option string;
  utm_term : option string;
  url : option string;
  ref : option string;
  source : option string;
  reservationType : option string;
  reservation_type : option string
}.
End Body.

Record Request := {
  body : Body.t;
  query_string : gmap string string
}.

Inductive ErrorCode :=
| VALIDATION
| ALREADY_HAS_ACTIVE_RESERVATION
| UNIT_NOT_FOUND
| AREA_NOT_FOUND
| BLOCKED_DAY
| NO_CAPACITY
| AREA_NO_CAPACITY
| INTERNAL.

#[global] Instance ErrorCode_eq_dec : EqDecision ErrorCode.
Proof. solve_decision. Defined.

(** What an error body carries besides its code (the human messages are
    left out). *)
Inductive ErrorDetail :=
| NoDetail
| ExistingReservation (r : Reservation.t)
| Remaining (remaining : Z) (period : Period)
| Credit (available credit : Z).

Inductive Response :=
| Failure (httpStatus : Z) (code : ErrorCode) (detail : ErrorDetail)
| Created (r : Reservation.t).

Definition toLowerEmail (v : option string) : option string :=
  let s := Js.toLowerCase (Js.trim (default EmptyString v)) in
  if Js.truthy s then Some s else None.

(** [parseReservationType].  Strings are byte strings here, so the removal
    of diacritics (NFD, then U+0300..U+036F dropped) is the identity. *)
Definition parseReservationType (raw : option string) : ReservationType.t :=
  let s := Js.toUpperCase (Js.trim (default EmptyString raw)) in
  if String.eqb s "ANIVERSARIO" || String.eqb s "ANIVERSARIO_"
     || String.eqb s "NIVER" || String.eqb s "BIRTHDAY"
  then ReservationType.ANIVERSARIO
  else if String.eqb s "PARTICULAR" || String.eqb s "PESSOAL"
          || String.eqb s "PRIVADO"
  then ReservationType.PARTICULAR
  else if String.eqb s "CONFRATERNIZACAO" || String.eqb s "CONFRAT"
  then ReservationType.CONFRATERNIZACAO
  else if String.eqb s "EMPRESA" || String.eqb s "CORPORATIVO"
          || String.eqb s "CORPORATE"
  then ReservationType.EMPRESA
  else ReservationType.PARTICULAR.

Definition pickUtm (req : Request) (bodyVal : option string) (key : string)
  : option string :=
  let b := match bodyVal with Some v => Js.trim v | None => EmptyString end in
  if Js.truthy b then Some b
  else
    let s := match query_string req !! key with
             | Some v => Js.trim v
             | None => EmptyString
             end in
    if Js.truthy s then Some s else None.

(** [x ? String(x) : null]. *)
Definition stringOrNull (o : option string) : option string :=
  if Js.truthy_opt o then o else None.

(** The anti-duplication [findFirst]: an AWAITING_CHECKIN reservation with
    the same e-mail or the same phone, the most recently created first. *)
Definition findActiveByContact (emailNorm phoneNorm : option string)
  (st : Store) : option Reservation.t :=
  head
    (sort_by (fun a b => Reservation.createdAt b <=? Reservation.createdAt a)
       (filter
          (fun r =>
             bool_decide (Reservation.status r = ReservationStatus.AWAITING_CHECKIN)
             && ((Js.truthy_opt emailNorm
                  && bool_decide (Reservation.email r = emailNorm))
                 || (Js.truthy_opt phoneNorm
                     && bool_decide (Reservation.phone r = phoneNorm))))
          (reservations st))).

Definition unit_findUnique (id : string) (st : Store) : option Unit.t :=
  List.find (fun u => String.eqb (Unit.id u) id) (units st).

Definition area_findUnique (id : string) (st : Store) : option Area.t :=
  List.find (fun a => String.eqb (Area.id a) id) (areas st).

(** The block query of the route: the calculator's filters and
    [OR: [{ areaId: null }, { areaId: area.id }]]. *)
Definition blocksFor (unitId areaId : string) (dt : Date)
  (p : ReservationBlockPeriod.t) (st : Store) : list ReservationBlock.t :=
  filter (fun b =>
            bool_decide (ReservationBlock.areaId b = None)
            || bool_decide (ReservationBlock.areaId b = Some areaId))
    (reservationBlock_findMany st unitId (startOfDay dt) (endOfDay dt)
       [ReservationBlockPeriod.ALL_DAY; p]).

(** The capacity query of the route: [groupBy] over the reservations of the
    area inside the window with a counting status. *)
Definition groupedFor (areaId : string) (win : Window) (st : Store)
  : list AreaGroup :=
  groupBy_areaId
    (filter (fun r =>
               bool_decide (Reservation.areaId r = Some areaId)
               && inWindow win (Reservation.reservationDate r)
               && status_counts (Reservation.status r))
       (reservations st)).

(** [(grouped[0]?._sum.people ?? 0) + (grouped[0]?._sum.kids ?? 0)]. *)
Definition alreadyUsed_of (grouped : list AreaGroup) : Z :=
  default 0 (head grouped ≫= g_sum_people)
  + default 0 (head grouped ≫= g_sum_kids).

(** [Math.max(0, Math.floor(peopleNum)) + Math.max(0, Math.floor(kidsNum))]. *)
Definition willUse_of (peopleNum kidsNum : Q) : Z :=
  Z.max 0 (Qfloor peopleNum) + Z.max 0 (Qfloor kidsNum).

(** [prisma.reservation.create]: the store assigns the id; the unique
    indexes on id, reservationCode and qrToken make the call throw on a
    duplicate ([None]), and nothing is written then. *)
Definition reservation_create (w : World)
  (mkRow : string -> Reservation.t) (s : Sys) : option Reservation.t * Sys :=
  let row := mkRow (cuid w (idCalls s)) in
  let s' := {| db := db s; rngCalls := rngCalls s;
               idCalls := S (idCalls s); tokCalls := tokCalls s |} in
  if existsb (fun r =>
                String.eqb (Reservation.id r) (Reservation.id row)
                || String.eqb (Reservation.qrToken r) (Reservation.qrToken row)
                || (bool_decide (Reservation.reservationCode row <> None)
                    && bool_decide (Reservation.reservationCode r
                                    = Reservation.reservationCode row)))
       (reservations (db s))
  then (None, s')
  else
    (Some row,
     {| db := {| units := units (db s);
                 areas := areas (db s);
                 reservations := reservations (db s) ++ [row];
                 reservationBlocks := reservationBlocks (db s) |};
        rngCalls := rngCalls s;
        idCalls := S (idCalls s);
        tokCalls := tokCalls s |}).

(** [cryptoRandom()]. *)
Definition next_cryptoRandom (w : World) (s : Sys) : string * Sys :=
  (cryptoRandom w (tokCalls s),
   {| db := db s; rngCalls := rngCalls s;
      idCalls := idCalls s; tokCalls := S (tokCalls s) |}).

(** The route from the unit and area look-ups on: block check, capacity
    check, code generation, insert. *)
Definition checkAndCreate (w : World) (req : Request) (dt : Date)
  (peopleNum kidsNum : Q) (emailNorm phoneNorm : option string)
  : Proc Response :=
  let b := body req in
  Await (query (unit_findUnique (default EmptyString (Body.unitId b)))) (fun unit =>
  Await (query (area_findUnique (default EmptyString (Body.areaId b)))) (fun area =>
  match unit with
  | None => Ret (Failure 404 UNIT_NOT_FOUND NoDetail)
  | Some unit =>
  if negb (Unit.isActive unit) then Ret (Failure 404 UNIT_NOT_FOUND NoDetail)
  else
  match area with
  | None => Ret (Failure 404 AREA_NOT_FOUND NoDetail)
  | Some area =>
  if negb (Area.isActive area)
     || negb (String.eqb (Area.unitId area) (Unit.id unit))
  then Ret (Failure 404 AREA_NOT_FOUND NoDetail)
  else
  let currentPeriod := blockPeriodOf (getPeriodFromDate dt) in
  Await (query (blocksFor (Unit.id unit) (Area.id area) dt currentPeriod))
    (fun blocks =>
  if (0 <? length blocks)%nat then Ret (Failure 409 BLOCKED_DAY NoDetail)
  else
  let win := periodWindowOfDate dt in
  let maxPeriod :=
    match getPeriodFromDate dt with
    | AFTERNOON => default 0 (Area.capacityAfternoon area)
    | NIGHT => default 0 (Area.capacityNight area)
    end in
  Await (query (groupedFor (Area.id area) win)) (fun grouped =>
  let alreadyUsed := alreadyUsed_of grouped in
  let willUse := willUse_of peopleNum kidsNum in
  let remaining := Z.max 0 (maxPeriod - alreadyUsed) in
  if willUse >? remaining
  then Ret (Failure 409 NO_CAPACITY (Remaining remaining (getPeriodFromDate dt)))
  else
  bind (generateUniqueReservationCode w) (fun reservationCode =>
  Await (fun s =>
           let '(qrToken, s1) := next_cryptoRandom w s in
           let qrExpiresAt := now w + 1000 * 60 * 60 * 48 in
           reservation_create w
             (fun id =>
                {| Reservation.id := id;
                   Reservation.createdAt := now w;
                   Reservation.fullName := default EmptyString (Body.fullName b);
                   Reservation.cpf := stringOrNull (Body.cpf b);
                   Reservation.people := Z.max 0 (Qfloor peopleNum);
                   Reservation.kids := Z.max 0 (Qfloor kidsNum);
                   Reservation.reservationDate := dt;
                   Reservation.birthdayDate := Body.birthdayDate b;
                   Reservation.phone := phoneNorm;
                   Reservation.email := emailNorm;
                   Reservation.notes := stringOrNull (Body.notes b);
                   Reservation.unitId := Some (Unit.id unit);
                   Reservation.unit := Some (Unit.name unit);
                   Reservation.areaId := Some (Area.id area);
                   Reservation.areaName := Some (Area.name area);
                   Reservation.utm_source :=
                     pickUtm req (Body.utm_source b) "utm_source";
                   Reservation.utm_medium :=
                     pickUtm req (Body.utm_medium b) "utm_medium";
                   Reservation.utm_campaign :=
                     pickUtm req (Body.utm_campaign b) "utm_campaign";
                   Reservation.utm_content :=
                     pickUtm req (Body.utm_content b) "utm_content";
                   Reservation.utm_term :=
                     pickUtm req (Body.utm_term b) "utm_term";
                   Reservation.url := Body.url b;
                   Reservation.ref := Body.ref b;
                   Reservation.source := Some (default "site" (Body.source b));
                   Reservation.reservationCode := Some reservationCode;
                   Reservation.qrToken := qrToken;
                   Reservation.qrExpiresAt := Some qrExpiresAt;
                   Reservation.checkedInAt := None;
                   Reservation.status := ReservationStatus.AWAITING_CHECKIN;
                   Reservation.reservationType :=
                     parseReservationType
                       (match Body.reservationType b with
                        | Some t => Some t
                        | None => Body.reservation_type b
                        end) |})
             s1)
        (fun created =>
           match created with
           | Some r => Ret (Created r)
           | None => Ret (Failure 500 INTERNAL NoDetail)
           end))))
  end
  end)).

(** The basic validations, in the order of the source; [None] when they
    pass. *)
Definition basicValidation (b : Body.t) : option Response :=
  if negb (Js.truthy_opt (Body.fullName b))
     || (String.length (Js.trim (default EmptyString (Body.fullName b))) <? 3)%nat
  then Some (Failure 400 VALIDATION NoDetail)
  else
    let peopleNum := default 0%Q (Body.people b) in
    if Qeq_bool peopleNum 0 || Js.Qltb peopleNum 1
    then Some (Failure 400 VALIDATION NoDetail)
    else if negb (Js.truthy_opt (Body.unitId b))
    then Some (Failure 400 VALIDATION NoDetail)
    else if negb (Js.truthy_opt (Body.areaId b))
    then Some (Failure 400 VALIDATION NoDetail)
    else match Body.reservationDate b with
         | None => Some (Failure 400 VALIDATION NoDetail)
         | Some _ => None
         end.

Definition phoneNorm_of (phone : option string) : option string :=
  if Js.truthy_opt phone then Some (Js.digits_only (default EmptyString phone))
  else None.

(** [router.post('/')] of reservations.public.routes.ts. *)
Definition createPublicReservation (w : World) (req : Request)
  : Proc Response :=
  let b := body req in
  match basicValidation b with
  | Some failure => Ret failure
  | None =>
      let peopleNum := default 0%Q (Body.people b) in
      let kidsNum := default 0%Q (Body.kids b) in
      let dt := default 0 (Body.reservationDate b) in
      let emailNorm := toLowerEmail (Body.email b) in
      let phoneNorm := phoneNorm_of (Body.phone b) in
      if Js.truthy_opt emailNorm || Js.truthy_opt phoneNorm then
        Await (query (findActiveByContact emailNorm phoneNorm))
          (fun existing =>
             match existing with
             | Some e =>
                 Ret (Failure 409 ALREADY_HAS_ACTIVE_RESERVATION
                        (ExistingReservation e))
             | None =>
                 checkAndCreate w req dt peopleNum kidsNum emailNorm phoneNorm
             end)
      else checkAndCreate w req dt peopleNum kidsNum emailNorm phoneNorm
  end.

(** Every request served alone, one after the other. *)
Fixpoint serve_all (w : World) (reqs : list Request) (s : Sys)
  : list Response * Sys :=
  match reqs with
  | [] => ([], s)
  | req :: rest =>
      let '(resp, s1) := run (createPublicReservation w req) s in
      let '(resps, s2) := serve_all w rest s1 in
      (resp :: resps, s2)
  end.

Definition is_created (r : Response) : bool :=
  match r with Created _ => true | Failure _ _ _ => false end.

(** The party size a request asks for ([willUse]). *)
Definition requested (req : Request) : Z :=
  willUse_of (default 0%Q (Body.people (body req)))
             (default 0%Q (Body.kids (body req))).

(** The sum of the party sizes of the admitted requests. *)
Fixpoint admitted_total (reqs : list Request) (resps : list Response) : Z :=
  match reqs, resps with
  | req :: reqs', resp :: resps' =>
      (if is_created resp then requested req else 0)
      + admitted_total reqs' resps'
  | _, _ => 0
  end.

(** The same sum over a pool of requests in flight: a request counts once
    it has answered 201. *)
Fixpoint admitted_in_pool (reqs : list Request) (pool : list (Proc Response))
  : Z :=
  match reqs, pool with
  | req :: reqs', p :: pool' =>
      match p with
      | Ret (Created _) => requested req
      | _ => 0
      end + admitted_in_pool reqs' pool'
  | _, _ => 0
  end.

Definition initial_pool (w : World) (reqs : list Request)
  : list (Proc Response) :=
  map (createPublicReservation w) reqs.

(** ** Staff create and update: the [enrichAndValidate] middleware
    (reservations.routes.ts) *)

Module StaffBody.
Record t := mk {
  people : Q;
  kids : Q;
  reservationDate : option Date;
  unitId : option string;
  unit : option string;
  areaId : option string;
  area : option string;
  areaName : option string
}.
End StaffBody.

Record StaffRequest := {
  method : string;
  params_id : option string;
  staff_body : StaffBody.t
}.

Inductive MiddlewareResult :=
| Respond (r : Response)
| Next (b : StaffBody.t).

Definition or_else {A} (a b : option A) : option A :=
  match a with Some _ => a | None => b end.

(** [resolveUnit]: by id, then by slug, by [contains] on the name, and last
    by a case-insensitive scan of all units. *)
Definition resolveUnit (w : World) (st : Store) (unitId unit : option string)
  : option string * option string :=
  match (if Js.truthy_opt unitId
         then unit_findUnique (default EmptyString unitId) st else None) with
  | Some u => (Some (Unit.id u), Some (Unit.name u))
  | None =>
      let raw := Js.trim (default EmptyString unit) in
      if Js.truthy raw then
        let guessSlug := Js.toLowerCase raw in
        let u :=
          or_else
            (List.find (fun x => String.eqb (Unit.slug x) guessSlug) (units st))
            (List.find (fun x => name_contains w (Unit.name x) raw) (units st)) in
        let u :=
          match u with
          | Some _ => u
          | None =>
              let all := units st in
              let lowered := Js.toLowerCase raw in
              or_else
                (List.find (fun x => String.eqb (Js.toLowerCase (Unit.slug x)) lowered) all)
                (or_else
                   (List.find (fun x => String.eqb (Js.toLowerCase (Unit.name x)) lowered) all)
                   (List.find (fun x => Js.includes (Js.toLowerCase (Unit.name x)) lowered) all))
          end in
        match u with
        | Some u => (Some (Unit.id u), Some (Unit.name u))
        | None => (None, None)
        end
      else (None, None)
  end.

(** [resolveArea]: by id, then by name within the unit. *)
Definition resolveArea (w : World) (st : Store)
  (areaId area unitId : option string) : option string * option string :=
  match (if Js.truthy_opt areaId
         then area_findUnique (default EmptyString areaId) st else None) with
  | Some a => (Some (Area.id a), Some (Area.name a))
  | None =>
      let raw := Js.trim (default EmptyString area) in
      if Js.truthy raw && Js.truthy_opt unitId then
        let uid := default EmptyString unitId in
        let ofUnit := filter (fun x => String.eqb (Area.unitId x) uid) (areas st) in
        let a :=
          or_else
            (List.find (fun x => String.eqb (Area.name x) raw) ofUnit)
            (List.find (fun x => name_contains w (Area.name x) raw) ofUnit) in
        let a :=
          match a with
          | Some _ => a
          | None =>
              let lowered := Js.toLowerCase raw in
              or_else
                (List.find (fun x => String.eqb (Js.toLowerCase (Area.name x)) lowered) ofUnit)
                (List.find (fun x => Js.includes (Js.toLowerCase (Area.name x)) lowered) ofUnit)
          end in
        match a with
        | Some a => (Some (Area.id a), Some (Area.name a))
        | None => (None, None)
        end
      else (None, None)
  end.

Definition reservation_findUnique (id : string) (st : Store)
  : option Reservation.t :=
  List.find (fun r => String.eqb (Reservation.id r) id) (reservations st).

(** The credit of an update: the reservation's own prior party size, when
    the four comparisons of the source hold. *)
Definition creditoAtual_of (st : Store) (req : StaffRequest)
  (unitId : option string) (areaId : string) (ymd hhmm : string) : Z :=
  let isUpdate := String.eqb (method req) "PUT" && Js.truthy_opt (params_id req) in
  if isUpdate then
    match reservation_findUnique (default EmptyString (params_id req)) st with
    | Some prev =>
        let sameArea :=
          String.eqb (default EmptyString (Reservation.areaId prev)) areaId in
        let sameUnit :=
          String.eqb (default EmptyString (Reservation.unitId prev)) (default EmptyString unitId) in
        let sameDay := String.eqb (toYMD (Reservation.reservationDate prev)) ymd in
        let samePeriod :=
          String.eqb (toHHmm (Reservation.reservationDate prev)) hhmm in
        if sameUnit && sameArea && sameDay && samePeriod
        then Reservation.people prev + Reservation.kids prev
        else 0
    | None => 0
    end
  else 0.

(** [enrichAndValidate], against one state of the store (it only reads). *)
Definition enrichAndValidate (w : World) (st : Store) (req : StaffRequest)
  : MiddlewareResult :=
  let body := staff_body req in
  let reservationDate := StaffBody.reservationDate body in
  let '(unitId, unitName) :=
    resolveUnit w st (StaffBody.unitId body) (StaffBody.unit body) in
  let '(areaId, areaName) :=
    resolveArea w st (StaffBody.areaId body) (StaffBody.area body) unitId in
  let body' :=
    {| StaffBody.people := StaffBody.people body;
       StaffBody.kids := StaffBody.kids body;
       StaffBody.reservationDate := reservationDate;
       StaffBody.unitId := unitId;
       StaffBody.unit :=
         if negb (Js.truthy_opt (StaffBody.unit body)) && Js.truthy_opt unitName
         then unitName else StaffBody.unit body;
       StaffBody.areaId := areaId;
       StaffBody.area :=
         if negb (Js.truthy_opt (StaffBody.area body)) && Js.truthy_opt areaName
         then areaName else StaffBody.area body;
       StaffBody.areaName :=
         if negb (Js.truthy_opt (StaffBody.areaName body)) && Js.truthy_opt areaName
         then areaName else StaffBody.areaName body |} in
  match areaId, reservationDate with
  | Some aid, Some dt =>
      if Js.truthy aid then
        let ymd := toYMD dt in
        let hhmm := toHHmm dt in
        let list :=
          listByUnitPublic w st (default "null" unitId) (Some ymd) (Some hhmm) in
        match List.find (fun a => String.eqb (dto_id a) aid) list with
        | None => Respond (Failure 400 AREA_NOT_FOUND NoDetail)
        | Some found =>
            let totalNovo := (StaffBody.people body + StaffBody.kids body)%Q in
            let available :=
              default 0 (or_else (available found) (remaining found)) in
            let creditoAtual := creditoAtual_of st req unitId aid ymd hhmm in
            if Js.Qltb (inject_Z (available + creditoAtual)) totalNovo
            then Respond (Failure 409 AREA_NO_CAPACITY
                            (Credit available creditoAtual))
            else Next body'
        end
      else Next body'
  | _, _ => Next body'
  end.

(** ** The properties as the specification words them *)

(** The window of a period on the calendar day of [base] (spec 4.1). *)
Definition spec_window (p : Period) (base : Date) : Window :=
  match p with
  | AFTERNOON =>
      {| from := newDate (dayIndex base) 12 0 0 0;
         to := newDate (dayIndex base) 17 29 59 999 |}
  | NIGHT =>
      {| from := newDate (dayIndex base) 17 30 0 0;
         to := newDate (dayIndex base) 23 59 59 999 |}
  end.

Definition spec_day_window (base : Date) : Window :=
  {| from := newDate (dayIndex base) 0 0 0 0;
     to := newDate (dayIndex base) 23 59 59 999 |}.

(** used(A, window): the sum of people + kids over the reservations on area
    [A] with a counting status whose reservationDate lies in the window
    (spec 4.2 and 8). *)
Definition spec_used (st : Store) (A : string) (win : Window) : Z :=
  sumZ
    (map (fun r => Reservation.people r + Reservation.kids r)
       (filter
          (fun r =>
             bool_decide (Reservation.areaId r = Some A)
             && status_counts (Reservation.status r)
             && inWindow win (Reservation.reservationDate r))
          (reservations st))).

(** A qualifying block (spec 4.3): a PERIOD-mode block of the unit, dated
    within the day, whose period is one of [ps] and whose area is null or
    [A]. *)
Definition spec_blocked (st : Store) (unitId A : string) (base : Date)
  (ps : list ReservationBlockPeriod.t) : bool :=
  existsb
    (fun b =>
       String.eqb (ReservationBlock.unitId b) unitId
       && bool_decide (ReservationBlock.mode b = ReservationBlockMode.PERIOD)
       && (newDate (dayIndex base) 0 0 0 0 <=? ReservationBlock.date b)
       && (ReservationBlock.date b <=? newDate (dayIndex base) 23 59 59 999)
       && bool_decide (ReservationBlock.period b ∈ ps)
       && (bool_decide (ReservationBlock.areaId b = None)
           || bool_decide (ReservationBlock.areaId b = Some A)))
    (reservationBlocks st).

Definition spec_remaining (cap used : Z) (blocked : bool) : Z :=
  if blocked then 0 else Z.max 0 (cap - used).

Definition periodCapacity (p : Period) (a : Area.t) : Z :=
  match p with
  | AFTERNOON => default 0 (Area.capacityAfternoon a)
  | NIGHT => default 0 (Area.capacityNight a)
  end.

(** The rule of spec 4.1 on minutes since midnight. *)
Definition spec_classify (mins : Z) : Period :=
  if mins <? 720 then AFTERNOON
  else if mins <? 1050 then AFTERNOON
  else NIGHT.

(** Identifiers are never the empty string (they are generated by the
    store; the block routes require [min(1)]). *)
Definition ids_nonempty (st : Store) : Prop :=
  Forall (fun a => Area.id a <> EmptyString) (areas st)
  /\ Forall (fun b => ReservationBlock.areaId b <> Some EmptyString)
       (reservationBlocks st).

(** The contact already holds an AWAITING_CHECKIN reservation. *)
Definition has_active_contact (st : Store) (emailNorm phoneNorm : option string)
  : bool :=
  existsb
    (fun r =>
       bool_decide (Reservation.status r = ReservationStatus.AWAITING_CHECKIN)
       && ((Js.truthy_opt emailNorm
            && bool_decide (Reservation.email r = emailNorm))
           || (Js.truthy_opt phoneNorm
               && bool_decide (Reservation.phone r = phoneNorm))))
    (reservations st).

(** The unit exists and is active. *)
Definition active_unit (st : Store) (unitId : string) : option Unit.t :=
  match unit_findUnique unitId st with
  | Some u => if Unit.isActive u then Some u else None
  | None => None
  end.

(** The area exists, is active and belongs to the unit. *)
Definition area_of_unit (st : Store) (areaId unitId : string) : option Area.t :=
  match area_findUnique areaId st with
  | Some a =>
      if Area.isActive a && String.eqb (Area.unitId a) unitId
      then Some a else None
  | None => None
  end.

(** The first check that rejects a public creation, in the order the route
    performs them: basic validation, contact anti-duplication, unit, area,
    block, capacity. *)
Definition first_failing_check (st : Store) (req : Request) : option ErrorCode :=
  let b := body req in
  match basicValidation b with
  | Some _ => Some VALIDATION
  | None =>
      let dt := default 0 (Body.reservationDate b) in
      if has_active_contact st (toLowerEmail (Body.email b))
           (phoneNorm_of (Body.phone b))
      then Some ALREADY_HAS_ACTIVE_RESERVATION
      else
        match active_unit st (default EmptyString (Body.unitId b)) with
        | None => Some UNIT_NOT_FOUND
        | Some u =>
            match area_of_unit st (default EmptyString (Body.areaId b)) (Unit.id u) with
            | None => Some AREA_NOT_FOUND
            | Some a =>
                let P := getPeriodFromDate dt in
                if spec_blocked st (Unit.id u) (Area.id a) dt
                     [ReservationBlockPeriod.ALL_DAY; blockPeriodOf P]
                then Some BLOCKED_DAY
                else if requested req
                        >? Z.max 0 (periodCapacity P a
                                    - spec_used st (Area.id a) (spec_window P dt))
                then Some NO_CAPACITY
                else None
            end
        end
  end.

(** The order of spec 4.5: unit, area, contact anti-duplication, block,
    capacity. *)
Definition first_failing_check_spec (st : Store) (req : Request)
  : option ErrorCode :=
  let b := body req in
  match basicValidation b with
  | Some _ => Some VALIDATION
  | None =>
      let dt := default 0 (Body.reservationDate b) in
      match active_unit st (default EmptyString (Body.unitId b)) with
      | None => Some UNIT_NOT_FOUND
      | Some u =>
          match area_of_unit st (default EmptyString (Body.areaId b)) (Unit.id u) with
          | None => Some AREA_NOT_FOUND
          | Some a =>
              if has_active_contact st (toLowerEmail (Body.email b))
                   (phoneNorm_of (Body.phone b))
              then Some ALREADY_HAS_ACTIVE_RESERVATION
              else
                let P := getPeriodFromDate dt in
                if spec_blocked st (Unit.id u) (Area.id a) dt
                     [ReservationBlockPeriod.ALL_DAY; blockPeriodOf P]
                then Some BLOCKED_DAY
                else if requested req
                        >? Z.max 0 (periodCapacity P a
                                    - spec_used st (Area.id a) (spec_window P dt))
                then Some NO_CAPACITY
                else None
          end
      end
  end.

(** What [checkAndCreate] decides before it writes: a rejection, or the
    unit and area the reservation will be created on. *)
Definition admission_check (st : Store) (unitId areaId : string) (dt : Date)
  (willUse : Z) : Response + (Unit.t * Area.t) :=
  match active_unit st unitId with
  | None => inl (Failure 404 UNIT_NOT_FOUND NoDetail)
  | Some u =>
      match area_of_unit st areaId (Unit.id u) with
      | None => inl (Failure 404 AREA_NOT_FOUND NoDetail)
      | Some a =>
          let P := getPeriodFromDate dt in
          let remaining :=
            Z.max 0 (periodCapacity P a
                     - spec_used st (Area.id a) (spec_window P dt)) in
          if spec_blocked st (Unit.id u) (Area.id a) dt
               [ReservationBlockPeriod.ALL_DAY; blockPeriodOf P]
          then inl (Failure 409 BLOCKED_DAY NoDetail)
          else if willUse >? remaining
          then inl (Failure 409 NO_CAPACITY (Remaining remaining P))
          else inr (u, a)
      end
  end.

Definition failure_code (r : Response) : option ErrorCode :=
  match r with Failure _ c _ => Some c | Created _ => None end.

(** The store with one more reservation. *)
Definition with_reservation (st : Store) (r : Reservation.t) : Store :=
  {| units := units st;
     areas := areas st;
     reservations := reservations st ++ [r];
     reservationBlocks := reservationBlocks st |}.

(** The code [genCode6] builds when [Math.random] has been called [k] times
    before. *)
Definition code_from (w : World) (k : nat) : string :=
  (genCode6 w
     {| db := {| units := []; areas := []; reservations := [];
                 reservationBlocks := [] |};
        rngCalls := k; idCalls := 0; tokCalls := 0 |}).1.

(** Six symbols, all of the alphabet. *)
Definition code_ok (code : string) : Prop :=
  String.length code = 6%nat
  /\ Forall (fun c => c ∈ list_ascii_of_string code_alphabet)
       (list_ascii_of_string code).

(** The state after [n] more calls of [Math.random]. *)
Definition advance_rng (s : Sys) (n : nat) : Sys :=
  {| db := db s; rngCalls := rngCalls s + n;
     idCalls := idCalls s; tokCalls := tokCalls s |}.

(** Minutes since midnight. *)
Definition minutesOfDay (d : Date) : Z := getHours d * 60 + getMinutes d.

(** A public create-request for area [A], period [P] and the calendar day
    of [day], with a time of day inside the period's window (12:00 or
    later). *)
Definition targets (req : Request) (A : string) (P : Period) (day : Date)
  : Prop :=
  Body.areaId (body req) = Some A
  /\ exists dt,
       Body.reservationDate (body req) = Some dt
       /\ dayIndex dt = dayIndex day
       /\ getPeriodFromDate dt = P
       /\ 720 <= minutesOfDay dt.

(** The same world at another instant. *)
Definition with_clock (w : World) (clock : Date) : World :=
  {| now := clock;
     dayjs_strict := dayjs_strict w;
     normalizePhotoUrl := normalizePhotoUrl w;
     name_leb := name_leb w;
     name_contains := name_contains w;
     random := random w;
     cuid := cuid w;
     cryptoRandom := cryptoRandom w |}.

(** The store without its AFTERNOON and NIGHT blocks. *)
Definition without_period_blocks (st : Store) : Store :=
  {| units := units st;
     areas := areas st;
     reservations := reservations st;
     reservationBlocks :=
       filter (fun b => ReservationBlock.period b = ReservationBlockPeriod.ALL_DAY)
         (reservationBlocks st) |}.

(** ** Concrete scenarios *)

Module Scenario.

(** 2025-03-10. *)
Definition day0 : Z := days_from_civil 2025 3 10.

Definition world_at (clock : Date) : World :=
  {| now := clock;
     dayjs_strict := dayjsParse;
     normalizePhotoUrl := fun p => p;
     name_leb := String.leb;
     name_contains := Js.includes;
     random := fun n => (Z.of_nat (n mod 7) # 8)%Q;
     cuid := fun n => "r" ++ pretty n;
     cryptoRandom := fun n => "t" ++ pretty n |}.

(** The clock reads 09:00 on 2025-03-10. *)
Definition world0 : World := world_at (newDate day0 9 0 0 0).

Definition unit1 : Unit.t :=
  {| Unit.id := "u1"; Unit.name := "Centro"; Unit.slug := "centro";
     Unit.isActive := true |}.

Definition area_with (capAfternoon capNight : option Z) : Area.t :=
  {| Area.id := "a1"; Area.unitId := "u1"; Area.name := "Deck";
     Area.capacityAfternoon := capAfternoon; Area.capacityNight := capNight;
     Area.photoUrl := None; Area.isActive := true;
     Area.description := None; Area.iconEmoji := None |}.

(** A reservation on area a1 of unit u1. *)
Definition booking (id : string) (date : Date) (people kids : Z)
  (status : ReservationStatus.t) (email : option string) : Reservation.t :=
  {| Reservation.id := id;
     Reservation.createdAt := newDate (day0 - 1) 10 0 0 0;
     Reservation.fullName := "Maria Silva";
     Reservation.cpf := None;
     Reservation.people := people;
     Reservation.kids := kids;
     Reservation.reservationDate := date;
     Reservation.birthdayDate := None;
     Reservation.phone := None;
     Reservation.email := email;
     Reservation.notes := None;
     Reservation.unitId := Some "u1";
     Reservation.unit := Some "Centro";
     Reservation.areaId := Some "a1";
     Reservation.areaName := Some "Deck";
     Reservation.utm_source := None;
     Reservation.utm_medium := None;
     Reservation.utm_campaign := None;
     Reservation.utm_content := None;
     Reservation.utm_term := None;
     Reservation.url := None;
     Reservation.ref := None;
     Reservation.source := Some "site";
     Reservation.reservationCode := Some ("CODE" ++ id);
     Reservation.qrToken := "qr-" ++ id;
     Reservation.qrExpiresAt := None;
     Reservation.checkedInAt := None;
     Reservation.status := status;
     Reservation.reservationType := ReservationType.PARTICULAR |}.

Definition store_of (a : Area.t) (rs : list Reservation.t)
  (bs : list ReservationBlock.t) : Store :=
  {| units := [unit1]; areas := [a]; reservations := rs;
     reservationBlocks := bs |}.

Definition block_of (areaId : option string)
  (period : ReservationBlockPeriod.t) : ReservationBlock.t :=
  {| ReservationBlock.id := "b1"; ReservationBlock.unitId := "u1";
     ReservationBlock.areaId := areaId;
     ReservationBlock.date := newDate day0 0 0 0 0;
     ReservationBlock.mode := ReservationBlockMode.PERIOD;
     ReservationBlock.period := period;
     ReservationBlock.reason := None |}.

(** Afternoon capacity 10, one AWAITING_CHECKIN party of 6 + 2 at 13:00. *)
Definition store_1300 : Store :=
  store_of (area_with (Some 10) (Some 4))
    [booking "r1" (newDate day0 13 0 0 0) 6 2
       ReservationStatus.AWAITING_CHECKIN None] [].

(** The same party at 11:00. *)
Definition store_1100 : Store :=
  store_of (area_with (Some 10) (Some 4))
    [booking "r1" (newDate day0 11 0 0 0) 6 2
       ReservationStatus.AWAITING_CHECKIN None] [].

(** Night capacity 4, all of it held by one party of 4 at 19:00. *)
Definition store_1900 : Store :=
  store_of (area_with (Some 10) (Some 4))
    [booking "r1" (newDate day0 19 0 0 0) 4 0
       ReservationStatus.AWAITING_CHECKIN None] [].

(** Afternoon capacity 10 and no reservation yet. *)
Definition store_free : Store :=
  store_of (area_with (Some 10) (Some 4)) [] [].

(** Afternoon capacity 10 and a NIGHT block for the whole unit. *)
Definition store_night_block : Store :=
  store_of (area_with (Some 10) (Some 4)) []
    [block_of None ReservationBlockPeriod.NIGHT].

(** No unit at all, and a contact that holds an AWAITING_CHECKIN
    reservation. *)
Definition store_no_unit : Store :=
  {| units := []; areas := [];
     reservations :=
       [booking "r1" (newDate day0 13 0 0 0) 2 0
          ReservationStatus.AWAITING_CHECKIN (Some "ana@example.com")];
     reservationBlocks := [] |}.

Definition sys_of (st : Store) : Sys :=
  {| db := st; rngCalls := 0; idCalls := 0; tokCalls := 0 |}.

Definition body_of (people : Z) (date : Date) (email : option string)
  : Body.t :=
  {| Body.fullName := Some "Ana Souza";
     Body.cpf := None;
     Body.people := Some (inject_Z people);
     Body.kids := None;
     Body.reservationDate := Some date;
     Body.birthdayDate := None;
     Body.email := email;
     Body.phone := None;
     Body.notes := None;
     Body.unitId := Some "u1";
     Body.areaId := Some "a1";
     Body.utm_source := None;
     Body.utm_medium := None;
     Body.utm_campaign := None;
     Body.utm_content := None;
     Body.utm_term := None;
     Body.url := None;
     Body.ref := None;
     Body.source := None;
     Body.reservationType := None;
     Body.reservation_type := None |}.

Definition request_of (people : Z) (date : Date) (email : option string)
  : Request :=
  {| body := body_of people date email; query_string := ∅ |}.

(** Two parties of 6 ask for 13:00 on 2025-03-10. *)
Definition two_parties : list Request :=
  [request_of 6 (newDate day0 13 0 0 0) None;
   request_of 6 (newDate day0 13 0 0 0) None].

(** Both requests read the capacity before either inserts. *)
Definition both_read_first : list nat :=
  [0; 0; 0; 0; 1; 1; 1; 1; 0; 0; 1; 1]%nat.

(** A world whose [Math.random] always answers 0, and a store that already
    holds the code AAAAAA. *)
Definition world_zero : World :=
  {| now := newDate day0 9 0 0 0;
     dayjs_strict := dayjsParse;
     normalizePhotoUrl := fun p => p;
     name_leb := String.leb;
     name_contains := Js.includes;
     random := fun _ => 0%Q;
     cuid := fun n => "r" ++ pretty n;
     cryptoRandom := fun n => "t" ++ pretty n |}.

Definition store_AAAAAA : Store :=
  {| units := []; areas := [];
     reservations :=
       [{| Reservation.id := "r1";
           Reservation.createdAt := newDate (day0 - 1) 10 0 0 0;
           Reservation.fullName := "Maria Silva";
           Reservation.cpf := None;
           Reservation.people := 2;
           Reservation.kids := 0;
           Reservation.reservationDate := newDate day0 13 0 0 0;
           Reservation.birthdayDate := None;
           Reservation.phone := None;
           Reservation.email := None;
           Reservation.notes := None;
           Reservation.unitId := None;
           Reservation.unit := None;
           Reservation.areaId := None;
           Reservation.areaName := None;
           Reservation.utm_source := None;
           Reservation.utm_medium := None;
           Reservation.utm_campaign := None;
           Reservation.utm_content := None;
           Reservation.utm_term := None;
           Reservation.url := None;
           Reservation.ref := None;
           Reservation.source := None;
           Reservation.reservationCode := Some "AAAAAA";
           Reservation.qrToken := "qr-r1";
           Reservation.qrExpiresAt := None;
           Reservation.checkedInAt := None;
           Reservation.status := ReservationStatus.CHECKED_IN;
           Reservation.reservationType := ReservationType.PARTICULAR |}];
     reservationBlocks := [] |}.

(** PUT /v1/reservations/r1: the party of 4 moves from 19:00 to 20:00. *)
Definition put_2000 : StaffRequest :=
  {| method := "PUT";
     params_id := Some "r1";
     staff_body :=
       {| StaffBody.people := 4; StaffBody.kids := 0;
          StaffBody.reservationDate := Some (newDate day0 20 0 0 0);
          StaffBody.unitId := Some "u1"; StaffBody.unit := None;
          StaffBody.areaId := Some "a1"; StaffBody.area := None;
          StaffBody.areaName := None |} |}.

(** The same update keeping 19:00. *)
Definition put_1900 : StaffRequest :=
  {| method := "PUT";
     params_id := Some "r1";
     staff_body :=
       {| StaffBody.people := 4; StaffBody.kids := 0;
          StaffBody.reservationDate := Some (newDate day0 19 0 0 0);
          StaffBody.unitId := Some "u1"; StaffBody.unit := None;
          StaffBody.areaId := Some "a1"; StaffBody.area := None;
          StaffBody.areaName := None |} |}.

End Scenario.

(** ** Definitions for the further properties *)

(** The remaining seats the availability calculator reports for one area at
    the date and time of [dt], looked up the way [enrichAndValidate] does
    ([list.find((a) => a.id === areaId)] on
    [listByUnitPublic(unitId, toYMD(dt), toHHmm(dt))]). *)
Definition displayed_remaining (w : World) (st : Store) (unitId areaId : string)
  (dt : Date) : option Z :=
  List.find (fun x => String.eqb (dto_id x) areaId)
    (listByUnitPublic w st unitId (Some (toYMD dt)) (Some (toHHmm dt)))
  ≫= remaining.

(** The date parse reads the YYYY-MM-DD rendering of [dt] back as a date of
    the same calendar day. *)
Definition dayjs_reads (w : World) (dt : Date) : Prop :=
  exists b, dayjs_strict w (toYMD dt) = Some b /\ dayIndex b = dayIndex dt.

(** Primary keys: no two areas share an identifier. *)
Definition area_ids_unique (st : Store) : Prop :=
  NoDup (map Area.id (areas st)).

(** ** Look-up by code, check-in and QR renewal (reservations.routes.ts),
    and GET /active (reservations.public.routes.ts) *)

(** [/^[A-Z0-9]{6}$/.test(s)]. *)
Definition is_code_char (c : ascii) : bool :=
  let n := nat_of_ascii c in
  (Nat.leb 65 n && Nat.leb n 90)%bool || Js.is_digit c.

Definition isCode6 (s : string) : bool :=
  Nat.eqb (String.length s) 6 && forallb is_code_char (list_ascii_of_string s).

(** What these routes answer: a bare status, or status 200 with the
    reservation as JSON (a [select] keeps a part of its fields). *)
Inductive Reply :=
| Status (httpStatus : Z)
| Json (r : Reservation.t).

(** [prisma.reservation.findUnique({ where: { reservationCode } })]. *)
Definition reservation_findByCode (code : string) (st : Store)
  : option Reservation.t :=
  List.find (fun r => bool_decide (Reservation.reservationCode r = Some code))
    (reservations st).

(** [prisma.reservation.findFirst({ where: { qrToken } })]. *)
Definition reservation_findByToken (token : string) (st : Store)
  : option Reservation.t :=
  List.find (fun r => String.eqb (Reservation.qrToken r) token) (reservations st).

(** GET /lookup?code=...  *)
Definition lookupByCode (code : option string) : Proc Reply :=
  let raw := Js.toUpperCase (Js.trim (default EmptyString code)) in
  if negb (Js.truthy raw) then Ret (Status 400)
  else if negb (isCode6 raw) then Ret (Status 400)
  else
    Await (query (reservation_findByCode raw)) (fun r =>
    match r with
    | None => Ret (Status 404)
    | Some r => Ret (Json r)
    end).

(** GET /code/:code *)
Definition getByCode (code : string) : Proc Reply :=
  let code := Js.toUpperCase (Js.trim code) in
  if negb (isCode6 code) then Ret (Status 400)
  else
    Await (query (reservation_findByCode code)) (fun r =>
    match r with
    | None => Ret (Status 404)
    | Some r => Ret (Json r)
    end).

(** The row with another check-in state: the four columns the check-in and
    renewal routes write. *)
Definition with_qr_state (r : Reservation.t) (status : ReservationStatus.t)
  (checkedInAt : option Date) (qrToken : string) (qrExpiresAt : option Date)
  : Reservation.t :=
  {| Reservation.id := Reservation.id r;
     Reservation.createdAt := Reservation.createdAt r;
     Reservation.fullName := Reservation.fullName r;
     Reservation.cpf := Reservation.cpf r;
     Reservation.people := Reservation.people r;
     Reservation.kids := Reservation.kids r;
     Reservation.reservationDate := Reservation.reservationDate r;
     Reservation.birthdayDate := Reservation.birthdayDate r;
     Reservation.phone := Reservation.phone r;
     Reservation.email := Reservation.email r;
     Reservation.notes := Reservation.notes r;
     Reservation.unitId := Reservation.unitId r;
     Reservation.unit := Reservation.unit r;
     Reservation.areaId := Reservation.areaId r;
     Reservation.areaName := Reservation.areaName r;
     Reservation.utm_source := Reservation.utm_source r;
     Reservation.utm_medium := Reservation.utm_medium r;
     Reservation.utm_campaign := Reservation.utm_campaign r;
     Reservation.utm_content := Reservation.utm_content r;
     Reservation.utm_term := Reservation.utm_term r;
     Reservation.url := Reservation.url r;
     Reservation.ref := Reservation.ref r;
     Reservation.source := Reservation.source r;
     Reservation.reservationCode := Reservation.reservationCode r;
     Reservation.qrToken := qrToken;
     Reservation.qrExpiresAt := qrExpiresAt;
     Reservation.checkedInAt := checkedInAt;
     Reservation.status := status;
     Reservation.reservationType := Reservation.reservationType r |}.

Fixpoint update_first (id : string) (f : Reservation.t -> Reservation.t)
  (rows : list Reservation.t) : list Reservation.t :=
  match rows with
  | [] => []
  | r :: rest =>
      if String.eqb (Reservation.id r) id then f r :: rest
      else r :: update_first id f rest
  end.

(** [prisma.reservation.update({ where: { id }, data })]: the call throws
    ([None]) when no row has the id, and when it would give the row a
    [qrToken] another row holds (unique index); nothing is written then. *)
Definition reservation_update (id : string)
  (f : Reservation.t -> Reservation.t) (s : Sys) : option Reservation.t * Sys :=
  match reservation_findUnique id (db s) with
  | None => (None, s)
  | Some r =>
      if negb (String.eqb (Reservation.qrToken (f r)) (Reservation.qrToken r))
         && existsb (fun x => String.eqb (Reservation.qrToken x)
                                (Reservation.qrToken (f r)))
              (reservations (db s))
      then (None, s)
      else
        (Some (f r),
         {| db := {| units := units (db s);
                     areas := areas (db s);
                     reservations := update_first id f (reservations (db s));
                     reservationBlocks := reservationBlocks (db s) |};
            rngCalls := rngCalls s;
            idCalls := idCalls s;
            tokCalls := tokCalls s |})
  end.

(** [data: { status: 'CHECKED_IN', checkedInAt: new Date() }]. *)
Definition check_in (w : World) (r : Reservation.t) : Reservation.t :=
  with_qr_state r ReservationStatus.CHECKED_IN (Some (now w))
    (Reservation.qrToken r) (Reservation.qrExpiresAt r).

(** What a route answers once its [update] has returned or thrown (the
    error handler answers 500). *)
Definition reply_updated (u : option Reservation.t) : Proc Reply :=
  match u with
  | Some r => Ret (Json r)
  | None => Ret (Status 500)
  end.

(** POST /:id/checkin *)
Definition checkinById (w : World) (id : string) : Proc Reply :=
  Await (query (reservation_findUnique id)) (fun r =>
  match r with
  | None => Ret (Status 404)
  | Some r =>
      if bool_decide (Reservation.checkedInAt r <> None) then Ret (Status 409)
      else Await (reservation_update id (check_in w)) reply_updated
  end).

(** POST /checkin/by-token, with [req.body?.token]. *)
Definition checkinByToken (w : World) (token : option string) : Proc Reply :=
  let token := Js.trim (default EmptyString token) in
  if negb (Js.truthy token) then Ret (Status 400)
  else
    Await (query (reservation_findByToken token)) (fun r =>
    match r with
    | None => Ret (Status 404)
    | Some r =>
        if match Reservation.qrExpiresAt r with
           | Some e => e <? now w
           | None => false
           end
        then Ret (Status 410)
        else if bool_decide (Reservation.checkedInAt r <> None)
        then Ret (Status 409)
        else Await (reservation_update (Reservation.id r) (check_in w))
               reply_updated
    end).

(** [data: { qrToken: newQrToken(), qrExpiresAt: computeQrExpiry(),
    status: 'AWAITING_CHECKIN', checkedInAt: null }].  [newQrToken()] is 16
    random bytes in hex, as [cryptoRandom()]; [ttlHours] is
    [Number(process.env.QR_TTL_HOURS || 24)], a whole number of hours. *)
Definition renewed (w : World) (ttlHours : Z) (token : string)
  (r : Reservation.t) : Reservation.t :=
  with_qr_state r ReservationStatus.AWAITING_CHECKIN None token
    (Some (now w + ttlHours * 3600000)).

Definition update_renewed (w : World) (ttlHours : Z) (id : string) (s : Sys)
  : option Reservation.t * Sys :=
  let '(token, s1) := next_cryptoRandom w s in
  reservation_update id (renewed w ttlHours token) s1.

(** POST /:id/qr/renew *)
Definition renewQrById (w : World) (ttlHours : Z) (id : string) : Proc Reply :=
  Await (query (reservation_findUnique id)) (fun r =>
  match r with
  | None => Ret (Status 404)
  | Some _ => Await (update_renewed w ttlHours id) reply_updated
  end).

(** POST /code/:code/qr/renew *)
Definition renewQrByCode (w : World) (ttlHours : Z) (code : string)
  : Proc Reply :=
  let code := Js.toUpperCase (Js.trim code) in
  if negb (isCode6 code) then Ret (Status 400)
  else
    Await (query (reservation_findByCode code)) (fun r =>
    match r with
    | None => Ret (Status 404)
    | Some r =>
        Await (update_renewed w ttlHours (Reservation.id r)) reply_updated
    end).

(** The [findFirst] of GET /active: status AWAITING_CHECKIN, and the e-mail
    and the phone when given (both must match), the most recently created
    first. *)
Definition findActiveExact (email phone : option string) (st : Store)
  : option Reservation.t :=
  head
    (sort_by (fun a b => Reservation.createdAt b <=? Reservation.createdAt a)
       (filter
          (fun r =>
             bool_decide (Reservation.status r = ReservationStatus.AWAITING_CHECKIN)
             && (negb (Js.truthy_opt email)
                 || bool_decide (Reservation.email r = email))
             && (negb (Js.truthy_opt phone)
                 || bool_decide (Reservation.phone r = phone)))
          (reservations st))).

(** GET /active, with the query parameters [id], [email] and [phone]. *)
Definition getActive (id email phone : option string) : Proc Reply :=
  let id := Js.trim <$> id in
  let email := toLowerEmail email in
  let phone := Js.digits_only <$> phone in
  if Js.truthy_opt id then
    Await (query (reservation_findUnique (default EmptyString id))) (fun r =>
    match r with
    | Some r =>
        if bool_decide (Reservation.status r = ReservationStatus.AWAITING_CHECKIN)
        then Ret (Json r) else Ret (Status 404)
    | None => Ret (Status 404)
    end)
  else if negb (Js.truthy_opt email) && negb (Js.truthy_opt phone)
  then Ret (Status 400)
  else
    Await (query (findActiveExact email phone)) (fun r =>
    match r with
    | Some r => Ret (Json r)
    | None => Ret (Status 404)
    end).

(** Primary key and unique index: no two reservations share an id, or a QR
    token. *)
Definition reservation_keys_unique (st : Store) : Prop :=
  NoDup (map Reservation.id (reservations st))
  /\ NoDup (map Reservation.qrToken (reservations st)).

(** Two rows that the availability calculator cannot tell apart. *)
Definition same_booking (r r' : Reservation.t) : Prop :=
  Reservation.areaId r = Reservation.areaId r'
  /\ Reservation.people r = Reservation.people r'
  /\ Reservation.kids r = Reservation.kids r'
  /\ Reservation.reservationDate r = Reservation.reservationDate r'
  /\ status_counts (Reservation.status r) = status_counts (Reservation.status r').

(** ** Period blocks (blocks.routes.ts) *)

Module BlockBody.
(** The body of POST /v1/blocks/period; [period] is one of the three
    values of the enum, [areaId] is [None] when absent or null. *)
Record t := mk {
  unitId : string;
  areaId : option string;
  date : string;
  period : ReservationBlockPeriod.t;
  reason : option string
}.
End BlockBody.

(** [/^\d{4}-\d{2}-\d{2}$/.test(s)]. *)
Definition isYMDShape (s : string) : bool :=
  match s with
  | String y1 (String y2 (String y3 (String y4 (String s1
      (String m1 (String m2 (String s2 (String d1 (String d2
      EmptyString))))))))) =>
      forallb Js.is_digit [y1; y2; y3; y4; m1; m2; d1; d2]
      && Ascii.eqb s1 "-"%char && Ascii.eqb s2 "-"%char
  | _ => false
  end.

(** [bodySchema.parse(req.body)] succeeds. *)
Definition bodySchema_ok (b : BlockBody.t) : bool :=
  Js.truthy (BlockBody.unitId b)
  && match BlockBody.areaId b with Some a => Js.truthy a | None => true end
  && isYMDShape (BlockBody.date b)
  && match BlockBody.reason b with
     | Some r => (String.length r <=? 255)%nat
     | None => true
     end.

Inductive BlockReply :=
| BlockStatus (httpStatus : Z)
| BlockJson (b : ReservationBlock.t).

(** The [findFirst] of POST /period: the same unit, area (or none), day
    start, mode and period. *)
Definition block_findFirst (unitId : string) (areaId : option string)
  (dayStart : Date) (period : ReservationBlockPeriod.t) (st : Store)
  : option ReservationBlock.t :=
  List.find
    (fun x =>
       String.eqb (ReservationBlock.unitId x) unitId
       && bool_decide (ReservationBlock.areaId x = areaId)
       && (ReservationBlock.date x =? dayStart)
       && bool_decide (ReservationBlock.mode x = ReservationBlockMode.PERIOD)
       && bool_decide (ReservationBlock.period x = period))
    (reservationBlocks st).

Definition block_findUnique (id : string) (st : Store)
  : option ReservationBlock.t :=
  List.find (fun x => String.eqb (ReservationBlock.id x) id)
    (reservationBlocks st).

Definition with_blocks (s : Sys) (blocks : list ReservationBlock.t) : Sys :=
  {| db := {| units := units (db s);
              areas := areas (db s);
              reservations := reservations (db s);
              reservationBlocks := blocks |};
     rngCalls := rngCalls s;
     idCalls := idCalls s;
     tokCalls := tokCalls s |}.

Fixpoint block_update_first (id : string)
  (f : ReservationBlock.t -> ReservationBlock.t)
  (rows : list ReservationBlock.t) : list ReservationBlock.t :=
  match rows with
  | [] => []
  | x :: rest =>
      if String.eqb (ReservationBlock.id x) id then f x :: rest
      else x :: block_update_first id f rest
  end.

(** [prisma.reservationBlock.update({ where: { id }, data })]; it throws
    ([None]) when no row has the id. *)
Definition reservationBlock_update (id : string)
  (f : ReservationBlock.t -> ReservationBlock.t) (s : Sys)
  : option ReservationBlock.t * Sys :=
  match block_findUnique id (db s) with
  | None => (None, s)
  | Some x =>
      (Some (f x),
       with_blocks s (block_update_first id f (reservationBlocks (db s))))
  end.

(** [prisma.reservationBlock.create]: the store assigns the id; the call
    throws ([None]) on a duplicate id and when the unit, or the area when
    one is given, does not exist (the relations [unit] and [area] of the
    model). *)
Definition reservationBlock_create (w : World)
  (mkRow : string -> ReservationBlock.t) (s : Sys)
  : option ReservationBlock.t * Sys :=
  let row := mkRow (cuid w (idCalls s)) in
  let s' := {| db := db s; rngCalls := rngCalls s;
               idCalls := S (idCalls s); tokCalls := tokCalls s |} in
  if existsb (fun x => String.eqb (ReservationBlock.id x) (ReservationBlock.id row))
       (reservationBlocks (db s))
     || negb (existsb (fun u => String.eqb (Unit.id u) (ReservationBlock.unitId row))
                (units (db s)))
     || match ReservationBlock.areaId row with
        | Some a => negb (existsb (fun x => String.eqb (Area.id x) a) (areas (db s)))
        | None => false
        end
  then (None, s')
  else (Some row, with_blocks s' (reservationBlocks (db s) ++ [row])).

Definition reply_block (u : option ReservationBlock.t) : Proc BlockReply :=
  match u with
  | Some b => Ret (BlockJson b)
  | None => Ret (BlockStatus 500)
  end.

Definition with_reason (x : ReservationBlock.t) (reason : option string)
  : ReservationBlock.t :=
  {| ReservationBlock.id := ReservationBlock.id x;
     ReservationBlock.unitId := ReservationBlock.unitId x;
     ReservationBlock.areaId := ReservationBlock.areaId x;
     ReservationBlock.date := ReservationBlock.date x;
     ReservationBlock.mode := ReservationBlock.mode x;
     ReservationBlock.period := ReservationBlock.period x;
     ReservationBlock.reason := reason |}.

(** POST /v1/blocks/period: find first, then update the reason or create.
    A body the schema rejects makes [parse] throw (500). *)
Definition postBlockPeriod (w : World) (b : BlockBody.t) : Proc BlockReply :=
  if negb (bodySchema_ok b) then Ret (BlockStatus 500)
  else
    match dayjs_strict w (BlockBody.date b) with
    | None => Ret (BlockStatus 400)
    | Some base =>
        let dayStart := startOfDay base in
        Await (query (block_findFirst (BlockBody.unitId b) (BlockBody.areaId b)
                        dayStart (BlockBody.period b)))
          (fun existing =>
             match existing with
             | Some e =>
                 Await (reservationBlock_update (ReservationBlock.id e)
                          (fun x =>
                             with_reason x
                               (or_else (BlockBody.reason b)
                                  (ReservationBlock.reason e))))
                   reply_block
             | None =>
                 Await (reservationBlock_create w
                          (fun id =>
                             {| ReservationBlock.id := id;
                                ReservationBlock.unitId := BlockBody.unitId b;
                                ReservationBlock.areaId := BlockBody.areaId b;
                                ReservationBlock.date := dayStart;
                                ReservationBlock.mode := ReservationBlockMode.PERIOD;
                                ReservationBlock.period := BlockBody.period b;
                                ReservationBlock.reason := BlockBody.reason b |}))
                   reply_block
             end)
    end.

Fixpoint block_delete_first (id : string) (rows : list ReservationBlock.t)
  : list ReservationBlock.t :=
  match rows with
  | [] => []
  | x :: rest =>
      if String.eqb (ReservationBlock.id x) id then rest
      else x :: block_delete_first id rest
  end.

(** [prisma.reservationBlock.delete({ where: { id } })]; [false] when it
    throws because no row has the id. *)
Definition reservationBlock_delete (id : string) (s : Sys) : bool * Sys :=
  match block_findUnique id (db s) with
  | None => (false, s)
  | Some _ => (true, with_blocks s (block_delete_first id (reservationBlocks (db s))))
  end.

(** DELETE /v1/blocks/:id *)
Definition deleteBlock (id : string) : Proc BlockReply :=
  Await (query (block_findUnique id)) (fun existing =>
  match existing with
  | None => Ret (BlockStatus 404)
  | Some _ =>
      Await (reservationBlock_delete id) (fun ok =>
      if ok then Ret (BlockStatus 204) else Ret (BlockStatus 500))
  end).

(** The period a time string selects in [listByUnitPublic]. *)
Definition period_of_time (timeHHmm : string) : Period :=
  clampToBusinessWindow
    (if isValidHHmm (Some timeHHmm) then timeHHmm else "12:00").

(** ** Reservation codes of the repository (PrismaReservationRepository.ts) *)

(** [ALPHABET[i]] appended to a string ([ALPHABET] is the alphabet of the
    public route). *)
Definition alphabet_at (i : Z) : string :=
  match Js.charAt code_alphabet i with
  | Some c => String c EmptyString
  | None => "undefined"
  end.

(** [genCode(len)], from the bytes [crypto.randomBytes(len)] returned. *)
Fixpoint genCode (bytes : list Z) : string :=
  match bytes with
  | [] => EmptyString
  | b :: rest =>
      alphabet_at (b mod Z.of_nat (String.length code_alphabet)) ++ genCode rest
  end.

(** [uniqueReservationCode()]: up to [n] attempts, [None] when it throws.
    [randomBytes k] is what the [k]-th call of [crypto.randomBytes(6)]
    returns; the calls are counted in [rngCalls]. *)
Fixpoint uniqueReservationCode_loop (randomBytes : nat -> list Z) (n : nat)
  : Proc (option string) :=
  match n with
  | O => Ret None
  | S n' =>
      Await (fun s =>
               let code := genCode (randomBytes (rngCalls s)) in
               ((code, reservationCode_exists code (db s)),
                {| db := db s; rngCalls := S (rngCalls s);
                   idCalls := idCalls s; tokCalls := tokCalls s |}))
            (fun r =>
               if negb r.2 then Ret (Some r.1)
               else uniqueReservationCode_loop randomBytes n')
  end.

Definition uniqueReservationCode (randomBytes : nat -> list Z)
  : Proc (option string) :=
  uniqueReservationCode_loop randomBytes 25.

(** Six bytes, each in 0..255. *)
Definition six_bytes (bytes : list Z) : Prop :=
  length bytes = 6%nat /\ Forall (fun b => 0 <= b < 256) bytes.

(** The byte values that select a given symbol. *)
Definition bytes_selecting (c : ascii) : list Z :=
  filter (fun b => String.eqb (genCode [b]) (String c EmptyString))
    (seqZ 0 256).

(** ** Listing the reservations (PrismaReservationRepository.findMany) *)

Module FindManyParams.
(** [from] and [to] are [Some d] when [isValidDate(d)]; [skip] and [take]
    are numbers, [None] when NaN. *)
Record t := mk {
  search : option string;
  unit : option string;
  unitId : option string;
  areaId : option string;
  from : option Date;
  to : option Date;
  skip : option Z;
  take : option Z
}.
End FindManyParams.

Record ReservationPage := {
  items : list Reservation.t;
  total : Z
}.

(** [Math.max(0, Number(skip) || 0)]. *)
Definition safeSkip (p : FindManyParams.t) : Z :=
  Z.max 0 (default 0 (FindManyParams.skip p)).

(** [Math.min(100, Math.max(1, Number(take) || 20))]. *)
Definition safeTake (p : FindManyParams.t) : Z :=
  Z.min 100
    (Z.max 1
       (match FindManyParams.take p with
        | Some t => if t =? 0 then 20 else t
        | None => 20
        end)).

(** [{ contains: q }] on a nullable column. *)
Definition contains_opt (w : World) (field : option string) (q : string) : bool :=
  match field with
  | Some f => name_contains w f q
  | None => false
  end.

(** The [where] of the normal path: the conjunction of the filters that
    were pushed to [AND]. *)
Definition findMany_where (w : World) (p : FindManyParams.t) (q : string)
  (r : Reservation.t) : bool :=
  (negb (Js.truthy q)
   || (name_contains w (Reservation.fullName r) q
       || contains_opt w (Reservation.email r) q
       || contains_opt w (Reservation.phone r) q
       || contains_opt w (Reservation.cpf r) q
       || contains_opt w (Reservation.utm_campaign r) q
       || contains_opt w (Reservation.reservationCode r) (Js.toUpperCase q)))
  && (if Js.truthy_opt (FindManyParams.unitId p)
      then bool_decide (Reservation.unitId r = FindManyParams.unitId p)
      else if Js.truthy_opt (FindManyParams.unit p)
      then bool_decide (Reservation.unit r = FindManyParams.unit p)
      else true)
  && (if Js.truthy_opt (FindManyParams.areaId p)
      then bool_decide (Reservation.areaId r = FindManyParams.areaId p)
      else true)
  && match FindManyParams.from p with
     | Some f => f <=? Reservation.reservationDate r
     | None => true
     end
  && match FindManyParams.to p with
     | Some t => Reservation.reservationDate r <=? endOfDay t
     | None => true
     end.

Definition empty_page : ReservationPage := {| items := []; total := 0 |}.

(** [orderBy: { createdAt: 'desc' }]. *)
Definition newest_first (rows : list Reservation.t) : list Reservation.t :=
  sort_by (fun a b => Reservation.createdAt b <=? Reservation.createdAt a) rows.

(** [findMany], against one state of the store (its two queries are issued
    together). *)
Definition findMany (w : World) (p : FindManyParams.t) (st : Store)
  : ReservationPage :=
  let q := Js.trim (default EmptyString (FindManyParams.search p)) in
  if Js.truthy q && isCode6 (Js.toUpperCase q) then
    match reservation_findByCode (Js.toUpperCase q) st with
    | None => empty_page
    | Some hit =>
        if Js.truthy_opt (FindManyParams.unitId p)
           && negb (bool_decide (Reservation.unitId hit = FindManyParams.unitId p))
        then empty_page
        else if Js.truthy_opt (FindManyParams.areaId p)
                && negb (bool_decide (Reservation.areaId hit = FindManyParams.areaId p))
        then empty_page
        else if Js.truthy_opt (FindManyParams.unit p)
                && Js.truthy_opt (Reservation.unit hit)
                && negb (bool_decide (FindManyParams.unit p = Reservation.unit hit))
        then empty_page
        else {| items := [hit]; total := 1 |}
    end
  else
    let matches := filter (findMany_where w p q) (reservations st) in
    {| items := take (Z.to_nat (safeTake p))
                  (drop (Z.to_nat (safeSkip p)) (newest_first matches));
       total := Z.of_nat (length matches) |}.

(** The parameters of page [i] (from 0) of size [n]. *)
Definition page_params (p : FindManyParams.t) (n : Z) (i : nat)
  : FindManyParams.t :=
  {| FindManyParams.search := FindManyParams.search p;
     FindManyParams.unit := FindManyParams.unit p;
     FindManyParams.unitId := FindManyParams.unitId p;
     FindManyParams.areaId := FindManyParams.areaId p;
     FindManyParams.from := FindManyParams.from p;
     FindManyParams.to := FindManyParams.to p;
     FindManyParams.skip := Some (Z.of_nat i * n);
     FindManyParams.take := Some n |}.

(** The search text selects the look-up by code. *)
Definition is_code_search (p : FindManyParams.t) : bool :=
  let q := Js.trim (default EmptyString (FindManyParams.search p)) in
  Js.truthy q && isCode6 (Js.toUpperCase q).

(* ================================================================== *)
(** * Proofs *)
(* ================================================================== *)

(** ** Time *)

Lemma getHours_range d : 0 <= getHours d < 24.
Proof.
  unfold getHours, msOfDay, MS_PER_DAY.
  pose proof (Z.mod_pos_bound d 86400000 ltac:(lia)) as H.
  split; [apply Z.div_pos; lia | apply Z.div_lt_upper_bound; lia].
Qed.

Lemma getMinutes_range d : 0 <= getMinutes d < 60.
Proof.
  unfold getMinutes.
  pose proof (Z.mod_pos_bound (msOfDay d) 3600000 ltac:(lia)) as H.
  split; [apply Z.div_pos; lia | apply Z.div_lt_upper_bound; lia].
Qed.

Lemma msOfDay_range d : 0 <= msOfDay d < MS_PER_DAY.
Proof. apply Z.mod_pos_bound. unfold MS_PER_DAY. lia. Qed.

Lemma date_decompose d : d = dayIndex d * MS_PER_DAY + msOfDay d.
Proof.
  unfold dayIndex, msOfDay.
  pose proof (Z.div_mod d MS_PER_DAY ltac:(unfold MS_PER_DAY; lia)). lia.
Qed.

Lemma dayIndex_newDate day t :
  0 <= t < MS_PER_DAY -> dayIndex (day * MS_PER_DAY + t) = day.
Proof.
  intros H. unfold dayIndex.
  rewrite Z.add_comm, Z.div_add by (unfold MS_PER_DAY; lia).
  rewrite Z.div_small by assumption. lia.
Qed.

(** Minutes since midnight, from the milliseconds of the day. *)
Lemma minutes_of_day d :
  getHours d * 60 + getMinutes d = msOfDay d / 60000.
Proof.
  unfold getHours, getMinutes.
  pose proof (msOfDay_range d) as Hr. unfold MS_PER_DAY in Hr.
  set (x := msOfDay d) in *.
  pose proof (Z.div_mod x 3600000 ltac:(lia)) as E.
  pose proof (Z.mod_pos_bound x 3600000 ltac:(lia)) as B.
  set (h := x / 3600000) in *. set (r := x mod 3600000) in *.
  rewrite E.
  replace (3600000 * h + r) with (r + (h * 60) * 60000) by lia.
  rewrite Z.div_add by lia. lia.
Qed.

(** ** Period classifier *)

Lemma digit_char_digit d :
  0 <= d <= 9 ->
  Js.is_digit (Js.digit_char d) = true /\ Js.digit_val (Js.digit_char d) = d.
Proof.
  intros H.
  assert (d = 0 \/ d = 1 \/ d = 2 \/ d = 3 \/ d = 4 \/ d = 5 \/ d = 6
          \/ d = 7 \/ d = 8 \/ d = 9) as C by lia.
  repeat (destruct C as [-> | C]; [split; reflexivity |]).
  subst; split; reflexivity.
Qed.

Lemma digit_not_colon c : Js.is_digit c = true -> Ascii.eqb c ":"%char = false.
Proof.
  intros H. destruct (Ascii.eqb_spec c ":"%char) as [-> | ?]; [| reflexivity].
  discriminate H.
Qed.

Lemma split_hhmm a b c d :
  Js.is_digit a = true -> Js.is_digit b = true ->
  Js.is_digit c = true -> Js.is_digit d = true ->
  Js.split ":"%char
    (String a (String b (String ":"%char (String c (String d EmptyString)))))
  = [String a (String b EmptyString); String c (String d EmptyString)].
Proof.
  intros Ha Hb Hc Hd. unfold Js.split. simpl.
  rewrite (digit_not_colon a Ha), (digit_not_colon b Hb),
    (digit_not_colon c Hc), (digit_not_colon d Hd).
  reflexivity.
Qed.

Lemma Number_two_digits a b :
  Js.is_digit a = true -> Js.is_digit b = true ->
  Js.Number (String a (String b EmptyString))
  = Some (10 * Js.digit_val a + Js.digit_val b).
Proof.
  intros Ha Hb. unfold Js.Number. simpl. rewrite Ha, Hb. simpl.
  f_equal.
Qed.

(** The string classifier on a well-formed HH:mm string reads the two
    numbers back. *)
Lemma clamp_digits a b c d :
  Js.is_digit a = true -> Js.is_digit b = true ->
  Js.is_digit c = true -> Js.is_digit d = true ->
  clampToBusinessWindow
    (String a (String b (String ":"%char (String c (String d EmptyString)))))
  = spec_classify
      ((10 * Js.digit_val a + Js.digit_val b) * 60
       + (10 * Js.digit_val c + Js.digit_val d)).
Proof.
  intros Ha Hb Hc Hd. unfold clampToBusinessWindow.
  rewrite split_hhmm by assumption. cbn [map lookup list_lookup mjoin].
  rewrite !Number_two_digits by assumption.
  cbn [mjoin option_join Js.or0 default].
  unfold spec_classify, EVENING_CUTOFF_MIN.
  set (mins := _ * 60 + _).
  destruct (mins <? 12 * 60) eqn:E1.
  - replace (mins <? 720) with true by (symmetry; exact E1). reflexivity.
  - replace (mins <? 720) with false by (symmetry; exact E1).
    destruct (Z.geb_spec mins (17 * 60 + 30)), (Z.ltb_spec mins 1050);
      (reflexivity || lia).
Qed.

Lemma pad2_digits n :
  0 <= n < 100 ->
  exists a b, Js.pad2 n = String a (String b EmptyString)
              /\ Js.is_digit a = true /\ Js.is_digit b = true
              /\ 10 * Js.digit_val a + Js.digit_val b = n.
Proof.
  intros H. unfold Js.pad2.
  pose proof (Z.div_mod n 10 ltac:(lia)) as E.
  pose proof (Z.mod_pos_bound n 10 ltac:(lia)) as B.
  assert (0 <= n / 10 <= 9) as Hq.
  { split; [apply Z.div_pos; lia |].
    assert (n / 10 < 10) by (apply Z.div_lt_upper_bound; lia). lia. }
  destruct (digit_char_digit (n / 10) Hq) as [A1 A2].
  destruct (digit_char_digit (n mod 10) ltac:(lia)) as [B1 B2].
  eexists _, _. split; [reflexivity |]. rewrite A2, B2. auto with zarith.
Qed.

Lemma clamp_pad2 h m :
  0 <= h < 100 -> 0 <= m < 100 ->
  clampToBusinessWindow (Js.pad2 h ++ ":" ++ Js.pad2 m)
  = spec_classify (h * 60 + m).
Proof.
  intros Hh Hm.
  destruct (pad2_digits h Hh) as (a & b & E1 & Ha & Hb & V1).
  destruct (pad2_digits m Hm) as (c & d & E2 & Hc & Hd & V2).
  rewrite E1, E2. cbv [String.append].
  rewrite clamp_digits by assumption. rewrite V1, V2. reflexivity.
Qed.

Lemma clamp_toHHmm t :
  clampToBusinessWindow (toHHmm t)
  = spec_classify (getHours t * 60 + getMinutes t).
Proof.
  unfold toHHmm. apply clamp_pad2.
  - pose proof (getHours_range t). lia.
  - pose proof (getMinutes_range t). lia.
Qed.

Lemma getPeriodFromDate_rule t :
  getPeriodFromDate t = spec_classify (getHours t * 60 + getMinutes t).
Proof.
  unfold getPeriodFromDate, spec_classify, EVENING_CUTOFF_MIN.
  set (mins := _ * 60 + _).
  destruct (mins <? 12 * 60) eqn:E1.
  - replace (mins <? 720) with true by (symmetry; exact E1). reflexivity.
  - replace (mins <? 720) with false by (symmetry; exact E1).
    destruct (Z.geb_spec mins (17 * 60 + 30)), (Z.ltb_spec mins 1050);
      (reflexivity || lia).
Qed.

(** C7.  For every timestamp [t], with [mins = hour * 60 + minute]: the
    Date-based classifier of the public route returns AFTERNOON when
    [mins < 720], AFTERNOON when [720 <= mins < 1050] and NIGHT when
    [mins >= 1050]; the HH:mm-string classifier of the areas service,
    applied to the HH:mm rendering of [t], returns the same period; and on
    every string of two digits, a colon and two digits the string
    classifier follows the same rule on [mins = hh * 60 + mm]. *)
Theorem period_classifiers_agree (t : Date) :
  let mins := getHours t * 60 + getMinutes t in
  getPeriodFromDate t
  = (if mins <? 720 then AFTERNOON
     else if mins <? 1050 then AFTERNOON else NIGHT)
  /\ clampToBusinessWindow (toHHmm t) = getPeriodFromDate t
  /\ forall hh mm : Z,
       let h := hh mod 100 in
       let m := mm mod 100 in
       clampToBusinessWindow (Js.pad2 h ++ ":" ++ Js.pad2 m)
       = (if h * 60 + m <? 720 then AFTERNOON
          else if h * 60 + m <? 1050 then AFTERNOON else NIGHT).
Proof.
  cbv zeta. split; [| split].
  - apply getPeriodFromDate_rule.
  - rewrite clamp_toHHmm, getPeriodFromDate_rule. reflexivity.
  - intros hh mm. apply clamp_pad2; apply Z.mod_pos_bound; lia.
Qed.

(** ** Capacity aggregation *)

Lemma sumZ_app l1 l2 : sumZ (l1 ++ l2) = sumZ l1 + sumZ l2.
Proof. induction l1 as [| x l1 IH]; simpl; [reflexivity | rewrite IH; lia]. Qed.

Lemma sumZ_map_add {A} (f g : A -> Z) (l : list A) :
  sumZ (map f l) + sumZ (map g l) = sumZ (map (fun x => f x + g x) l).
Proof. induction l as [| x l IH]; simpl; [reflexivity | rewrite <- IH; lia]. Qed.

Lemma rows_of_area_absent k rows :
  k ∉ map Reservation.areaId rows -> rows_of_area k rows = [].
Proof.
  intros H. unfold rows_of_area.
  induction rows as [| r rows IH]; [reflexivity |].
  rewrite filter_cons. simpl in H.
  destruct (decide _) as [E | E].
  - apply bool_decide_unpack in E. exfalso. apply H. rewrite <- E. left.
  - apply IH. intros Hin. apply H. right. exact Hin.
Qed.

Section UsedMap.

Variable id : string.
Hypothesis id_nonempty : id <> EmptyString.

Let step := fun (m : gmap string Z) (g : AreaGroup) =>
  match g_areaId g with
  | Some i => if Js.truthy i then <[i := group_used g]> m else m
  | None => m
  end.

Lemma truthy_nonempty : Js.truthy id = true.
Proof using id_nonempty. destruct id; [congruence | reflexivity]. Qed.

Lemma usedMap_step_other (m : gmap string Z) g :
  g_areaId g <> Some id -> step m g !! id = m !! id.
Proof using Type.
  intros H. unfold step. destruct (g_areaId g) as [i |]; [| reflexivity].
  destruct (Js.truthy i); [| reflexivity].
  apply lookup_insert_ne. congruence.
Qed.

Lemma usedMap_fold_lookup (gs : list AreaGroup) (m : gmap string Z) :
  NoDup (map g_areaId gs) ->
  foldl step m gs !! id
  = match List.find (fun g => bool_decide (g_areaId g = Some id)) gs with
    | Some g => Some (group_used g)
    | None => m !! id
    end.
Proof using id_nonempty.
  revert m. induction gs as [| g gs IH]; intros m Hnd; [reflexivity |].
  simpl in Hnd. apply NoDup_cons in Hnd as [Hnotin Hnd].
  cbn [foldl List.find]. rewrite IH by assumption.
  destruct (bool_decide (g_areaId g = Some id)) eqn:E.
  - apply bool_decide_eq_true in E.
    assert (List.find (fun g0 => bool_decide (g_areaId g0 = Some id)) gs = None) as ->.
    { destruct (List.find _ gs) as [g' |] eqn:F; [| reflexivity].
      apply List.find_some in F as [Hin F]. apply bool_decide_eq_true in F.
      exfalso. apply Hnotin. rewrite E, <- F.
      apply list_elem_of_fmap_2, list_elem_of_In, Hin. }
    unfold step. rewrite E, truthy_nonempty. apply lookup_insert_eq.
  - apply bool_decide_eq_false in E.
    rewrite usedMap_step_other by assumption. reflexivity.
Qed.

Lemma find_group_of_keys (mk : option string -> AreaGroup) ks :
  (forall k, g_areaId (mk k) = k) ->
  List.find (fun g => bool_decide (g_areaId g = Some id)) (map mk ks)
  = if bool_decide (Some id ∈ ks) then Some (mk (Some id)) else None.
Proof using Type.
  intros Hk. induction ks as [| k ks IH]; [reflexivity |].
  cbn [map List.find]. rewrite Hk.
  destruct (bool_decide (k = Some id)) eqn:E.
  - apply bool_decide_eq_true in E. subst k.
    rewrite bool_decide_eq_true_2 by left. reflexivity.
  - apply bool_decide_eq_false in E. rewrite IH.
    destruct (bool_decide (Some id ∈ ks)) eqn:F.
    + apply bool_decide_eq_true in F.
      rewrite bool_decide_eq_true_2 by (right; exact F). reflexivity.
    + apply bool_decide_eq_false in F.
      rewrite bool_decide_eq_false_2; [reflexivity |].
      intros [? | ?]%elem_of_cons; congruence.
Qed.

(** [usedMap.get(id) ?? 0] is the sum of people + kids over the selected
    rows of the area. *)
Lemma usedMap_get (rows : list Reservation.t) :
  default 0 (usedMap_of (groupBy_areaId rows) !! id)
  = sumZ (map (fun r => Reservation.people r + Reservation.kids r)
            (rows_of_area (Some id) rows)).
Proof using id_nonempty.
  unfold usedMap_of. fold step. unfold groupBy_areaId.
  rewrite usedMap_fold_lookup.
  2:{ rewrite map_map. cbn [g_areaId]. rewrite map_id. apply NoDup_remove_dups. }
  rewrite find_group_of_keys by reflexivity.
  destruct (bool_decide _) eqn:E.
  - cbn [default group_used g_sum_people g_sum_kids]. apply sumZ_map_add.
  - apply bool_decide_eq_false in E. rewrite lookup_empty. cbn [default].
    rewrite rows_of_area_absent; [reflexivity |].
    intros H. apply E. apply elem_of_remove_dups. exact H.
Qed.

End UsedMap.

Lemma rows_of_area_window A win rows :
  rows_of_area (Some A) (filter (reservation_where_window win) rows)
  = filter
      (fun r =>
         bool_decide (Reservation.areaId r = Some A)
         && status_counts (Reservation.status r)
         && inWindow win (Reservation.reservationDate r))
      rows.
Proof.
  unfold rows_of_area. rewrite list_filter_filter.
  apply list_filter_iff. intros r. unfold reservation_where_window.
  rewrite !andb_True, !bool_decide_spec.
  split.
  - intros (E & (_ & W) & S). auto.
  - intros ((E & S) & W). rewrite E. repeat split; auto.
Qed.

(** The calculator's "used" is the specification's. *)
Lemma usedMap_is_spec_used st A win :
  A <> EmptyString ->
  default 0
    (usedMap_of
       (groupBy_areaId (filter (reservation_where_window win) (reservations st)))
     !! A)
  = spec_used st A win.
Proof.
  intros HA. rewrite usedMap_get by assumption.
  rewrite rows_of_area_window. reflexivity.
Qed.

(** ** Block resolution *)

Lemma truthy_opt_false_iff (o : option string) :
  o <> Some EmptyString -> (negb (Js.truthy_opt o) = true <-> o = None).
Proof.
  intros H. destruct o as [[| c s] |]; simpl; split; intros; congruence.
Qed.

Lemma blockedAreas_elem (blocks : list ReservationBlock.t) A :
  A <> EmptyString ->
  (A ∈ blockedAreas_of blocks
   <-> exists b, b ∈ blocks /\ ReservationBlock.areaId b = Some A).
Proof.
  intros HA. unfold blockedAreas_of.
  rewrite elem_of_list_to_set, list_elem_of_omap.
  split.
  - intros (b & Hb & E). apply list_elem_of_filter in Hb as [_ Hb]. eauto.
  - intros (b & Hb & E). exists b. split; [| exact E].
    apply list_elem_of_filter. split; [| exact Hb].
    rewrite E. destruct A; [congruence | exact I].
Qed.

Lemma existsb_True {A} (f : A -> bool) (l : list A) :
  existsb f l = true <-> exists x, x ∈ l /\ f x = true.
Proof.
  rewrite existsb_exists. split; intros (x & H1 & H2); exists x;
    (split; [apply list_elem_of_In; exact H1 | exact H2]).
Qed.

(** With identifiers that are never empty, the calculator's [isBlocked] is
    the existence of a qualifying block. *)
Lemma isBlocked_is_spec_blocked st unitId A base ps :
  A <> EmptyString ->
  (forall b, b ∈ reservationBlocks st -> ReservationBlock.areaId b <> Some EmptyString) ->
  let blocks :=
    reservationBlock_findMany st unitId (startOfDay base) (endOfDay base) ps in
  blockedAll_of blocks || bool_decide (A ∈ blockedAreas_of blocks)
  = spec_blocked st unitId A base ps.
Proof.
  intros HA Hids blocks.
  apply eq_true_iff_eq.
  rewrite orb_true_iff, bool_decide_eq_true, blockedAreas_elem by assumption.
  unfold blockedAll_of, spec_blocked. rewrite !existsb_True.
  assert (forall b, b ∈ blocks <->
            b ∈ reservationBlocks st
            /\ (String.eqb (ReservationBlock.unitId b) unitId
                && bool_decide (ReservationBlock.mode b = ReservationBlockMode.PERIOD)
                && (newDate (dayIndex base) 0 0 0 0 <=? ReservationBlock.date b)
                && (ReservationBlock.date b <=? newDate (dayIndex base) 23 59 59 999)
                && bool_decide (ReservationBlock.period b ∈ ps)) = true) as Hmem.
  { intros b. unfold blocks, reservationBlock_findMany.
    rewrite list_elem_of_filter. unfold block_period_in, startOfDay, endOfDay.
    rewrite Is_true_true. tauto. }
  split.
  - intros [(b & Hb & E) | (b & Hb & E)]; apply Hmem in Hb as [Hin Hq];
      exists b; (split; [exact Hin |]); rewrite Hq; simpl.
    + apply truthy_opt_false_iff in E; [| apply Hids; exact Hin].
      rewrite E. reflexivity.
    + rewrite E. rewrite (bool_decide_eq_true_2 (Some A = Some A)) by reflexivity.
      apply orb_true_r.
  - intros (b & Hin & E). apply andb_true_iff in E as [Hq E].
    apply orb_true_iff in E as [E | E]; apply bool_decide_eq_true in E.
    + left. exists b. split; [apply Hmem; auto |]. rewrite E. reflexivity.
    + right. exists b. split; [apply Hmem; auto | exact E].
Qed.

(** ** Sorting keeps the rows *)

Lemma elem_of_insert_by {A} (leb : A -> A -> bool) x y (l : list A) :
  y ∈ insert_by leb x l <-> y = x \/ y ∈ l.
Proof.
  induction l as [| z l IH]; simpl.
  - rewrite list_elem_of_singleton, elem_of_nil. tauto.
  - destruct (leb x z).
    + rewrite !elem_of_cons. tauto.
    + rewrite !elem_of_cons, IH. tauto.
Qed.

Lemma elem_of_sort_by {A} (leb : A -> A -> bool) y (l : list A) :
  y ∈ sort_by leb l <-> y ∈ l.
Proof.
  unfold sort_by. induction l as [| x l IH]; simpl; [reflexivity |].
  rewrite elem_of_insert_by, elem_of_cons, IH. reflexivity.
Qed.

Lemma elem_of_area_findMany w st unitId a :
  a ∈ area_findMany w st unitId
  <-> a ∈ areas st /\ Area.unitId a = unitId /\ Area.isActive a = true.
Proof.
  unfold area_findMany. rewrite elem_of_sort_by, list_elem_of_filter.
  rewrite andb_True, Is_true_true, Is_true_true, String.eqb_eq. tauto.
Qed.

(** ** Availability for a period *)

Lemma periodWindow_spec base hhmm :
  periodWindow base hhmm
  = (spec_window (clampToBusinessWindow hhmm) base, clampToBusinessWindow hhmm).
Proof.
  unfold periodWindow, getPeriodFromHM.
  destruct (clampToBusinessWindow hhmm); reflexivity.
Qed.

Lemma blockPeriodOf_match p :
  match p with
  | AFTERNOON => ReservationBlockPeriod.AFTERNOON
  | NIGHT => ReservationBlockPeriod.NIGHT
  end = blockPeriodOf p.
Proof. reflexivity. Qed.

(** The period branch, area by area, in the specification's terms. *)
Lemma availabilityForPeriod_spec w st unitId base t :
  ids_nonempty st ->
  let p := clampToBusinessWindow
             (if isValidHHmm (Some t) then t else "12:00") in
  availabilityForPeriod w st unitId base t
  = map (fun a =>
           withAvailability (withResolvedPhoto w a)
             (spec_remaining (periodCapacity p a)
                (spec_used st (Area.id a) (spec_window p base))
                (spec_blocked st unitId (Area.id a) base
                   [ReservationBlockPeriod.ALL_DAY; blockPeriodOf p])))
      (area_findMany w st unitId).
Proof.
  intros [Hareas Hblocks] p. rewrite Forall_forall in Hareas. rewrite Forall_forall in Hblocks.
  unfold availabilityForPeriod.
  rewrite periodWindow_spec. fold p. rewrite blockPeriodOf_match.
  rewrite map_map. apply map_ext_in. intros a Ha.
  apply list_elem_of_In, elem_of_area_findMany in Ha as (Hin & _ & _).
  pose proof (Hareas a Hin) as Hid.
  cbn [withResolvedPhoto dto_id dto_capacityAfternoon dto_capacityNight].
  rewrite isBlocked_is_spec_blocked by assumption.
  rewrite usedMap_is_spec_used by assumption.
  unfold spec_remaining, periodCapacity. destruct p; reflexivity.
Qed.

(** C2.  Availability queried with a date and a time: the result lists the
    active areas of the unit, and for each area [A], with [P] the period of
    the time and [D] the calendar day, [remaining] is
    [max(0, capacity(A,P) - used(A,P,D))], where [used] sums people + kids
    over the reservations on [A] with status AWAITING_CHECKIN or CHECKED_IN
    dated inside the window of [P] on [D], and [remaining] is 0 whenever a
    PERIOD-mode block of the unit dated within [D] has period [P] or ALL_DAY
    and area null or [A]. *)
Theorem remaining_for_period
  (w : World) (st : Store) (unitId dateISO timeHHmm : string) :
  ids_nonempty st ->
  Js.truthy unitId = true ->
  Js.truthy dateISO = true ->
  Js.truthy timeHHmm = true ->
  let D := default (now w) (dayjs_strict w dateISO) in
  let P := clampToBusinessWindow
             (if isValidHHmm (Some timeHHmm) then timeHHmm else "12:00") in
  let used A :=
    sumZ (map (fun r => Reservation.people r + Reservation.kids r)
            (filter
               (fun r =>
                  bool_decide (Reservation.areaId r = Some A)
                  && status_counts (Reservation.status r)
                  && inWindow (spec_window P D) (Reservation.reservationDate r))
               (reservations st))) in
  listByUnitPublic w st unitId (Some dateISO) (Some timeHHmm)
  = map (fun a =>
           withAvailability (withResolvedPhoto w a)
             (if spec_blocked st unitId (Area.id a) D
                   [ReservationBlockPeriod.ALL_DAY; blockPeriodOf P]
              then 0
              else Z.max 0 (periodCapacity P a - used (Area.id a))))
      (area_findMany w st unitId)
  /\ (forall a, a ∈ area_findMany w st unitId
                <-> a ∈ areas st /\ Area.unitId a = unitId
                    /\ Area.isActive a = true).
Proof.
  intros Hids Hu Hd Ht D P used. split.
  - unfold listByUnitPublic. rewrite Hu, Hd, Ht. cbn [negb].
    rewrite availabilityForPeriod_spec by assumption. reflexivity.
  - intros a. apply elem_of_area_findMany.
Qed.

Example scenario_remaining_2 :
  map remaining
    (listByUnitPublic Scenario.world0 Scenario.store_1300 "u1"
       (Some "2025-03-10") (Some "13:00"))
  = [Some 2].
Proof. vm_compute. reflexivity. Qed.

Example scenario_free_area :
  map (fun a => (remaining a, isAvailable a))
    (listByUnitPublic Scenario.world0 Scenario.store_free "u1"
       (Some "2025-03-10") (Some "13:00"))
  = [(Some 10, Some true)].
Proof. vm_compute. reflexivity. Qed.

Example scenario_all_day_block :
  let st :=
    Scenario.store_of (Scenario.area_with (Some 10) (Some 4)) []
      [Scenario.block_of None ReservationBlockPeriod.ALL_DAY] in
  map remaining
    (listByUnitPublic Scenario.world0 st "u1" (Some "2025-03-10") (Some "13:00"))
  = [Some 0]
  /\ map remaining
       (listByUnitPublic Scenario.world0 st "u1" (Some "2025-03-10") (Some "19:00"))
     = [Some 0].
Proof. split; vm_compute; reflexivity. Qed.

Lemma remaining_for_period_witness :
  ids_nonempty Scenario.store_1300
  /\ map remaining
       (listByUnitPublic Scenario.world0 Scenario.store_1300 "u1"
          (Some "2025-03-10") (Some "13:00"))
     = [Some 2].
Proof.
  assert (ids_nonempty Scenario.store_1300) as H.
  { split; repeat constructor; discriminate. }
  split; [exact H |].
  rewrite (proj1 (remaining_for_period Scenario.world0 Scenario.store_1300
                    "u1" "2025-03-10" "13:00" H eq_refl eq_refl eq_refl)).
  vm_compute. reflexivity.
Defined.

(** ** Reservations before noon *)

(** A timestamp before 12:00 lies in no period window of any day. *)
Lemma pre_noon_in_no_window (d base : Date) (p : Period) :
  minutesOfDay d < 720 -> inWindow (spec_window p base) d = false.
Proof.
  unfold minutesOfDay. rewrite minutes_of_day. intros H.
  pose proof (msOfDay_range d) as R. unfold MS_PER_DAY in R.
  assert (msOfDay d < 43200000) as Hms.
  { destruct (Z.lt_ge_cases (msOfDay d) 43200000) as [? | Hge]; [assumption |].
    apply (Z.div_le_mono _ _ 60000) in Hge; [| lia].
    change (43200000 / 60000) with 720 in Hge. lia. }
  pose proof (date_decompose d) as E. unfold MS_PER_DAY in E.
  unfold inWindow. apply andb_false_iff.
  destruct (Z.lt_trichotomy (dayIndex d) (dayIndex base)) as [L | [L | L]];
    destruct p; cbn [spec_window from to]; unfold newDate, MS_PER_DAY;
    rewrite ?Z.leb_gt; lia.
Qed.

(** C5.  The code at a reservation before noon: a party of 6 + 2 at 11:00
    (AWAITING_CHECKIN) on an area of afternoon capacity 10.  11:00 is
    classified AFTERNOON by both classifiers, but the party is not part of
    the AFTERNOON used total: the availability for 11:00 is still 10, where
    the same party at 13:00 leaves 2. *)
Theorem pre_noon_party_not_counted :
  getPeriodFromDate (newDate Scenario.day0 11 0 0 0) = AFTERNOON
  /\ clampToBusinessWindow "11:00" = AFTERNOON
  /\ map remaining
       (listByUnitPublic Scenario.world0 Scenario.store_1100 "u1"
          (Some "2025-03-10") (Some "11:00"))
     = [Some 10]
  /\ map remaining
       (listByUnitPublic Scenario.world0 Scenario.store_1300 "u1"
          (Some "2025-03-10") (Some "11:00"))
     = [Some 2].
Proof. repeat split; vm_compute; reflexivity. Qed.

(** ** The whole-day view *)

Lemma availabilityForDay_spec w st unitId base :
  ids_nonempty st ->
  availabilityForDay w st unitId base
  = map (fun a =>
           withAvailability (withResolvedPhoto w a)
             (spec_remaining
                (default 0 (Area.capacityAfternoon a)
                 + default 0 (Area.capacityNight a))
                (spec_used st (Area.id a) (spec_day_window base))
                (spec_blocked st unitId (Area.id a) base
                   [ReservationBlockPeriod.ALL_DAY])))
      (area_findMany w st unitId).
Proof.
  intros [Hareas Hblocks]. rewrite Forall_forall in Hareas.
  rewrite Forall_forall in Hblocks.
  unfold availabilityForDay. cbn [from to].
  rewrite map_map. apply map_ext_in. intros a Ha.
  apply list_elem_of_In, elem_of_area_findMany in Ha as (Hin & _ & _).
  pose proof (Hareas a Hin) as Hid.
  cbn [withResolvedPhoto dto_id dto_capacityAfternoon dto_capacityNight].
  rewrite isBlocked_is_spec_blocked by assumption.
  change {| from := startOfDay base; to := endOfDay base |}
    with (spec_day_window base).
  rewrite usedMap_is_spec_used by assumption.
  reflexivity.
Qed.

Lemma period_in_all_day b :
  block_period_in [ReservationBlockPeriod.ALL_DAY] b = true
  <-> ReservationBlock.period b = ReservationBlockPeriod.ALL_DAY.
Proof.
  unfold block_period_in. rewrite bool_decide_eq_true, list_elem_of_singleton.
  reflexivity.
Qed.

(** The whole-day block query never sees an AFTERNOON or NIGHT block. *)
Lemma findMany_all_day_without_period_blocks st unitId dayStart dayEnd :
  reservationBlock_findMany (without_period_blocks st) unitId dayStart dayEnd
    [ReservationBlockPeriod.ALL_DAY]
  = reservationBlock_findMany st unitId dayStart dayEnd
      [ReservationBlockPeriod.ALL_DAY].
Proof.
  unfold reservationBlock_findMany, without_period_blocks.
  cbn [reservationBlocks]. rewrite list_filter_filter.
  apply list_filter_iff. intros b.
  rewrite !andb_True, !Is_true_true, period_in_all_day. tauto.
Qed.

Lemma availabilityForDay_without_period_blocks w st unitId base :
  availabilityForDay w (without_period_blocks st) unitId base
  = availabilityForDay w st unitId base.
Proof.
  unfold availabilityForDay. cbn [from to].
  rewrite findMany_all_day_without_period_blocks. reflexivity.
Qed.

(** C6.  Availability queried with a date and no time: for each active area
    of the unit the capacity is [(capacityAfternoon ?? 0) +
    (capacityNight ?? 0)], the used total is taken over the whole calendar
    day [00:00:00.000, 23:59:59.999], and [remaining] is forced to 0 only by
    ALL_DAY blocks (unit-wide or of the area): the result is the same on the
    store with every AFTERNOON and NIGHT block removed. *)
Theorem whole_day_view
  (w : World) (st : Store) (unitId dateISO : string) (timeHHmm : option string) :
  ids_nonempty st ->
  Js.truthy unitId = true ->
  Js.truthy dateISO = true ->
  Js.truthy_opt timeHHmm = false ->
  let D := default (now w) (dayjs_strict w dateISO) in
  let day :=
    {| from := newDate (dayIndex D) 0 0 0 0;
       to := newDate (dayIndex D) 23 59 59 999 |} in
  let used A :=
    sumZ (map (fun r => Reservation.people r + Reservation.kids r)
            (filter
               (fun r =>
                  bool_decide (Reservation.areaId r = Some A)
                  && status_counts (Reservation.status r)
                  && inWindow day (Reservation.reservationDate r))
               (reservations st))) in
  listByUnitPublic w st unitId (Some dateISO) timeHHmm
  = map (fun a =>
           withAvailability (withResolvedPhoto w a)
             (if spec_blocked st unitId (Area.id a) D
                   [ReservationBlockPeriod.ALL_DAY]
              then 0
              else Z.max 0
                     (default 0 (Area.capacityAfternoon a)
                      + default 0 (Area.capacityNight a)
                      - used (Area.id a))))
      (area_findMany w st unitId)
  /\ listByUnitPublic w (without_period_blocks st) unitId (Some dateISO) timeHHmm
     = listByUnitPublic w st unitId (Some dateISO) timeHHmm.
Proof.
  intros Hids Hu Hd Ht D day used.
  assert (forall st',
            listByUnitPublic w st' unitId (Some dateISO) timeHHmm
            = availabilityForDay w st' unitId D) as Hlist.
  { intros st'. unfold listByUnitPublic. rewrite Hu, Hd. cbn [negb].
    destruct timeHHmm as [t |]; [| reflexivity].
    simpl in Ht. rewrite Ht. reflexivity. }
  split.
  - rewrite Hlist, availabilityForDay_spec by assumption. reflexivity.
  - rewrite !Hlist. apply availabilityForDay_without_period_blocks.
Qed.

Lemma whole_day_view_witness :
  ids_nonempty Scenario.store_night_block
  /\ map remaining
       (listByUnitPublic Scenario.world0 Scenario.store_night_block "u1"
          (Some "2025-03-10") None)
     = [Some 14].
Proof.
  assert (ids_nonempty Scenario.store_night_block) as H.
  { split; repeat constructor; discriminate. }
  split; [exact H |].
  rewrite (proj1 (whole_day_view Scenario.world0 Scenario.store_night_block
                    "u1" "2025-03-10" None H eq_refl eq_refl eq_refl)).
  vm_compute. reflexivity.
Defined.

(** ** Dependence on the clock *)

(** The calculator reads its base date only through the calendar day. *)
Lemma availabilityForPeriod_same_day w st unitId b1 b2 t :
  dayIndex b1 = dayIndex b2 ->
  availabilityForPeriod w st unitId b1 t = availabilityForPeriod w st unitId b2 t.
Proof.
  intros H. unfold availabilityForPeriod, periodWindow, startOfDay, endOfDay, at_.
  rewrite H. reflexivity.
Qed.

Lemma availabilityForDay_same_day w st unitId b1 b2 :
  dayIndex b1 = dayIndex b2 ->
  availabilityForDay w st unitId b1 = availabilityForDay w st unitId b2.
Proof.
  intros H. unfold availabilityForDay, startOfDay, endOfDay.
  rewrite H. reflexivity.
Qed.

(** The clock is read by nothing but the fall-back of the base date. *)
Lemma availability_with_clock w c st unitId base :
  (forall t, availabilityForPeriod (with_clock w c) st unitId base t
             = availabilityForPeriod w st unitId base t)
  /\ availabilityForDay (with_clock w c) st unitId base
     = availabilityForDay w st unitId base
  /\ map (withResolvedPhoto (with_clock w c)) (area_findMany (with_clock w c) st unitId)
     = map (withResolvedPhoto w) (area_findMany w st unitId).
Proof. repeat split. Qed.

Lemma listByUnitPublic_base w st unitId dateISO timeHHmm :
  Js.truthy unitId = true ->
  Js.truthy dateISO = true ->
  listByUnitPublic w st unitId (Some dateISO) timeHHmm
  = let base := default (now w) (dayjs_strict w dateISO) in
    if Js.truthy_opt timeHHmm
    then availabilityForPeriod w st unitId base (default EmptyString timeHHmm)
    else availabilityForDay w st unitId base.
Proof.
  intros Hu Hd. unfold listByUnitPublic. rewrite Hu, Hd. cbn [negb].
  destruct timeHHmm as [t |]; [| reflexivity].
  cbn [Js.truthy_opt default]. reflexivity.
Qed.

(** C8 (amended).  Two calls of [listByUnitPublic] with the same inputs on
    the same store, made at two instants [c1] and [c2], return the same
    output when the date is absent or empty, or is accepted by the strict
    parse, or when both instants fall on the same calendar day. *)
Theorem availability_repeatable
  (w : World) (c1 c2 : Date) (st : Store) (unitId : string)
  (dateISO timeHHmm : option string) :
  Js.truthy_opt dateISO = false
  \/ is_Some (dayjs_strict w (default EmptyString dateISO))
  \/ dayIndex c1 = dayIndex c2 ->
  listByUnitPublic (with_clock w c1) st unitId dateISO timeHHmm
  = listByUnitPublic (with_clock w c2) st unitId dateISO timeHHmm.
Proof.
  intros H.
  destruct (Js.truthy unitId) eqn:Hu;
    [| unfold listByUnitPublic; rewrite Hu; reflexivity].
  destruct dateISO as [d |];
    [| unfold listByUnitPublic; rewrite Hu; reflexivity].
  destruct (Js.truthy d) eqn:Hd;
    [| unfold listByUnitPublic; rewrite Hu, Hd; reflexivity].
  rewrite !listByUnitPublic_base by assumption.
  cbn [with_clock now dayjs_strict default]. cbv zeta.
  assert (dayIndex (default c1 (dayjs_strict w d))
          = dayIndex (default c2 (dayjs_strict w d))) as Hday.
  { destruct H as [H | [[b H] | H]].
    - simpl in H. congruence.
    - simpl in H. rewrite H. reflexivity.
    - destruct (dayjs_strict w d); [reflexivity | exact H]. }
  destruct (Js.truthy_opt timeHHmm).
  - rewrite !(proj1 (availability_with_clock w _ st unitId _)).
    apply availabilityForPeriod_same_day, Hday.
  - rewrite !(proj1 (proj2 (availability_with_clock w _ st unitId _))).
    apply availabilityForDay_same_day, Hday.
Qed.

Lemma availability_repeatable_witness :
  is_Some (dayjs_strict Scenario.world0 "2025-03-10")
  /\ listByUnitPublic (with_clock Scenario.world0 (newDate Scenario.day0 9 0 0 0))
       Scenario.store_1300 "u1" (Some "2025-03-10") (Some "13:00")
     = listByUnitPublic
         (with_clock Scenario.world0 (newDate (Scenario.day0 + 1) 9 0 0 0))
         Scenario.store_1300 "u1" (Some "2025-03-10") (Some "13:00").
Proof.
  assert (is_Some (dayjs_strict Scenario.world0 "2025-03-10")) as H.
  { vm_compute. eexists. reflexivity. }
  split; [exact H |].
  apply availability_repeatable. right. left. exact H.
Defined.

(** C8, as stated, fails: with a date string the date parse rejects, the
    call made on 2025-03-10 sees the party of 8 and answers 2, the same call
    made the next day answers 10, on the same store. *)
Lemma availability_follows_the_clock :
  listByUnitPublic (with_clock Scenario.world0 (newDate Scenario.day0 9 0 0 0))
    Scenario.store_1300 "u1" (Some "amanha") (Some "13:00")
  <> listByUnitPublic
       (with_clock Scenario.world0 (newDate (Scenario.day0 + 1) 9 0 0 0))
       Scenario.store_1300 "u1" (Some "amanha") (Some "13:00").
Proof. vm_compute. discriminate. Qed.

(** ** Malformed date and time *)

(** C10 (amended).  [listByUnitPublic] returns a list on every input; for a
    non-empty time string that does not match [^\d{2}:\d{2}$] the result is
    the result for the time '12:00'; and for a non-empty date string that the
    date parse of the code reports invalid, the result is the result for any
    date string the parse reads as the current calendar day.  Which strings
    the parse reports invalid is not part of the statement. *)
Theorem malformed_inputs_fall_back
  (w : World) (st : Store) (unitId : string)
  (dateISO : option string) (timeHHmm : string)
  (badDate today : string) (time : option string) (b : Date) :
  Js.truthy timeHHmm = true ->
  isValidHHmm (Some timeHHmm) = false ->
  Js.truthy badDate = true ->
  dayjs_strict w badDate = None ->
  Js.truthy today = true ->
  dayjs_strict w today = Some b ->
  dayIndex b = dayIndex (now w) ->
  listByUnitPublic w st unitId dateISO (Some timeHHmm)
  = listByUnitPublic w st unitId dateISO (Some "12:00")
  /\ listByUnitPublic w st unitId (Some badDate) time
     = listByUnitPublic w st unitId (Some today) time.
Proof.
  intros Ht Hinv Hbad Hnone Htoday Hsome Hday. split.
  - unfold listByUnitPublic. rewrite Ht. cbn [Js.truthy].
    destruct (negb (Js.truthy unitId)); [reflexivity |].
    destruct dateISO as [d |]; [| reflexivity].
    destruct (Js.truthy d); [| reflexivity].
    unfold availabilityForPeriod. rewrite Hinv. reflexivity.
  - destruct (Js.truthy unitId) eqn:Hu;
      [| unfold listByUnitPublic; rewrite Hu; reflexivity].
    rewrite !listByUnitPublic_base by assumption.
    rewrite Hnone, Hsome. cbn [default]. cbv zeta.
    destruct (Js.truthy_opt time).
    + apply availabilityForPeriod_same_day. symmetry. exact Hday.
    + apply availabilityForDay_same_day. symmetry. exact Hday.
Qed.

Lemma malformed_inputs_fall_back_witness :
  isValidHHmm (Some "7pm") = false
  /\ dayjs_strict Scenario.world0 "amanha" = None
  /\ dayjs_strict Scenario.world0 "2025-03-10"
     = Some (newDate Scenario.day0 0 0 0 0)
  /\ listByUnitPublic Scenario.world0 Scenario.store_1300 "u1"
       (Some "2025-03-10") (Some "7pm")
     = listByUnitPublic Scenario.world0 Scenario.store_1300 "u1"
         (Some "2025-03-10") (Some "12:00")
  /\ listByUnitPublic Scenario.world0 Scenario.store_1300 "u1"
       (Some "amanha") (Some "13:00")
     = listByUnitPublic Scenario.world0 Scenario.store_1300 "u1"
         (Some "2025-03-10") (Some "13:00").
Proof.
  split; [reflexivity |]. split; [reflexivity |]. split; [reflexivity |].
  apply (malformed_inputs_fall_back Scenario.world0 Scenario.store_1300 "u1"
           (Some "2025-03-10") "7pm" "amanha" "2025-03-10"
           (Some "13:00") (newDate Scenario.day0 0 0 0 0));
    reflexivity.
Defined.

(** C10, as stated, fails at the empty strings.  The empty time string does
    not match the pattern, yet the result is the whole-day view
    (14 - 8 = 6 seats), not the result for '12:00' (10 - 8 = 2 seats).  The
    empty date string is not a date the parse reads, yet the result is the
    static listing without [remaining], not the availability of the current
    day. *)
Lemma empty_time_is_whole_day :
  isValidHHmm (Some EmptyString) = false
  /\ listByUnitPublic Scenario.world0 Scenario.store_1300 "u1"
       (Some "2025-03-10") (Some EmptyString)
     <> listByUnitPublic Scenario.world0 Scenario.store_1300 "u1"
          (Some "2025-03-10") (Some "12:00")
  /\ dayjs_strict Scenario.world0 EmptyString = None
  /\ toYMD (now Scenario.world0) = "2025-03-10"
  /\ listByUnitPublic Scenario.world0 Scenario.store_1300 "u1"
       (Some EmptyString) (Some "13:00")
     <> listByUnitPublic Scenario.world0 Scenario.store_1300 "u1"
          (Some "2025-03-10") (Some "13:00").
Proof.
  split; [reflexivity |].
  split; [vm_compute; discriminate |].
  split; [reflexivity |].
  split; [reflexivity |].
  vm_compute. discriminate.
Qed.

(** ** Reservation codes *)

Lemma pick_symbol_in_alphabet (r : Q) :
  (0 <= r)%Q -> (r < 1)%Q ->
  exists c, pick_symbol r = String c EmptyString
            /\ c ∈ list_ascii_of_string code_alphabet.
Proof.
  intros H0 H1. unfold pick_symbol.
  change (Z.of_nat (String.length code_alphabet)) with 32.
  set (i := Qfloor (r * inject_Z 32)).
  assert (0 <= i < 32) as Hi.
  { unfold i. destruct r as [a b]. unfold Qle, Qlt in H0, H1.
    cbn [Qnum Qden] in H0, H1.
    unfold Qfloor, Qmult, inject_Z. cbn [Qnum Qden].
    rewrite Pos.mul_1_r.
    split; [apply Z.div_pos; lia | apply Z.div_lt_upper_bound; lia]. }
  clearbody i.
  assert (Forall (fun j => exists c, match Js.charAt code_alphabet j with
                                     | Some c => String c EmptyString
                                     | None => "undefined"
                                     end = String c EmptyString
                                     /\ c ∈ list_ascii_of_string code_alphabet)
            (map Z.of_nat (seq 0 32))) as Hall.
  { repeat (constructor;
            [eexists; split; [reflexivity |];
             apply list_elem_of_In; vm_compute; tauto |]).
    constructor. }
  rewrite Forall_forall in Hall. apply Hall.
  apply list_elem_of_fmap. exists (Z.to_nat i). split; [lia |].
  apply list_elem_of_In, in_seq. lia.
Qed.

Lemma append_cons c (a b : string) : String c a ++ b = String c (a ++ b).
Proof. reflexivity. Qed.

Lemma append_empty_r (a : string) : a ++ EmptyString = a.
Proof.
  induction a as [| c a IH]; [reflexivity |]. rewrite append_cons, IH.
  reflexivity.
Qed.

Lemma append_snoc (a b : string) c :
  (a ++ String c EmptyString) ++ b = a ++ String c b.
Proof.
  induction a as [| x a IH]; [reflexivity |]. rewrite !append_cons, IH.
  reflexivity.
Qed.

Lemma chars_append (a b : string) :
  list_ascii_of_string (a ++ b)
  = (list_ascii_of_string a ++ list_ascii_of_string b)%list.
Proof.
  induction a as [| c a IH]; [reflexivity |].
  rewrite append_cons. cbn [list_ascii_of_string]. rewrite IH. reflexivity.
Qed.

Lemma length_append (a b : string) :
  String.length (a ++ b) = (String.length a + String.length b)%nat.
Proof.
  induction a as [| c a IH]; [reflexivity |].
  rewrite append_cons. cbn [String.length]. rewrite IH. reflexivity.
Qed.

Lemma length_chars (a : string) :
  String.length a = length (list_ascii_of_string a).
Proof. induction a as [| c a IH]; simpl; congruence. Qed.

Section RandomInUnitInterval.

Variable w : World.
Hypothesis random_range : forall k, (0 <= random w k)%Q /\ (random w k < 1)%Q.

Lemma genCode6_loop_chars n out s :
  let r := genCode6_loop w n out s in
  exists suffix,
    r.1 = out ++ suffix
    /\ String.length suffix = n
    /\ Forall (fun c => c ∈ list_ascii_of_string code_alphabet)
         (list_ascii_of_string suffix).
Proof using random_range.
  revert out s. induction n as [| n IH]; intros out s; cbn [genCode6_loop].
  - exists EmptyString. repeat split; [| constructor].
    cbn. symmetry. apply append_empty_r.
  - unfold Math_random at 1.
    destruct (random_range (rngCalls s)) as [H0 H1].
    destruct (pick_symbol_in_alphabet _ H0 H1) as (c & E & Hc).
    rewrite E.
    match goal with |- context [genCode6_loop w n ?o ?s'] =>
      destruct (IH o s') as (suffix & E1 & L & F) end.
    exists (String c suffix). cbv zeta in E1 |- *. rewrite E1. split.
    + apply append_snoc.
    + split; [simpl; congruence |]. constructor; assumption.
Qed.

Lemma code_from_ok k : code_ok (code_from w k).
Proof using random_range.
  unfold code_from, genCode6.
  match goal with |- context [genCode6_loop w 6 ?o ?s] =>
    destruct (genCode6_loop_chars 6 o s) as (suffix & E & L & F) end.
  cbv zeta in E. rewrite E. split; assumption.
Qed.

End RandomInUnitInterval.

Lemma advance_rng_advance s n m :
  advance_rng (advance_rng s n) m = advance_rng s (n + m).
Proof. unfold advance_rng. cbn. f_equal. lia. Qed.

(** [genCode6] reads nothing but the random source. *)
Lemma genCode6_loop_eq w n out s s0 :
  rngCalls s0 = rngCalls s ->
  genCode6_loop w n out s = ((genCode6_loop w n out s0).1, advance_rng s n).
Proof.
  revert out s s0. induction n as [| n IH]; intros out s s0 E; cbn [genCode6_loop].
  - cbn. f_equal. unfold advance_rng. destruct s; cbn. f_equal. lia.
  - unfold Math_random. rewrite E.
    match goal with
    | |- genCode6_loop w n ?o ?s1 = ((genCode6_loop w n _ ?s2).1, _) =>
        rewrite (IH o s1 s2) by reflexivity
    end.
    f_equal. unfold advance_rng. cbn. f_equal. lia.
Qed.

Lemma genCode6_eq w s :
  genCode6 w s = (code_from w (rngCalls s), advance_rng s 6).
Proof. unfold genCode6, code_from. apply genCode6_loop_eq. reflexivity. Qed.

Lemma generate_loop_within w n :
  within (S n) (generateUniqueReservationCode_loop w n).
Proof.
  induction n as [| n IH]; cbn [generateUniqueReservationCode_loop].
  - constructor. intros x. constructor.
  - constructor. intros [code ex]. cbn [fst snd].
    destruct (negb ex); [constructor | exact IH].
Qed.

(** The loop returns attempt number [i]: the attempts before it collided,
    and it was found free unless it is the attempt after the last check. *)
Lemma generate_loop_spec w n s :
  let r := run (generateUniqueReservationCode_loop w n) s in
  exists i,
    (i <= n)%nat
    /\ r.1 = code_from w (rngCalls s + 6 * i)
    /\ r.2 = advance_rng s (6 * (i + 1))
    /\ (forall j, (j < i)%nat ->
          reservationCode_exists (code_from w (rngCalls s + 6 * j)) (db s) = true)
    /\ ((i < n)%nat -> reservationCode_exists r.1 (db s) = false).
Proof.
  revert s. induction n as [| n IH]; intros s;
    cbn [generateUniqueReservationCode_loop run].
  - rewrite genCode6_eq. cbn [run fst snd]. exists 0%nat.
    rewrite Nat.mul_0_r, Nat.add_0_r. repeat split; lia.
  - rewrite genCode6_eq. cbn [fst snd db advance_rng].
    destruct (reservationCode_exists (code_from w (rngCalls s)) (db s)) eqn:Ex;
      cbn [negb run fst snd].
    + destruct (IH (advance_rng s 6)) as (i & Hi & E1 & E2 & Hbefore & Hfree).
      exists (S i). cbn [advance_rng rngCalls db] in *.
      split; [lia |]. split.
      { rewrite E1. f_equal. lia. }
      split.
      { rewrite E2. unfold advance_rng. cbn. f_equal. lia. }
      split.
      * intros j Hj. destruct j as [| j].
        -- rewrite Nat.mul_0_r, Nat.add_0_r. exact Ex.
        -- replace (rngCalls s + 6 * S j)%nat with (rngCalls s + 6 + 6 * j)%nat by lia.
           apply Hbefore. lia.
      * intros Hlt. apply Hfree. lia.
    + exists 0%nat. rewrite Nat.mul_0_r, Nat.add_0_r.
      repeat split; try lia. intros _. exact Ex.
Qed.

(** C9.  With [Math.random] in [0, 1): every generated code has 6 characters
    of the alphabet ABCDEFGHJKLMNPQRSTUVWXYZ23456789;
    [generateUniqueReservationCode] performs at most 9 operations (8 checked
    attempts and one unchecked generation), whatever the store answers; it
    returns attempt [i <= 8] after the attempts before it collided, attempt
    [i < 8] having been found free; when all 8 checked attempts collide the
    result is the ninth code, returned without a check; the store is not
    written. *)
Theorem reservation_code_generation (w : World) (s : Sys) :
  (forall k, (0 <= random w k)%Q /\ (random w k < 1)%Q) ->
  let code := (run (generateUniqueReservationCode w) s).1 in
  let s' := (run (generateUniqueReservationCode w) s).2 in
  let attempt j := code_from w (rngCalls s + 6 * j) in
  within 9 (generateUniqueReservationCode w)
  /\ (forall j, code_ok (attempt j))
  /\ code_ok code
  /\ db s' = db s
  /\ (exists i,
        (i <= 8)%nat
        /\ code = attempt i
        /\ rngCalls s' = (rngCalls s + 6 * (i + 1))%nat
        /\ (forall j, (j < i)%nat -> reservationCode_exists (attempt j) (db s) = true)
        /\ ((i < 8)%nat -> reservationCode_exists code (db s) = false))
  /\ ((forall j, (j < 8)%nat -> reservationCode_exists (attempt j) (db s) = true) ->
      code = attempt 8%nat).
Proof.
  intros Hrand code s' attempt.
  destruct (generate_loop_spec w 8 s) as (i & Hi & E1 & E2 & Hbefore & Hfree).
  fold (generateUniqueReservationCode w) in E1, E2, Hfree.
  fold code in E1, Hfree. fold s' in E2.
  split; [apply generate_loop_within |].
  split; [intros j; unfold attempt; apply code_from_ok; exact Hrand |].
  split; [rewrite E1; apply code_from_ok, Hrand |].
  split; [rewrite E2; reflexivity |].
  split.
  - exists i. rewrite E2. repeat split; auto.
  - intros Hall. destruct (Nat.eq_dec i 8%nat) as [-> | Hne]; [exact E1 |].
    assert (i < 8)%nat as Hlt by lia.
    pose proof (Hfree Hlt) as Hf. rewrite E1 in Hf.
    pose proof (Hall i Hlt) as Ht. unfold attempt in Ht. congruence.
Qed.

Lemma reservation_code_generation_witness :
  (forall k, (0 <= random Scenario.world_zero k)%Q
             /\ (random Scenario.world_zero k < 1)%Q)
  /\ (run (generateUniqueReservationCode Scenario.world_zero)
        (Scenario.sys_of Scenario.store_AAAAAA)).1 = "AAAAAA"
  /\ reservationCode_exists "AAAAAA" Scenario.store_AAAAAA = true
  /\ code_ok "AAAAAA".
Proof.
  assert (forall k, (0 <= random Scenario.world_zero k)%Q
                    /\ (random Scenario.world_zero k < 1)%Q) as H.
  { intros k. split; [apply Qle_refl | reflexivity]. }
  split; [exact H |]. split; [reflexivity |]. split; [reflexivity |].
  exact (proj1 (proj2 (proj2
    (reservation_code_generation Scenario.world_zero
       (Scenario.sys_of Scenario.store_AAAAAA) H)))).
Defined.

(** ** Public creation: the checks and the write *)

Lemma run_bind {A B} (p : Proc A) (f : A -> Proc B) s :
  run (bind p f) s = run (f (run p s).1) (run p s).2.
Proof.
  revert s. induction p as [a | X op k IH]; intros s; [reflexivity |].
  cbn [bind run]. destruct (op s) as [x s1]. apply IH.
Qed.

Lemma run_generate_db w s :
  db (run (generateUniqueReservationCode w) s).2 = db s.
Proof.
  destruct (generate_loop_spec w 8 s) as (i & _ & _ & E & _).
  unfold generateUniqueReservationCode. rewrite E. reflexivity.
Qed.

Lemma periodWindowOfDate_spec dt :
  periodWindowOfDate dt = spec_window (getPeriodFromDate dt) dt.
Proof. unfold periodWindowOfDate. destruct (getPeriodFromDate dt); reflexivity. Qed.

Lemma head_sort_by_None {A} (leb : A -> A -> bool) (l : list A) :
  head (sort_by leb l) = None <-> l = [].
Proof.
  split.
  - intros H. destruct l as [| x l]; [reflexivity |].
    assert (x ∈ sort_by leb (x :: l)) as Hin by (apply elem_of_sort_by; left).
    destruct (sort_by leb (x :: l)); [inversion Hin | discriminate].
  - intros ->. reflexivity.
Qed.

Lemma findActiveByContact_None st e p :
  findActiveByContact e p st = None <-> has_active_contact st e p = false.
Proof.
  unfold findActiveByContact, has_active_contact.
  rewrite head_sort_by_None. generalize (reservations st) as l.
  induction l as [| r l IH]; [cbn; tauto |].
  rewrite filter_cons. cbn [existsb].
  destruct (decide _) as [H | H].
  - apply Is_true_true in H. rewrite H. cbn. split; discriminate.
  - apply Is_true_false in H. rewrite H. cbn. exact IH.
Qed.

Lemma blocksFor_spec st unitId areaId dt p :
  (0 <? length (blocksFor unitId areaId dt p st))%nat
  = spec_blocked st unitId areaId dt [ReservationBlockPeriod.ALL_DAY; p].
Proof.
  unfold blocksFor, reservationBlock_findMany, spec_blocked, block_period_in,
    startOfDay, endOfDay.
  rewrite list_filter_filter.
  generalize (reservationBlocks st) as l.
  induction l as [| b l IH]; [reflexivity |].
  rewrite filter_cons. cbn [existsb].
  destruct (decide _) as [H | H].
  - destruct H as [H1 H2]. apply Is_true_true in H1, H2.
    rewrite H2, H1. reflexivity.
  - rewrite IH. symmetry.
    match goal with |- ?x || _ = _ => destruct x eqn:E end; [| reflexivity].
    exfalso. apply H. apply andb_true_iff in E as [E1 E2].
    rewrite !Is_true_true. split; assumption.
Qed.

Lemma remove_dups_const {A} `{EqDecision A} (k : A) (l : list A) :
  Forall (fun x => x = k) l -> l <> [] -> remove_dups l = [k].
Proof.
  induction l as [| x l IH]; intros Hall Hne; [congruence |].
  apply Forall_cons in Hall as [-> Hall]. cbn [remove_dups].
  destruct l as [| y l].
  - destruct (decide_rel _ _ _) as [H | H]; [inversion H | reflexivity].
  - destruct (decide_rel _ _ _) as [_ | H].
    + apply IH; [exact Hall | discriminate].
    + exfalso. apply H. apply Forall_cons in Hall as [-> _]. left.
Qed.

(** The rows the route's [groupBy] selects make at most one group. *)
Lemma groupBy_single_key k (rows : list Reservation.t) :
  Forall (fun r => Reservation.areaId r = k) rows ->
  rows <> [] ->
  groupBy_areaId rows
  = [{| g_areaId := k;
        g_sum_people := Some (sumZ (map Reservation.people rows));
        g_sum_kids := Some (sumZ (map Reservation.kids rows)) |}].
Proof.
  intros Hall Hne. unfold groupBy_areaId.
  rewrite (remove_dups_const k).
  2:{ clear Hne. induction Hall; constructor; assumption. }
  2:{ destruct rows; [congruence | discriminate]. }
  cbn [map]. unfold rows_of_area.
  assert (filter (fun r => bool_decide (Reservation.areaId r = k)) rows = rows) as ->;
    [| reflexivity].
  clear Hne. induction Hall as [| r rows Hr Hall IH]; [reflexivity |].
  rewrite filter_cons_True by (apply bool_decide_pack; exact Hr).
  rewrite IH. reflexivity.
Qed.

Lemma alreadyUsed_spec st areaId win :
  alreadyUsed_of (groupedFor areaId win st) = spec_used st areaId win.
Proof.
  unfold groupedFor, spec_used.
  set (sel := filter _ (reservations st)).
  assert (Forall (fun r => Reservation.areaId r = Some areaId) sel) as Hall.
  { apply Forall_forall. intros r Hr. apply list_elem_of_filter in Hr as [Hr _].
    rewrite !andb_True, bool_decide_spec in Hr. tauto. }
  assert (filter
            (fun r =>
               bool_decide (Reservation.areaId r = Some areaId)
               && status_counts (Reservation.status r)
               && inWindow win (Reservation.reservationDate r))
            (reservations st) = sel) as ->.
  { unfold sel. apply list_filter_iff. intros r. rewrite !andb_True. tauto. }
  clearbody sel. destruct sel as [| r rest].
  - reflexivity.
  - rewrite (groupBy_single_key (Some areaId)) by (assumption || discriminate).
    cbn [alreadyUsed_of head mbind option_bind g_sum_people g_sum_kids default].
    apply sumZ_map_add.
Qed.

(** The tail of the route: code generation, then the insert.  Either the
    insert throws and nothing is written, or exactly the new row is
    appended. *)
Lemma create_tail_outcome w (mk : string -> string -> string -> Reservation.t) s :
  let r :=
    run
      (bind (generateUniqueReservationCode w)
         (fun code =>
            Await
              (fun s0 =>
                 let '(tok, s1) := next_cryptoRandom w s0 in
                 reservation_create w (fun id => mk code tok id) s1)
              (fun created =>
                 match created with
                 | Some row => Ret (Created row)
                 | None => Ret (Failure 500 INTERNAL NoDetail)
                 end)))
      s in
  (r.1 = Failure 500 INTERNAL NoDetail /\ db r.2 = db s)
  \/ (exists code tok id,
        r.1 = Created (mk code tok id)
        /\ db r.2 = with_reservation (db s) (mk code tok id)).
Proof.
  cbv zeta. rewrite run_bind.
  pose proof (run_generate_db w s) as Hdb.
  destruct (run (generateUniqueReservationCode w) s) as [code s1].
  cbn [fst snd] in *. cbn [run next_cryptoRandom].
  unfold reservation_create. cbn [db rngCalls idCalls tokCalls].
  destruct (existsb _ _).
  - left. cbn [run fst snd db]. split; [reflexivity | exact Hdb].
  - right. exists code, (cryptoRandom w (tokCalls s1)), (cuid w (idCalls s1)).
    cbn [run fst snd db]. rewrite Hdb. split; reflexivity.
Qed.

Lemma checkAndCreate_outcome w req dt p k e ph s :
  let r := run (checkAndCreate w req dt p k e ph) s in
  match admission_check (db s) (default EmptyString (Body.unitId (body req)))
          (default EmptyString (Body.areaId (body req))) dt (willUse_of p k) with
  | inl failure => r = (failure, s)
  | inr (u, a) =>
      (r.1 = Failure 500 INTERNAL NoDetail /\ db r.2 = db s)
      \/ (exists row,
            r.1 = Created row
            /\ db r.2 = with_reservation (db s) row
            /\ Reservation.areaId row = Some (Area.id a)
            /\ Reservation.status row = ReservationStatus.AWAITING_CHECKIN
            /\ Reservation.people row + Reservation.kids row = willUse_of p k
            /\ Reservation.reservationDate row = dt)
  end.
Proof.
  cbv zeta. unfold checkAndCreate, admission_check, active_unit, area_of_unit.
  cbn [run query].
  destruct (unit_findUnique _ (db s)) as [u |]; [| reflexivity].
  destruct (Unit.isActive u); cbn [negb]; [| reflexivity].
  destruct (area_findUnique _ (db s)) as [a |]; [| reflexivity].
  destruct (Area.isActive a); cbn [negb orb andb]; [| reflexivity].
  destruct (String.eqb (Area.unitId a) (Unit.id u)); cbn [negb]; [| reflexivity].
  cbn [run query]. rewrite blocksFor_spec.
  destruct (spec_blocked _ _ _ _ _); [reflexivity |].
  cbn [run query]. rewrite alreadyUsed_spec, periodWindowOfDate_spec.
  fold (periodCapacity (getPeriodFromDate dt) a).
  destruct (willUse_of p k >? _); [reflexivity |].
  match goal with
  | |- context [bind (generateUniqueReservationCode w) ?f] =>
      match f with
      | (fun code => Await (fun s0 => let '(tok, s1) := _ in
                                      reservation_create w (fun id => @?mk code tok id) s1) _) =>
          destruct (create_tail_outcome w mk s) as [[E1 E2] | (code & tok & id & E1 & E2)]
      end
  end.
  - left. split; assumption.
  - right. eexists. split; [exact E1 |]. split; [exact E2 |].
    cbn. repeat split; reflexivity.
Qed.

Lemma basicValidation_failure b f :
  basicValidation b = Some f -> f = Failure 400 VALIDATION NoDetail.
Proof.
  unfold basicValidation. intros H.
  repeat match type of H with
         | (if ?c then _ else _) = _ => destruct c
         | match ?o with Some _ => _ | None => _ end = _ => destruct o
         end; congruence.
Qed.

Lemma has_active_contact_no_contact st e p :
  Js.truthy_opt e || Js.truthy_opt p = false -> has_active_contact st e p = false.
Proof.
  intros H. apply orb_false_iff in H as [He Hp].
  unfold has_active_contact. rewrite He, Hp.
  induction (reservations st) as [| r l IH]; [reflexivity |].
  cbn [existsb]. rewrite IH. cbn. rewrite andb_false_r. reflexivity.
Qed.

(** The route is the anti-duplication check, then [admission_check], then
    the write. *)
Lemma createPublicReservation_outcome w req s :
  let b := body req in
  let r := run (createPublicReservation w req) s in
  match basicValidation b with
  | Some _ => r = (Failure 400 VALIDATION NoDetail, s)
  | None =>
      if has_active_contact (db s) (toLowerEmail (Body.email b))
           (phoneNorm_of (Body.phone b))
      then failure_code r.1 = Some ALREADY_HAS_ACTIVE_RESERVATION /\ r.2 = s
      else
        match admission_check (db s) (default EmptyString (Body.unitId b))
                (default EmptyString (Body.areaId b))
                (default 0 (Body.reservationDate b)) (requested req) with
        | inl failure => r = (failure, s)
        | inr (u, a) =>
            (r.1 = Failure 500 INTERNAL NoDetail /\ db r.2 = db s)
            \/ (exists row,
                  r.1 = Created row
                  /\ db r.2 = with_reservation (db s) row
                  /\ Reservation.areaId row = Some (Area.id a)
                  /\ Reservation.status row = ReservationStatus.AWAITING_CHECKIN
                  /\ Reservation.people row + Reservation.kids row = requested req
                  /\ Reservation.reservationDate row
                     = default 0 (Body.reservationDate b))
        end
  end.
Proof.
  cbv zeta. unfold createPublicReservation.
  destruct (basicValidation (body req)) as [f |] eqn:V.
  { rewrite (basicValidation_failure _ _ V). reflexivity. }
  set (e := toLowerEmail _). set (ph := phoneNorm_of _).
  pose proof (checkAndCreate_outcome w req
                (default 0 (Body.reservationDate (body req)))
                (default 0%Q (Body.people (body req)))
                (default 0%Q (Body.kids (body req))) e ph s) as Hc.
  cbv zeta in Hc. fold (requested req) in Hc.
  destruct (Js.truthy_opt e || Js.truthy_opt ph) eqn:T.
  - cbn [run query].
    destruct (findActiveByContact e ph (db s)) as [ex |] eqn:F.
    + assert (has_active_contact (db s) e ph = true) as ->.
      { destruct (has_active_contact (db s) e ph) eqn:H; [reflexivity |].
        apply findActiveByContact_None in H. congruence. }
      cbn. split; reflexivity.
    + apply findActiveByContact_None in F. rewrite F. exact Hc.
  - rewrite has_active_contact_no_contact by exact T. exact Hc.
Qed.

(** C4 (amended).  On public creation the checks run in this order: basic
    validation (VALIDATION), contact anti-duplication
    (ALREADY_HAS_ACTIVE_RESERVATION), unit (UNIT_NOT_FOUND), area
    (AREA_NOT_FOUND), block (BLOCKED_DAY), capacity (NO_CAPACITY); the
    response carries the code of the first check that rejects, and when
    none rejects the reservation is created unless the insert itself fails
    (INTERNAL).  Every failure leaves the store as it was; a success adds
    exactly the created row. *)
Theorem creation_checks_in_order (w : World) (req : Request) (s : Sys) :
  let r := run (createPublicReservation w req) s in
  match r.1 with
  | Failure _ _ _ => db r.2 = db s
  | Created row => db r.2 = with_reservation (db s) row
  end
  /\ match first_failing_check (db s) req with
     | Some c => failure_code r.1 = Some c
     | None => is_created r.1 = true \/ r.1 = Failure 500 INTERNAL NoDetail
     end.
Proof.
  cbv zeta. pose proof (createPublicReservation_outcome w req s) as H.
  cbv zeta in H. unfold first_failing_check.
  destruct (basicValidation (body req)).
  { rewrite H. cbn. split; reflexivity. }
  destruct (has_active_contact _ _ _).
  { destruct H as [H1 H2]. rewrite H2.
    destruct (run _ s).1; [split; [reflexivity | exact H1] | discriminate]. }
  unfold admission_check in H.
  destruct (active_unit _ _) as [u |]; [| rewrite H; cbn; split; reflexivity].
  destruct (area_of_unit _ _ _) as [a |]; [| rewrite H; cbn; split; reflexivity].
  cbv zeta in H.
  destruct (spec_blocked _ _ _ _ _); [rewrite H; cbn; split; reflexivity |].
  destruct (requested req >? _); [rewrite H; cbn; split; reflexivity |].
  destruct H as [[E1 E2] | (row & E1 & E2 & _)]; rewrite E1.
  - split; [exact E2 | right; reflexivity].
  - split; [exact E2 | left; reflexivity].
Qed.

(** C4, as stated, fails: with no unit "u1" in the store and a contact that
    already holds an AWAITING_CHECKIN reservation, the route answers 409
    ALREADY_HAS_ACTIVE_RESERVATION, where the order of the specification
    gives UNIT_NOT_FOUND. *)
Lemma duplicate_contact_checked_before_unit :
  let req :=
    Scenario.request_of 2 (newDate Scenario.day0 13 0 0 0)
      (Some "ana@example.com") in
  unit_findUnique "u1" Scenario.store_no_unit = None
  /\ first_failing_check_spec Scenario.store_no_unit req = Some UNIT_NOT_FOUND
  /\ failure_code
       (run (createPublicReservation Scenario.world0 req)
          (Scenario.sys_of Scenario.store_no_unit)).1
     = Some ALREADY_HAS_ACTIVE_RESERVATION.
Proof. repeat split; vm_compute; reflexivity. Qed.

(** ** Admission and capacity *)

(** C1, as stated, fails: two requests for 6 seats each, on an area with 10
    afternoon seats and no reservation, are both admitted when each reads
    the used total before the other inserts; 12 seats are then committed
    for 13:00. *)
Lemma oversell_when_checks_interleave :
  let final :=
    run_schedule Scenario.both_read_first
      (initial_pool Scenario.world0 Scenario.two_parties,
       Scenario.sys_of Scenario.store_free) in
  periodCapacity AFTERNOON (Scenario.area_with (Some 10) (Some 4)) = 10
  /\ forallb finished final.1 = true
  /\ admitted_in_pool Scenario.two_parties final.1 = 12
  /\ spec_used (db final.2) "a1"
       (spec_window AFTERNOON (newDate Scenario.day0 0 0 0 0)) = 12.
Proof. repeat split; vm_compute; reflexivity. Qed.

Example serial_two_parties :
  map is_created
    (serve_all Scenario.world0 Scenario.two_parties
       (Scenario.sys_of Scenario.store_free)).1
  = [true; false].
Proof. vm_compute. reflexivity. Qed.

Lemma in_own_window dt :
  720 <= minutesOfDay dt ->
  inWindow (spec_window (getPeriodFromDate dt) dt) dt = true.
Proof.
  intros H. rewrite getPeriodFromDate_rule. unfold minutesOfDay in H.
  unfold spec_classify. rewrite minutes_of_day in *.
  pose proof (msOfDay_range dt) as R. unfold MS_PER_DAY in R.
  pose proof (date_decompose dt) as E. unfold MS_PER_DAY in E.
  pose proof (Z.div_mod (msOfDay dt) 60000 ltac:(lia)) as Q.
  pose proof (Z.mod_pos_bound (msOfDay dt) 60000 ltac:(lia)) as B.
  unfold inWindow. apply andb_true_iff.
  destruct (Z.ltb_spec (msOfDay dt / 60000) 720); [lia |].
  destruct (Z.ltb_spec (msOfDay dt / 60000) 1050);
    cbn [spec_window from to]; unfold newDate, MS_PER_DAY;
    rewrite !Z.leb_le; lia.
Qed.

Lemma spec_window_same_day p d1 d2 :
  dayIndex d1 = dayIndex d2 -> spec_window p d1 = spec_window p d2.
Proof. intros H. unfold spec_window. rewrite H. reflexivity. Qed.

Lemma spec_used_with_reservation st row A win :
  spec_used (with_reservation st row) A win
  = spec_used st A win
    + (if bool_decide (Reservation.areaId row = Some A)
          && status_counts (Reservation.status row)
          && inWindow win (Reservation.reservationDate row)
       then Reservation.people row + Reservation.kids row
       else 0).
Proof.
  unfold spec_used, with_reservation. cbn [reservations].
  rewrite filter_app, map_app, sumZ_app. f_equal.
  rewrite filter_cons, filter_nil.
  destruct (decide _) as [H | H].
  - apply Is_true_true in H. rewrite H. cbn. lia.
  - apply Is_true_false in H. rewrite H. reflexivity.
Qed.

Lemma area_findUnique_id A st a :
  area_findUnique A st = Some a -> Area.id a = A.
Proof.
  unfold area_findUnique. intros H. apply List.find_some in H as [_ H].
  apply String.eqb_eq. exact H.
Qed.

Section SerialAdmission.

Variable w : World.
Variable A : string.
Variable P : Period.
Variable day : Date.
Variable a : Area.t.

Let C := periodCapacity P a.
Let used (s : Sys) := spec_used (db s) A (spec_window P day).

(** One request served alone: an admitted party fits in what remains and is
    counted from then on; a rejected one changes nothing. *)
Lemma serve_one req s :
  area_findUnique A (db s) = Some a ->
  targets req A P day ->
  let r := run (createPublicReservation w req) s in
  area_findUnique A (db r.2) = Some a
  /\ (if is_created r.1
      then requested req <= Z.max 0 (C - used s)
           /\ used r.2 = used s + requested req
      else used r.2 = used s).
Proof using Type.
  intros Ha (HA & dt & Hdt & Hday & HP & Hnoon). cbv zeta.
  pose proof (createPublicReservation_outcome w req s) as H. cbv zeta in H.
  destruct (basicValidation (body req)).
  { rewrite H. cbn. split; [exact Ha | reflexivity]. }
  destruct (has_active_contact _ _ _).
  { destruct H as [H1 H2]. rewrite H2. split; [exact Ha |].
    destruct (run _ s).1; [reflexivity | discriminate]. }
  rewrite HA, Hdt in H. cbn [from_option id] in H.
  unfold admission_check in H.
  destruct (active_unit _ _) as [u |];
    [| rewrite H; cbn; split; [exact Ha | reflexivity]].
  unfold area_of_unit in H. rewrite Ha in H.
  destruct (Area.isActive a && _);
    [| rewrite H; cbn; split; [exact Ha | reflexivity]].
  cbv zeta in H.
  destruct (spec_blocked _ _ _ _ _);
    [rewrite H; cbn; split; [exact Ha | reflexivity] |].
  rewrite HP, (area_findUnique_id _ _ _ Ha) in H.
  rewrite (spec_window_same_day P dt day Hday) in H.
  destruct (Z.gtb_spec (requested req)
              (Z.max 0 (periodCapacity P a
                        - spec_used (db s) A (spec_window P day)))) as [Hgt | Hle];
    [rewrite H; cbn; split; [exact Ha | reflexivity] |].
  destruct H as [[E1 E2] | (row & E1 & E2 & RA & RS & RP & RD)]; rewrite E1;
    cbn [is_created].
  - unfold used. rewrite E2. split; [exact Ha | reflexivity].
  - unfold used. rewrite E2. split; [exact Ha |]. split; [exact Hle |].
    rewrite (area_findUnique_id _ _ _ Ha) in RA.
    rewrite spec_used_with_reservation, RA, RS, RD, RP.
    rewrite bool_decide_eq_true_2 by reflexivity. cbn [status_counts andb].
    rewrite <- (spec_window_same_day P dt day Hday), <- HP.
    rewrite in_own_window by exact Hnoon. reflexivity.
Qed.

Lemma serve_all_bound reqs s :
  area_findUnique A (db s) = Some a ->
  Forall (fun req => targets req A P day) reqs ->
  admitted_total reqs (serve_all w reqs s).1 + used s <= Z.max C (used s).
Proof using Type.
  revert s. induction reqs as [| req reqs IH]; intros s Ha Hall.
  - cbn. lia.
  - apply Forall_cons in Hall as [Hreq Hall].
    cbn [serve_all].
    pose proof (serve_one req s Ha Hreq) as H1. cbv zeta in H1.
    destruct (run (createPublicReservation w req) s) as [resp s1].
    cbn [fst snd] in H1. destruct H1 as [Ha1 H1].
    specialize (IH s1 Ha1 Hall).
    destruct (serve_all w reqs s1) as [resps s2]. cbn [fst snd] in *.
    cbn [admitted_total]. destruct (is_created resp).
    + destruct H1 as [Hfit Hused]. lia.
    + lia.
Qed.

End SerialAdmission.

(** C1 (amended).  Public create-requests for one area, period and calendar
    day, with times inside the period's window, served one after the other
    (each request's capacity check and insert without another request in
    between): the sum of the admitted party sizes never exceeds the
    period capacity [C] of the area. *)
Theorem serial_admission_within_capacity
  (w : World) (A : string) (P : Period) (day : Date) (a : Area.t)
  (reqs : list Request) (s : Sys) :
  area_findUnique A (db s) = Some a ->
  Forall (fun req => targets req A P day) reqs ->
  0 <= periodCapacity P a ->
  0 <= spec_used (db s) A (spec_window P day) ->
  admitted_total reqs (serve_all w reqs s).1 <= periodCapacity P a.
Proof.
  intros Ha Hall HC HU.
  pose proof (serve_all_bound w A P day a reqs s Ha Hall) as H.
  cbv beta zeta in H. lia.
Qed.

Lemma serial_admission_within_capacity_witness :
  Forall (fun req => targets req "a1" AFTERNOON (newDate Scenario.day0 0 0 0 0))
    Scenario.two_parties
  /\ admitted_total Scenario.two_parties
       (serve_all Scenario.world0 Scenario.two_parties
          (Scenario.sys_of Scenario.store_free)).1
     <= 10.
Proof.
  assert (Forall (fun req => targets req "a1" AFTERNOON (newDate Scenario.day0 0 0 0 0))
            Scenario.two_parties) as H.
  { repeat constructor; eexists; repeat split; vm_compute; congruence. }
  split; [exact H |].
  apply (serial_admission_within_capacity Scenario.world0 "a1" AFTERNOON
           (newDate Scenario.day0 0 0 0 0) (Scenario.area_with (Some 10) (Some 4))
           Scenario.two_parties (Scenario.sys_of Scenario.store_free)).
  - reflexivity.
  - exact H.
  - vm_compute. discriminate.
  - vm_compute. discriminate.
Defined.

(** ** Update credit *)

(** C3.  The code at an update that keeps unit, area, day and period but
    changes the time of day: the night capacity of 4 is held by the
    reservation itself (a party of 4 at 19:00); moving it to 20:00 with the
    same party is rejected with AREA_NO_CAPACITY (available 0, credit 0),
    although 19:00 and 20:00 are both NIGHT; the same update keeping 19:00
    is accepted (available 0, credit 4). *)
Theorem update_credit_lost_when_time_changes :
  getPeriodFromDate (newDate Scenario.day0 19 0 0 0) = NIGHT
  /\ getPeriodFromDate (newDate Scenario.day0 20 0 0 0) = NIGHT
  /\ enrichAndValidate Scenario.world0 Scenario.store_1900 Scenario.put_2000
     = Respond (Failure 409 AREA_NO_CAPACITY (Credit 0 0))
  /\ creditoAtual_of Scenario.store_1900 Scenario.put_1900 (Some "u1") "a1"
       "2025-03-10" "19:00" = 4
  /\ match enrichAndValidate Scenario.world0 Scenario.store_1900
             Scenario.put_1900 with
     | Next _ => True
     | Respond _ => False
     end.
Proof.
  split; [vm_compute; reflexivity |].
  split; [vm_compute; reflexivity |].
  split; [vm_compute; reflexivity |].
  split; [vm_compute; reflexivity |].
  vm_compute. exact I.
Qed.

(* ================================================================== *)
(** * Further properties of the code *)
(* ================================================================== *)

(** ** Which reservations a period query counts *)

Lemma inWindow_spec_window p base dt :
  inWindow (spec_window p base) dt = true
  <-> dayIndex dt = dayIndex base
      /\ 720 <= minutesOfDay dt
      /\ getPeriodFromDate dt = p.
Proof.
  rewrite getPeriodFromDate_rule. unfold minutesOfDay, spec_classify.
  rewrite minutes_of_day.
  pose proof (msOfDay_range dt) as R. unfold MS_PER_DAY in R.
  pose proof (date_decompose dt) as E. unfold MS_PER_DAY in E.
  pose proof (Z.div_mod (msOfDay dt) 60000 ltac:(lia)) as Q.
  pose proof (Z.mod_pos_bound (msOfDay dt) 60000 ltac:(lia)) as B.
  set (q := msOfDay dt / 60000) in *. set (r := msOfDay dt mod 60000) in *.
  set (ms := msOfDay dt) in *. set (d := dayIndex dt) in *.
  set (D := dayIndex base).
  unfold inWindow. rewrite andb_true_iff, !Z.leb_le.
  destruct p; cbn [spec_window from to]; unfold newDate, MS_PER_DAY;
    destruct (Z.ltb_spec q 720); destruct (Z.ltb_spec q 1050);
    (split; [intros [H1 H2]; assert (d = D) by lia; repeat split; (lia || congruence)
            | intros (H1 & H2 & H3); try discriminate; try lia]).
Qed.

(** X1.  A reservation dated [dt] is inside the window that the
    availability calculator builds for a base date and a time string if and
    only if it is on the same calendar day, at 12:00 or later, and of the
    same period as the time string; the window of the public route is the
    same, for the period of the route's own date. *)
Theorem counted_in_period_window (base dt : Date) (hhmm : string) :
  (inWindow (periodWindow base hhmm).1 dt = true
   <-> dayIndex dt = dayIndex base
       /\ 720 <= minutesOfDay dt
       /\ getPeriodFromDate dt = clampToBusinessWindow hhmm)
  /\ (inWindow (periodWindowOfDate base) dt = true
      <-> dayIndex dt = dayIndex base
          /\ 720 <= minutesOfDay dt
          /\ getPeriodFromDate dt = getPeriodFromDate base).
Proof.
  split.
  - rewrite periodWindow_spec. apply inWindow_spec_window.
  - rewrite periodWindowOfDate_spec. apply inWindow_spec_window.
Qed.

(** ** Rendering of dates *)

Lemma two_digits_inj a b c d :
  String a (String b EmptyString) = String c (String d EmptyString) ->
  a = c /\ b = d.
Proof. intros H. inversion H. auto. Qed.

Lemma pad2_inj n m :
  0 <= n < 100 -> 0 <= m < 100 -> Js.pad2 n = Js.pad2 m -> n = m.
Proof.
  intros Hn Hm E.
  destruct (pad2_digits n Hn) as (a & b & E1 & _ & _ & V1).
  destruct (pad2_digits m Hm) as (c & d & E2 & _ & _ & V2).
  rewrite E1, E2 in E. apply two_digits_inj in E as [-> ->]. lia.
Qed.

Lemma isValidHHmm_pad2 h m :
  0 <= h < 100 -> 0 <= m < 100 ->
  isValidHHmm (Some (Js.pad2 h ++ ":" ++ Js.pad2 m)) = true.
Proof.
  intros Hh Hm.
  destruct (pad2_digits h Hh) as (a & b & E1 & Ha & Hb & _).
  destruct (pad2_digits m Hm) as (c & d & E2 & Hc & Hd & _).
  rewrite E1, E2. cbv [String.append]. cbn [isValidHHmm].
  rewrite Ha, Hb, Hc, Hd. reflexivity.
Qed.

Lemma toHHmm_eq_iff d1 d2 :
  toHHmm d1 = toHHmm d2
  <-> getHours d1 = getHours d2 /\ getMinutes d1 = getMinutes d2.
Proof.
  pose proof (getHours_range d1) as H1. pose proof (getMinutes_range d1) as M1.
  pose proof (getHours_range d2) as H2. pose proof (getMinutes_range d2) as M2.
  split.
  - unfold toHHmm. intros E.
    destruct (pad2_digits (getHours d1) ltac:(lia)) as (a & b & E1 & _ & _ & V1).
    destruct (pad2_digits (getMinutes d1) ltac:(lia)) as (c & d & E2 & _ & _ & V2).
    destruct (pad2_digits (getHours d2) ltac:(lia)) as (a' & b' & E1' & _ & _ & V1').
    destruct (pad2_digits (getMinutes d2) ltac:(lia)) as (c' & d' & E2' & _ & _ & V2').
    rewrite E1, E2, E1', E2' in E. cbv [String.append] in E.
    inversion E; subst. lia.
  - intros [Eh Em]. unfold toHHmm. rewrite Eh, Em. reflexivity.
Qed.

Lemma isValidHHmm_toHHmm d : isValidHHmm (Some (toHHmm d)) = true.
Proof.
  pose proof (getHours_range d). pose proof (getMinutes_range d).
  unfold toHHmm. apply isValidHHmm_pad2; lia.
Qed.

(** X2.  The HH:mm rendering of a date always passes [isValidHHmm], and two
    dates have the same rendering exactly when they have the same hour and
    the same minute. *)
Theorem toHHmm_valid_and_faithful (d1 d2 : Date) :
  isValidHHmm (Some (toHHmm d1)) = true
  /\ (toHHmm d1 = toHHmm d2
      <-> getHours d1 = getHours d2 /\ getMinutes d1 = getMinutes d2).
Proof. split; [apply isValidHHmm_toHHmm | apply toHHmm_eq_iff]. Qed.

(** The civil date of a day determines the day. *)
Lemma civil_from_days_inj z1 z2 :
  civil_from_days z1 = civil_from_days z2 -> z1 = z2.
Proof.
  unfold civil_from_days. cbv zeta.
  set (a1 := z1 + 719468). set (a2 := z2 + 719468).
  set (e1 := a1 / 146097). set (e2 := a2 / 146097).
  set (doe1 := a1 - e1 * 146097). set (doe2 := a2 - e2 * 146097).
  set (yoe1 := (doe1 - doe1 / 1460 + doe1 / 36524 - doe1 / 146096) / 365).
  set (yoe2 := (doe2 - doe2 / 1460 + doe2 / 36524 - doe2 / 146096) / 365).
  set (doy1 := doe1 - (365 * yoe1 + yoe1 / 4 - yoe1 / 100)).
  set (doy2 := doe2 - (365 * yoe2 + yoe2 / 4 - yoe2 / 100)).
  set (mp1 := (5 * doy1 + 2) / 153). set (mp2 := (5 * doy2 + 2) / 153).
  intros H. injection H as Hy Hm Hd.
  assert (0 <= doe1 <= 146096) as B1 by (unfold doe1, e1; Z.div_mod_to_equations; lia).
  assert (0 <= doe2 <= 146096) as B2 by (unfold doe2, e2; Z.div_mod_to_equations; lia).
  assert (0 <= yoe1 <= 399) as Y1 by (unfold yoe1; Z.div_mod_to_equations; lia).
  assert (0 <= yoe2 <= 399) as Y2 by (unfold yoe2; Z.div_mod_to_equations; lia).
  assert (0 <= doy1 <= 365) as D1.
  { unfold doy1. clearbody doe1. unfold yoe1 in *. Z.div_mod_to_equations. lia. }
  assert (0 <= doy2 <= 365) as D2.
  { unfold doy2. clearbody doe2. unfold yoe2 in *. Z.div_mod_to_equations. lia. }
  assert (0 <= mp1 <= 11) as M1 by (unfold mp1; Z.div_mod_to_equations; lia).
  assert (0 <= mp2 <= 11) as M2 by (unfold mp2; Z.div_mod_to_equations; lia).
  assert (mp1 = mp2) as Emp.
  { destruct (Z.ltb_spec mp1 10), (Z.ltb_spec mp2 10); lia. }
  assert (doy1 = doy2) as Edoy.
  { rewrite Emp in Hd. generalize dependent ((153 * mp2 + 2) / 5). intros. lia. }
  assert (yoe1 + e1 * 400 = yoe2 + e2 * 400) as Eye.
  { rewrite Emp in Hy.
    destruct ((if mp2 <? 10 then mp2 + 3 else mp2 - 9) <=? 2); lia. }
  assert (e1 = e2) by lia. assert (yoe1 = yoe2) as Eyoe by lia.
  assert (doe1 = doe2) as Edoe.
  { unfold doy1, doy2 in Edoy. rewrite Eyoe in Edoy. lia. }
  unfold doe1, doe2, a1, a2 in Edoe. lia.
Qed.

Lemma civil_from_days_ranges z :
  0 <= z < 2932897 ->
  let '(y, m, d) := civil_from_days z in
  0 <= y <= 9999 /\ 1 <= m <= 12 /\ 1 <= d <= 31.
Proof.
  intros Hz. unfold civil_from_days. cbv zeta.
  set (a := z + 719468). set (e := a / 146097).
  set (doe := a - e * 146097).
  set (yoe := (doe - doe / 1460 + doe / 36524 - doe / 146096) / 365).
  set (doy := doe - (365 * yoe + yoe / 4 - yoe / 100)).
  set (mp := (5 * doy + 2) / 153).
  assert (4 <= e <= 24) as E by (unfold e, a; Z.div_mod_to_equations; lia).
  assert (0 <= doe <= 146096) as B by (unfold doe, e; Z.div_mod_to_equations; lia).
  assert (0 <= yoe <= 399) as Y by (unfold yoe; Z.div_mod_to_equations; lia).
  assert (0 <= doy <= 365) as D.
  { unfold doy. clearbody doe. unfold yoe in *. Z.div_mod_to_equations. lia. }
  assert (0 <= mp <= 11) as M by (unfold mp; Z.div_mod_to_equations; lia).
  assert (1 <= doy - (153 * mp + 2) / 5 + 1 <= 31) as Dd.
  { clearbody doy. unfold mp in *. Z.div_mod_to_equations. lia. }
  assert (1 <= (if mp <? 10 then mp + 3 else mp - 9) <= 12) as Mm.
  { destruct (Z.ltb_spec mp 10); lia. }
  split; [| split; assumption].
  destruct (Z.leb_spec (if mp <? 10 then mp + 3 else mp - 9) 2) as [L | L];
    [| lia].
  assert (10 <= mp) as Hmp by (destruct (Z.ltb_spec mp 10); lia).
  assert (306 <= doy) as Hdoy by (unfold mp in Hmp; Z.div_mod_to_equations; lia).
  destruct (Z.eq_dec e 24) as [E24 | NE]; [| lia].
  destruct (Z.eq_dec yoe 399) as [Y399 | NY]; [| lia].
  exfalso. unfold doy in Hdoy. rewrite Y399 in Hdoy.
  change (399 / 4) with 99 in Hdoy. change (399 / 100) with 3 in Hdoy.
  unfold doe, a in Hdoy. rewrite E24 in Hdoy. lia.
Qed.

Lemma pad4_inj n m :
  0 <= n <= 9999 -> 0 <= m <= 9999 -> Js.pad4 n = Js.pad4 m -> n = m.
Proof.
  intros Hn Hm E. unfold Js.pad4 in E.
  assert (0 <= n / 100 < 100 /\ 0 <= n mod 100 < 100) as [Hn1 Hn2]
    by (Z.div_mod_to_equations; lia).
  assert (0 <= m / 100 < 100 /\ 0 <= m mod 100 < 100) as [Hm1 Hm2]
    by (Z.div_mod_to_equations; lia).
  destruct (pad2_digits _ Hn1) as (a & b & E1 & _ & _ & V1).
  destruct (pad2_digits _ Hn2) as (c & d & E2 & _ & _ & V2).
  destruct (pad2_digits _ Hm1) as (a' & b' & E1' & _ & _ & V1').
  destruct (pad2_digits _ Hm2) as (c' & d' & E2' & _ & _ & V2').
  rewrite E1, E2, E1', E2' in E. cbv [String.append] in E.
  inversion E; subst.
  assert (n / 100 = m / 100) by lia. assert (n mod 100 = m mod 100) by lia.
  Z.div_mod_to_equations. lia.
Qed.

Lemma toYMD_civil_inj y1 m1 d1 y2 m2 d2 :
  0 <= y1 <= 9999 -> 1 <= m1 <= 12 -> 1 <= d1 <= 31 ->
  0 <= y2 <= 9999 -> 1 <= m2 <= 12 -> 1 <= d2 <= 31 ->
  Js.pad4 y1 ++ "-" ++ Js.pad2 m1 ++ "-" ++ Js.pad2 d1
  = Js.pad4 y2 ++ "-" ++ Js.pad2 m2 ++ "-" ++ Js.pad2 d2 ->
  (y1, m1, d1) = (y2, m2, d2).
Proof.
  intros Hy1 Hm1 Hd1 Hy2 Hm2 Hd2 E.
  assert (Js.pad4 y1 = Js.pad4 y2 /\ Js.pad2 m1 = Js.pad2 m2
          /\ Js.pad2 d1 = Js.pad2 d2) as (Ey & Em & Ed).
  { unfold Js.pad4, Js.pad2 in *. cbv [String.append] in E.
    inversion E. repeat split; congruence. }
  apply pad4_inj in Ey; [| assumption ..].
  apply pad2_inj in Em; [| lia ..].
  apply pad2_inj in Ed; [| lia ..].
  congruence.
Qed.

Lemma toYMD_reads_the_day d :
  toYMD d = toYMD (newDate (dayIndex d) 0 0 0 0).
Proof.
  assert (dayIndex (newDate (dayIndex d) 0 0 0 0) = dayIndex d) as E.
  { unfold newDate.
    replace (dayIndex d * MS_PER_DAY + ((0 * 60 + 0) * 60 + 0) * 1000 + 0)
      with (dayIndex d * MS_PER_DAY + 0) by lia.
    apply dayIndex_newDate. unfold MS_PER_DAY. lia. }
  unfold toYMD. rewrite E. reflexivity.
Qed.

Lemma toYMD_eq_iff d1 d2 :
  0 <= dayIndex d1 < 2932897 ->
  0 <= dayIndex d2 < 2932897 ->
  (toYMD d1 = toYMD d2 <-> dayIndex d1 = dayIndex d2).
Proof.
  intros H1 H2. split.
  - intros E. unfold toYMD in E.
    pose proof (civil_from_days_ranges _ H1) as R1.
    pose proof (civil_from_days_ranges _ H2) as R2.
    destruct (civil_from_days (dayIndex d1)) as [[y1 m1] dd1] eqn:C1.
    destruct (civil_from_days (dayIndex d2)) as [[y2 m2] dd2] eqn:C2.
    destruct R1 as (? & ? & ?). destruct R2 as (? & ? & ?).
    apply toYMD_civil_inj in E; [| assumption ..].
    apply civil_from_days_inj. congruence.
  - intros E. rewrite (toYMD_reads_the_day d1), (toYMD_reads_the_day d2), E.
    reflexivity.
Qed.

(** X3.  For dates from 1970-01-01 to 9999-12-31, two dates have the same
    YYYY-MM-DD rendering exactly when they fall on the same calendar day. *)
Theorem toYMD_same_day (d1 d2 : Date) :
  0 <= dayIndex d1 < 2932897 ->
  0 <= dayIndex d2 < 2932897 ->
  (toYMD d1 = toYMD d2 <-> dayIndex d1 = dayIndex d2).
Proof. apply toYMD_eq_iff. Qed.

Lemma toYMD_same_day_witness :
  0 <= dayIndex (newDate Scenario.day0 19 0 0 0) < 2932897
  /\ toYMD (newDate Scenario.day0 19 0 0 0)
     = toYMD (newDate Scenario.day0 20 0 0 0).
Proof.
  assert (0 <= dayIndex (newDate Scenario.day0 19 0 0 0) < 2932897) as H1
    by (vm_compute; split; [discriminate | reflexivity]).
  assert (0 <= dayIndex (newDate Scenario.day0 20 0 0 0) < 2932897) as H2
    by (vm_compute; split; [discriminate | reflexivity]).
  split; [exact H1 |].
  apply (toYMD_same_day _ _ H1 H2). reflexivity.
Defined.

(** ** The credit of an update *)

(** X4.  On PUT /:id for an existing reservation, the credit that
    [enrichAndValidate] grants is the reservation's own people + kids
    exactly when the unit, the area, the calendar day, the hour and the
    minute are all unchanged, and 0 otherwise (dates from 1970 to 9999). *)
Theorem update_credit_exactly
  (st : Store) (req : StaffRequest) (prev : Reservation.t)
  (unitId : option string) (areaId : string) (dt : Date) :
  method req = "PUT" ->
  Js.truthy_opt (params_id req) = true ->
  reservation_findUnique (default EmptyString (params_id req)) st = Some prev ->
  0 <= dayIndex dt < 2932897 ->
  0 <= dayIndex (Reservation.reservationDate prev) < 2932897 ->
  creditoAtual_of st req unitId areaId (toYMD dt) (toHHmm dt)
  = if bool_decide
         (default EmptyString (Reservation.unitId prev) = default EmptyString unitId
          /\ default EmptyString (Reservation.areaId prev) = areaId
          /\ dayIndex (Reservation.reservationDate prev) = dayIndex dt
          /\ getHours (Reservation.reservationDate prev) = getHours dt
          /\ getMinutes (Reservation.reservationDate prev) = getMinutes dt)
    then Reservation.people prev + Reservation.kids prev
    else 0.
Proof.
  intros Hm Hid Hprev Hdt Hpd. unfold creditoAtual_of.
  rewrite Hm, Hid, Hprev. cbn [String.eqb andb].
  change (("PUT" =? "PUT")%string) with true. cbn [andb].
  pose proof (toYMD_eq_iff _ _ Hpd Hdt) as Ey.
  pose proof (toHHmm_eq_iff (Reservation.reservationDate prev) dt) as Eh.
  destruct (String.eqb_spec (default EmptyString (Reservation.unitId prev))
              (default EmptyString unitId)) as [U | U];
  destruct (String.eqb_spec (default EmptyString (Reservation.areaId prev)) areaId)
    as [A | A];
  destruct (String.eqb_spec (toYMD (Reservation.reservationDate prev)) (toYMD dt))
    as [Y | Y];
  destruct (String.eqb_spec (toHHmm (Reservation.reservationDate prev)) (toHHmm dt))
    as [H | H];
  cbn [andb]; case_bool_decide; first [reflexivity | exfalso; tauto].
Qed.

Lemma update_credit_exactly_witness :
  reservation_findUnique "r1" Scenario.store_1900
  = Some (Scenario.booking "r1" (newDate Scenario.day0 19 0 0 0) 4 0
            ReservationStatus.AWAITING_CHECKIN None)
  /\ creditoAtual_of Scenario.store_1900 Scenario.put_2000 (Some "u1") "a1"
       (toYMD (newDate Scenario.day0 20 0 0 0))
       (toHHmm (newDate Scenario.day0 20 0 0 0))
     = 0.
Proof.
  split; [reflexivity |].
  rewrite (update_credit_exactly Scenario.store_1900 Scenario.put_2000
             (Scenario.booking "r1" (newDate Scenario.day0 19 0 0 0) 4 0
                ReservationStatus.AWAITING_CHECKIN None)
             (Some "u1") "a1" (newDate Scenario.day0 20 0 0 0)
             eq_refl eq_refl eq_refl).
  - vm_compute. reflexivity.
  - vm_compute. split; [discriminate | reflexivity].
  - vm_compute. split; [discriminate | reflexivity].
Defined.

(** ** What the availability listing contains *)

Lemma elem_of_map_iff {A B} (f : A -> B) (l : list A) (y : B) :
  y ∈ map f l <-> exists x, y = f x /\ x ∈ l.
Proof.
  rewrite list_elem_of_In, in_map_iff. split; intros (x & H1 & H2); exists x;
    (split; [congruence | apply list_elem_of_In; assumption]).
Qed.

Lemma listing_static w st unitId d :
  d ∈ map (withResolvedPhoto w) (area_findMany w st unitId) ->
  exists a, a ∈ area_findMany w st unitId /\ d = withResolvedPhoto w a.
Proof. intros H. apply elem_of_map_iff in H as (a & -> & Ha). eauto. Qed.

Lemma listing_with_availability w st unitId (f : AreaPublicDTO -> Z) d :
  d ∈ map (fun a => withAvailability a (f a))
        (map (withResolvedPhoto w) (area_findMany w st unitId)) ->
  exists a, a ∈ area_findMany w st unitId
            /\ d = withAvailability (withResolvedPhoto w a)
                     (f (withResolvedPhoto w a)).
Proof.
  intros H. apply elem_of_map_iff in H as (x & -> & Hx).
  apply elem_of_map_iff in Hx as (a & -> & Ha). eauto.
Qed.

(** X5.  Every entry of [listByUnitPublic] is an active area of the
    requested unit, with its static fields passed through.  Without a date
    the entry carries no availability; with a date, [remaining] and
    [available] are the same number, never negative, and [isAvailable] says
    whether it is positive. *)
Theorem listing_entries
  (w : World) (st : Store) (unitId : string) (dateISO timeHHmm : option string)
  (d : AreaPublicDTO) :
  d ∈ listByUnitPublic w st unitId dateISO timeHHmm ->
  (exists a,
     a ∈ areas st /\ Area.unitId a = unitId /\ Area.isActive a = true
     /\ dto_id d = Area.id a /\ dto_name d = Area.name a
     /\ dto_capacityAfternoon d = Area.capacityAfternoon a
     /\ dto_capacityNight d = Area.capacityNight a)
  /\ (if Js.truthy_opt dateISO
      then exists n, 0 <= n /\ remaining d = Some n /\ available d = Some n
                     /\ isAvailable d = Some (0 <? n)
      else remaining d = None /\ available d = None /\ isAvailable d = None).
Proof.
  unfold listByUnitPublic. intros H.
  destruct (Js.truthy unitId); cbn [negb] in H; [| inversion H].
  assert (forall a, a ∈ area_findMany w st unitId ->
            exists a0, a0 ∈ areas st /\ Area.unitId a0 = unitId
                       /\ Area.isActive a0 = true
                       /\ Area.id a = Area.id a0 /\ Area.name a = Area.name a0
                       /\ Area.capacityAfternoon a = Area.capacityAfternoon a0
                       /\ Area.capacityNight a = Area.capacityNight a0) as Harea.
  { intros a Ha. apply elem_of_area_findMany in Ha as (? & ? & ?).
    exists a. auto 10. }
  assert (d ∈ map (withResolvedPhoto w) (area_findMany w st unitId) ->
          (exists a,
             a ∈ areas st /\ Area.unitId a = unitId /\ Area.isActive a = true
             /\ dto_id d = Area.id a /\ dto_name d = Area.name a
             /\ dto_capacityAfternoon d = Area.capacityAfternoon a
             /\ dto_capacityNight d = Area.capacityNight a)
          /\ remaining d = None /\ available d = None /\ isAvailable d = None)
    as Hstatic.
  { intros Hd. apply listing_static in Hd as (a & Ha & ->).
    split; [apply Harea, Ha | repeat split]. }
  assert (forall f : AreaPublicDTO -> Z,
            (forall x, 0 <= f x) ->
            d ∈ map (fun a => withAvailability a (f a))
                  (map (withResolvedPhoto w) (area_findMany w st unitId)) ->
            (exists a,
               a ∈ areas st /\ Area.unitId a = unitId /\ Area.isActive a = true
               /\ dto_id d = Area.id a /\ dto_name d = Area.name a
               /\ dto_capacityAfternoon d = Area.capacityAfternoon a
               /\ dto_capacityNight d = Area.capacityNight a)
            /\ exists n, 0 <= n /\ remaining d = Some n /\ available d = Some n
                         /\ isAvailable d = Some (0 <? n)) as Hdyn.
  { intros f Hf Hd. apply listing_with_availability in Hd as (a & Ha & ->).
    split; [apply Harea, Ha |]. eexists. split; [apply Hf |]. repeat split. }
  destruct dateISO as [ds |]; cbn [Js.truthy_opt]; [| apply Hstatic, H].
  destruct (Js.truthy ds); [| apply Hstatic, H].
  assert (d ∈ availabilityForDay w st unitId (default (now w) (dayjs_strict w ds)) ->
          (exists a,
             a ∈ areas st /\ Area.unitId a = unitId /\ Area.isActive a = true
             /\ dto_id d = Area.id a /\ dto_name d = Area.name a
             /\ dto_capacityAfternoon d = Area.capacityAfternoon a
             /\ dto_capacityNight d = Area.capacityNight a)
          /\ exists n, 0 <= n /\ remaining d = Some n /\ available d = Some n
                       /\ isAvailable d = Some (0 <? n)) as Hday.
  { unfold availabilityForDay. apply Hdyn.
    intros x. destruct (_ || _); lia. }
  destruct timeHHmm as [t |]; [| apply Hday, H].
  destruct (Js.truthy t); [| apply Hday, H].
  revert H. unfold availabilityForPeriod.
  destruct (periodWindow _ _) as [win p]. apply Hdyn.
  intros x. destruct (_ || _); lia.
Qed.

Lemma listing_entries_witness :
  (exists d, d ∈ listByUnitPublic Scenario.world0 Scenario.store_1300 "u1"
                   (Some "2025-03-10") (Some "13:00")
             /\ remaining d = Some 2 /\ isAvailable d = Some true).
Proof.
  eexists. split; [left |]. split; [reflexivity |].
  pose proof (listing_entries Scenario.world0 Scenario.store_1300 "u1"
                (Some "2025-03-10") (Some "13:00") _ (list_elem_of_here _ _))
    as [_ H].
  vm_compute. reflexivity.
Defined.

(** ** The public route and the displayed availability *)

Lemma toYMD_truthy d : Js.truthy (toYMD d) = true.
Proof.
  unfold toYMD. destruct (civil_from_days (dayIndex d)) as [[y m] dd].
  reflexivity.
Qed.

Lemma toHHmm_truthy d : Js.truthy (toHHmm d) = true.
Proof. reflexivity. Qed.

Lemma spec_blocked_same_day st unitId A b1 b2 ps :
  dayIndex b1 = dayIndex b2 ->
  spec_blocked st unitId A b1 ps = spec_blocked st unitId A b2 ps.
Proof. intros H. unfold spec_blocked. rewrite H. reflexivity. Qed.

Lemma NoDup_map_inj {A B} (f : A -> B) (l : list A) x y :
  NoDup (map f l) -> x ∈ l -> y ∈ l -> f x = f y -> x = y.
Proof.
  induction l as [| z l IH]; intros Hnd Hx Hy E; [inversion Hx |].
  cbn [map] in Hnd. apply NoDup_cons in Hnd as [Hz Hnd].
  apply elem_of_cons in Hx as [-> | Hx]; apply elem_of_cons in Hy as [-> | Hy].
  - reflexivity.
  - exfalso. apply Hz. rewrite E. apply elem_of_map_iff. eauto.
  - exfalso. apply Hz. rewrite <- E. apply elem_of_map_iff. eauto.
  - apply IH; assumption.
Qed.

Lemma find_dto_of_area (g : Area.t -> AreaPublicDTO) (l : list Area.t) a :
  (forall x, dto_id (g x) = Area.id x) ->
  (forall x y, x ∈ l -> y ∈ l -> Area.id x = Area.id y -> x = y) ->
  a ∈ l ->
  List.find (fun x => String.eqb (dto_id x) (Area.id a)) (map g l) = Some (g a).
Proof.
  intros Hg Hinj Ha. induction l as [| z l IH]; [inversion Ha |].
  cbn [map List.find]. rewrite Hg.
  destruct (String.eqb_spec (Area.id z) (Area.id a)) as [E | NE].
  - rewrite (Hinj z a); [reflexivity | left | exact Ha | exact E].
  - apply elem_of_cons in Ha as [-> | Ha]; [congruence |].
    apply IH; [| exact Ha].
    intros x y Hx Hy. apply Hinj; right; assumption.
Qed.

(** What the calculator displays for an active area of the unit at the date
    and time of [dt]. *)
Lemma displayed_remaining_spec w st unitId a dt :
  ids_nonempty st ->
  area_ids_unique st ->
  dayjs_reads w dt ->
  Js.truthy unitId = true ->
  a ∈ areas st -> Area.unitId a = unitId -> Area.isActive a = true ->
  displayed_remaining w st unitId (Area.id a) dt
  = Some (spec_remaining
            (periodCapacity (getPeriodFromDate dt) a)
            (spec_used st (Area.id a) (spec_window (getPeriodFromDate dt) dt))
            (spec_blocked st unitId (Area.id a) dt
               [ReservationBlockPeriod.ALL_DAY;
                blockPeriodOf (getPeriodFromDate dt)])).
Proof.
  intros Hids Huniq (b & Hb & Hday) Hu Hin Hunit Hact.
  unfold displayed_remaining, listByUnitPublic.
  rewrite Hu, toYMD_truthy, toHHmm_truthy, Hb. cbn [negb from_option id].
  rewrite availabilityForPeriod_spec by assumption.
  rewrite isValidHHmm_toHHmm, clamp_toHHmm, <- getPeriodFromDate_rule.
  rewrite (find_dto_of_area _ _ a).
  - cbn [mbind option_bind withAvailability remaining].
    rewrite (spec_window_same_day _ b dt Hday).
    rewrite (spec_blocked_same_day _ _ _ b dt _ Hday). reflexivity.
  - reflexivity.
  - intros x y Hx Hy. apply elem_of_area_findMany in Hx as (Hx & _).
    apply elem_of_area_findMany in Hy as (Hy & _).
    apply (NoDup_map_inj Area.id (areas st)); assumption.
  - apply elem_of_area_findMany. auto.
Qed.

Lemma area_of_unit_Some st areaId unitId a :
  area_of_unit st areaId unitId = Some a ->
  a ∈ areas st /\ Area.id a = areaId /\ Area.unitId a = unitId
  /\ Area.isActive a = true.
Proof.
  unfold area_of_unit, area_findUnique. intros H.
  destruct (List.find _ (areas st)) as [x |] eqn:F; [| discriminate].
  apply List.find_some in F as [Hin Hid].
  destruct (Area.isActive x) eqn:Hact; [| discriminate].
  destruct (String.eqb_spec (Area.unitId x) unitId) as [Hu | Hu];
    cbn in H; [| discriminate].
  injection H as <-. apply String.eqb_eq in Hid.
  repeat split; [apply list_elem_of_In, Hin | exact Hid | exact Hu | exact Hact].
Qed.

(** A request that passes the basic validation asks for at least one
    seat. *)
Lemma requested_pos req :
  basicValidation (body req) = None -> 1 <= requested req.
Proof.
  unfold basicValidation, requested, willUse_of. intros H.
  destruct (negb _ || _); [discriminate |].
  destruct (Qeq_bool _ 0 || Js.Qltb _ 1) eqn:E; [discriminate |].
  apply orb_false_iff in E as [_ E]. unfold Js.Qltb in E.
  apply negb_false_iff, Qle_bool_iff in E.
  apply Qfloor_resp_le in E. change (Qfloor 1) with 1 in E. lia.
Qed.

(** X6.  On a store with unique, non-empty area identifiers, for a request
    that passes the basic validation and the contact check and names an
    active unit and an active area of it: the public route passes its block
    and capacity checks exactly when the requested party fits in the
    [remaining] that the availability calculator reports for that area at
    the request's date and time; otherwise it answers BLOCKED_DAY or
    NO_CAPACITY. *)
Theorem public_admission_matches_display
  (w : World) (req : Request) (s : Sys) (dt : Date) (u : Unit.t) (a : Area.t) :
  ids_nonempty (db s) ->
  area_ids_unique (db s) ->
  dayjs_reads w dt ->
  Js.truthy (Unit.id u) = true ->
  basicValidation (body req) = None ->
  Body.reservationDate (body req) = Some dt ->
  has_active_contact (db s) (toLowerEmail (Body.email (body req)))
    (phoneNorm_of (Body.phone (body req))) = false ->
  active_unit (db s) (default EmptyString (Body.unitId (body req))) = Some u ->
  area_of_unit (db s) (default EmptyString (Body.areaId (body req))) (Unit.id u)
  = Some a ->
  exists n,
    displayed_remaining w (db s) (Unit.id u) (Area.id a) dt = Some n
    /\ let code := failure_code (run (createPublicReservation w req) s).1 in
       if n <? requested req
       then code = Some BLOCKED_DAY \/ code = Some NO_CAPACITY
       else code = None \/ code = Some INTERNAL.
Proof.
  intros Hids Huniq Hread Hu Hv Hdt Hdup Hunit Harea.
  destruct (area_of_unit_Some _ _ _ _ Harea) as (Hin & Hid & Hau & Hact).
  eexists. split.
  { apply displayed_remaining_spec; assumption. }
  pose proof (requested_pos req Hv) as Hpos.
  pose proof (createPublicReservation_outcome w req s) as H. cbv zeta in H.
  rewrite Hv, Hdup, Hdt in H. cbn [from_option id] in H.
  unfold admission_check in H. rewrite Hunit, Harea in H. cbv zeta in H.
  cbv zeta. unfold spec_remaining.
  destruct (spec_blocked _ _ _ _ _).
  - rewrite H. cbn [fst failure_code].
    destruct (Z.ltb_spec 0 (requested req)); [left; reflexivity | lia].
  - destruct (Z.gtb_spec (requested req)
                (Z.max 0 (periodCapacity (getPeriodFromDate dt) a
                          - spec_used (db s) (Area.id a)
                              (spec_window (getPeriodFromDate dt) dt))))
      as [Hgt | Hle].
    + rewrite H. cbn [fst failure_code].
      destruct (Z.ltb_spec (Z.max 0 (periodCapacity (getPeriodFromDate dt) a
                          - spec_used (db s) (Area.id a)
                              (spec_window (getPeriodFromDate dt) dt)))
                  (requested req)); [right; reflexivity | lia].
    + destruct (Z.ltb_spec (Z.max 0 (periodCapacity (getPeriodFromDate dt) a
                          - spec_used (db s) (Area.id a)
                              (spec_window (getPeriodFromDate dt) dt)))
                  (requested req)); [lia |].
      destruct H as [[E _] | (row & E & _)]; rewrite E; cbn [failure_code];
        [right | left]; reflexivity.
Qed.

Lemma public_admission_matches_display_witness :
  let req := Scenario.request_of 3 (newDate Scenario.day0 13 0 0 0) None in
  let s := Scenario.sys_of Scenario.store_1300 in
  ids_nonempty (db s)
  /\ area_ids_unique (db s)
  /\ dayjs_reads Scenario.world0 (newDate Scenario.day0 13 0 0 0)
  /\ displayed_remaining Scenario.world0 (db s) "u1" "a1"
       (newDate Scenario.day0 13 0 0 0) = Some 2
  /\ failure_code (run (createPublicReservation Scenario.world0 req) s).1
     = Some NO_CAPACITY.
Proof.
  cbv zeta.
  assert (ids_nonempty Scenario.store_1300) as H1
    by (split; repeat constructor; discriminate).
  assert (area_ids_unique Scenario.store_1300) as H2.
  { unfold area_ids_unique. cbn. apply NoDup_singleton. }
  assert (dayjs_reads Scenario.world0 (newDate Scenario.day0 13 0 0 0)) as H3.
  { exists (newDate Scenario.day0 0 0 0 0).
    split; vm_compute; reflexivity. }
  destruct (public_admission_matches_display Scenario.world0
              (Scenario.request_of 3 (newDate Scenario.day0 13 0 0 0) None)
              (Scenario.sys_of Scenario.store_1300)
              (newDate Scenario.day0 13 0 0 0) Scenario.unit1
              (Scenario.area_with (Some 10) (Some 4))
              H1 H2 H3 eq_refl eq_refl eq_refl eq_refl eq_refl eq_refl)
    as (n & Hn & _).
  split; [exact H1 |]. split; [exact H2 |]. split; [exact H3 |].
  split; vm_compute; reflexivity.
Defined.

Lemma ids_nonempty_with_reservation st row :
  ids_nonempty st -> ids_nonempty (with_reservation st row).
Proof. intros H. exact H. Qed.

Lemma inWindow_own_window_noon dt :
  inWindow (spec_window (getPeriodFromDate dt) dt) dt
  = (720 <=? minutesOfDay dt).
Proof.
  apply eq_true_iff_eq. rewrite inWindow_spec_window, Z.leb_le. tauto.
Qed.

(** X7.  After the public route has created a reservation, the remaining
    seats displayed for its area at the reservation's date and time have
    dropped by exactly the requested party size when the reservation is
    timed at 12:00 or later, and are unchanged when it is timed before
    12:00; the display of every other area is unchanged. *)
Theorem creation_updates_display
  (w : World) (req : Request) (s s' : Sys) (row : Reservation.t)
  (dt : Date) (u : Unit.t) (a : Area.t) :
  ids_nonempty (db s) ->
  area_ids_unique (db s) ->
  dayjs_reads w dt ->
  Js.truthy (Unit.id u) = true ->
  Body.reservationDate (body req) = Some dt ->
  active_unit (db s) (default EmptyString (Body.unitId (body req))) = Some u ->
  area_of_unit (db s) (default EmptyString (Body.areaId (body req))) (Unit.id u)
  = Some a ->
  run (createPublicReservation w req) s = (Created row, s') ->
  (exists n,
     displayed_remaining w (db s) (Unit.id u) (Area.id a) dt = Some n
     /\ requested req <= n
     /\ displayed_remaining w (db s') (Unit.id u) (Area.id a) dt
        = Some (if 720 <=? minutesOfDay dt then n - requested req else n))
  /\ (forall a',
        a' ∈ areas (db s) -> Area.unitId a' = Unit.id u ->
        Area.isActive a' = true -> Area.id a' <> Area.id a ->
        displayed_remaining w (db s') (Unit.id u) (Area.id a') dt
        = displayed_remaining w (db s) (Unit.id u) (Area.id a') dt).
Proof.
  intros Hids Huniq Hread Hu Hdt Hunit Harea Hrun.
  destruct (area_of_unit_Some _ _ _ _ Harea) as (Hin & Hid & Hau & Hact).
  pose proof (createPublicReservation_outcome w req s) as H. cbv zeta in H.
  rewrite Hrun in H. cbn [fst snd] in H.
  destruct (basicValidation (body req)) eqn:Hv; [discriminate |].
  pose proof (requested_pos req Hv) as Hpos.
  destruct (has_active_contact _ _ _); [destruct H; discriminate |].
  rewrite Hdt in H. cbn [from_option id] in H.
  unfold admission_check in H. rewrite Hunit, Harea in H. cbv zeta in H.
  destruct (spec_blocked (db s) _ _ _ _) eqn:Hblk; [discriminate |].
  destruct (Z.gtb_spec (requested req)
              (Z.max 0 (periodCapacity (getPeriodFromDate dt) a
                        - spec_used (db s) (Area.id a)
                            (spec_window (getPeriodFromDate dt) dt))))
    as [Hgt | Hle]; [discriminate |].
  destruct H as [[E _] | (row' & E & Edb & RA & RS & RP & RD)]; [discriminate |].
  injection E as <-.
  assert (forall x, x ∈ areas (db s) -> Area.unitId x = Unit.id u ->
            Area.isActive x = true ->
            displayed_remaining w (db s') (Unit.id u) (Area.id x) dt
            = Some (spec_remaining
                      (periodCapacity (getPeriodFromDate dt) x)
                      (spec_used (db s) (Area.id x)
                         (spec_window (getPeriodFromDate dt) dt)
                       + (if bool_decide (Area.id a = Area.id x)
                             && (720 <=? minutesOfDay dt)
                          then requested req else 0))
                      (spec_blocked (db s) (Unit.id u) (Area.id x) dt
                         [ReservationBlockPeriod.ALL_DAY;
                          blockPeriodOf (getPeriodFromDate dt)]))) as Hnew.
  { intros x Hx Hxu Hxa. rewrite Edb.
    rewrite displayed_remaining_spec; try assumption.
    rewrite spec_used_with_reservation, RA, RS, RD, RP.
    rewrite inWindow_own_window_noon. cbn [status_counts andb].
    unfold spec_blocked. cbn [with_reservation reservationBlocks].
    repeat f_equal.
    destruct (decide (Area.id a = Area.id x)) as [Ex | Nx].
    - rewrite !bool_decide_eq_true_2 by congruence. reflexivity.
    - rewrite !bool_decide_eq_false_2 by congruence. reflexivity. }
  split.
  - eexists. split; [apply displayed_remaining_spec; assumption |].
    rewrite Hblk. cbn [spec_remaining]. split; [exact Hle |].
    rewrite (Hnew a Hin Hau Hact), Hblk. cbn [spec_remaining].
    rewrite bool_decide_eq_true_2 by reflexivity. cbn [andb].
    f_equal. destruct (720 <=? minutesOfDay dt); lia.
  - intros a' Hin' Hu' Hact' Hne.
    rewrite (Hnew a' Hin' Hu' Hact').
    rewrite bool_decide_eq_false_2 by congruence. cbn [andb].
    rewrite Z.add_0_r. symmetry. apply displayed_remaining_spec; assumption.
Qed.


Lemma creation_updates_display_witness :
  let dt := newDate Scenario.day0 13 0 0 0 in
  let req := Scenario.request_of 2 dt None in
  let s := Scenario.sys_of Scenario.store_1300 in
  exists row s',
    run (createPublicReservation Scenario.world0 req) s = (Created row, s')
    /\ displayed_remaining Scenario.world0 (db s) "u1" "a1" dt = Some 2
    /\ displayed_remaining Scenario.world0 (db s') "u1" "a1" dt = Some 0.
Proof.
  cbv zeta.
  remember (run (createPublicReservation Scenario.world0
                   (Scenario.request_of 2 (newDate Scenario.day0 13 0 0 0) None))
              (Scenario.sys_of Scenario.store_1300)) as p eqn:Ep.
  assert (is_created p.1 = true) as Hc by (rewrite Ep; vm_compute; reflexivity).
  destruct p as [[st c d | row] s']; [discriminate Hc |].
  assert (ids_nonempty Scenario.store_1300) as H1
    by (split; repeat constructor; discriminate).
  assert (area_ids_unique Scenario.store_1300) as H2.
  { unfold area_ids_unique. cbn. apply NoDup_singleton. }
  assert (dayjs_reads Scenario.world0 (newDate Scenario.day0 13 0 0 0)) as H3.
  { exists (newDate Scenario.day0 0 0 0 0).
    split; vm_compute; reflexivity. }
  destruct (creation_updates_display Scenario.world0
              (Scenario.request_of 2 (newDate Scenario.day0 13 0 0 0) None)
              (Scenario.sys_of Scenario.store_1300) s' row
              (newDate Scenario.day0 13 0 0 0) Scenario.unit1
              (Scenario.area_with (Some 10) (Some 4))
              H1 H2 H3 eq_refl eq_refl eq_refl eq_refl (eq_sym Ep))
    as ((n & Hn & _ & Hn') & _).
  exists row, s'. split; [reflexivity |].
  assert (displayed_remaining Scenario.world0 Scenario.store_1300 "u1" "a1"
            (newDate Scenario.day0 13 0 0 0) = Some 2) as E
    by (vm_compute; reflexivity).
  split; [exact E |].
  change (db (Scenario.sys_of Scenario.store_1300)) with Scenario.store_1300 in Hn.
  change (Unit.id Scenario.unit1) with "u1" in Hn, Hn'.
  change (Area.id (Scenario.area_with (Some 10) (Some 4))) with "a1" in Hn, Hn'.
  rewrite E in Hn. injection Hn as <-. exact Hn'.
Defined.

(** ** A created reservation and its contact *)

Lemma create_tail_created w (mk : string -> string -> string -> Reservation.t)
  s row s' :
  run
    (bind (generateUniqueReservationCode w)
       (fun code =>
          Await
            (fun s0 =>
               let '(tok, s1) := next_cryptoRandom w s0 in
               reservation_create w (fun id => mk code tok id) s1)
            (fun created =>
               match created with
               | Some row => Ret (Created row)
               | None => Ret (Failure 500 INTERNAL NoDetail)
               end)))
    s = (Created row, s') ->
  exists k tok id,
    row = mk (code_from w k) tok id
    /\ db s' = with_reservation (db s) row
    /\ Forall (fun r =>
                 Reservation.id r <> Reservation.id row
                 /\ Reservation.qrToken r <> Reservation.qrToken row
                 /\ (Reservation.reservationCode row <> None ->
                     Reservation.reservationCode r
                     <> Reservation.reservationCode row))
         (reservations (db s)).
Proof.
  rewrite run_bind.
  destruct (generate_loop_spec w 8 s) as (i & _ & Ecode & Est & _).
  cbv zeta in Ecode, Est. fold (generateUniqueReservationCode w) in Ecode, Est.
  destruct (run (generateUniqueReservationCode w) s) as [code s1].
  cbn [fst snd] in *. subst code s1.
  cbn [run next_cryptoRandom]. unfold reservation_create.
  cbn [db rngCalls idCalls tokCalls advance_rng].
  destruct (existsb _ _) eqn:Ex; cbn [run]; intros H; [discriminate |].
  injection H as <- <-.
  eexists _, _, _. split; [reflexivity |]. split; [reflexivity |].
  apply Forall_forall. intros r Hr.
  rewrite <- not_true_iff_false, existsb_exists in Ex.
  repeat split.
  - intros E. apply Ex. exists r. split; [apply list_elem_of_In, Hr |].
    rewrite E, String.eqb_refl. reflexivity.
  - intros E. apply Ex. exists r. split; [apply list_elem_of_In, Hr |].
    rewrite E, String.eqb_refl, orb_true_r. reflexivity.
  - intros Hn E. apply Ex. exists r. split; [apply list_elem_of_In, Hr |].
    rewrite (bool_decide_eq_true_2 _ Hn), (bool_decide_eq_true_2 _ E).
    rewrite !orb_true_r. reflexivity.
Qed.

Lemma checkAndCreate_created w req dt p k e ph s row s' :
  run (checkAndCreate w req dt p k e ph) s = (Created row, s') ->
  db s' = with_reservation (db s) row
  /\ Reservation.email row = e
  /\ Reservation.phone row = ph
  /\ Reservation.status row = ReservationStatus.AWAITING_CHECKIN
  /\ Reservation.checkedInAt row = None
  /\ Reservation.qrExpiresAt row = Some (now w + 1000 * 60 * 60 * 48)
  /\ (exists n, Reservation.reservationCode row = Some (code_from w n))
  /\ Forall (fun r =>
               Reservation.id r <> Reservation.id row
               /\ Reservation.qrToken r <> Reservation.qrToken row
               /\ Reservation.reservationCode r
                  <> Reservation.reservationCode row)
       (reservations (db s)).
Proof.
  unfold checkAndCreate. cbn [run query].
  destruct (unit_findUnique _ (db s)) as [u |]; [| discriminate].
  destruct (negb (Unit.isActive u)); [discriminate |].
  destruct (area_findUnique _ (db s)) as [a |]; [| discriminate].
  destruct (negb (Area.isActive a) || _); [discriminate |].
  cbn [run query].
  destruct (0 <? length _)%nat; [discriminate |].
  cbn [run query].
  destruct (willUse_of p k >? _); [discriminate |].
  match goal with
  | |- context [bind (generateUniqueReservationCode w) ?f] =>
      match f with
      | (fun code => Await (fun s0 => let '(tok, s1) := _ in
                                      reservation_create w (fun id => @?mk code tok id) s1) _) =>
          intros H;
          destruct (create_tail_created w mk s row s' H)
            as (n & tok & id & -> & Edb & Hfresh)
      end
  end.
  cbn [Reservation.email Reservation.phone Reservation.status
       Reservation.checkedInAt Reservation.qrExpiresAt
       Reservation.reservationCode] in *.
  repeat (split; [first [exact Edb | reflexivity] |]).
  split; [eexists; reflexivity |].
  eapply Forall_impl; [exact Hfresh |].
  intros r (H1 & H2 & H3). repeat split; try assumption.
  apply H3. discriminate.
Qed.

Lemma createPublicReservation_created w req s row s' :
  run (createPublicReservation w req) s = (Created row, s') ->
  basicValidation (body req) = None
  /\ has_active_contact (db s) (toLowerEmail (Body.email (body req)))
       (phoneNorm_of (Body.phone (body req))) = false
  /\ db s' = with_reservation (db s) row
  /\ Reservation.email row = toLowerEmail (Body.email (body req))
  /\ Reservation.phone row = phoneNorm_of (Body.phone (body req))
  /\ Reservation.status row = ReservationStatus.AWAITING_CHECKIN
  /\ Reservation.checkedInAt row = None
  /\ Reservation.qrExpiresAt row = Some (now w + 1000 * 60 * 60 * 48)
  /\ (exists n, Reservation.reservationCode row = Some (code_from w n))
  /\ Forall (fun r =>
               Reservation.id r <> Reservation.id row
               /\ Reservation.qrToken r <> Reservation.qrToken row
               /\ Reservation.reservationCode r
                  <> Reservation.reservationCode row)
       (reservations (db s)).
Proof.
  unfold createPublicReservation.
  destruct (basicValidation (body req)) as [f |] eqn:V.
  { rewrite (basicValidation_failure _ _ V). discriminate. }
  set (e := toLowerEmail _). set (ph := phoneNorm_of _).
  destruct (Js.truthy_opt e || Js.truthy_opt ph) eqn:T.
  - cbn [run query].
    destruct (findActiveByContact e ph (db s)) as [ex |] eqn:F; [discriminate |].
    apply findActiveByContact_None in F.
    intros H. split; [reflexivity |]. split; [exact F |].
    exact (checkAndCreate_created _ _ _ _ _ _ _ _ _ _ H).
  - intros H. split; [reflexivity |].
    split; [apply has_active_contact_no_contact, T |].
    exact (checkAndCreate_created _ _ _ _ _ _ _ _ _ _ H).
Qed.

Lemma has_active_contact_true st e ph w req :
  basicValidation (body req) = None ->
  toLowerEmail (Body.email (body req)) = e ->
  phoneNorm_of (Body.phone (body req)) = ph ->
  has_active_contact st e ph = true ->
  forall s, db s = st ->
    exists ex,
      run (createPublicReservation w req) s
      = (Failure 409 ALREADY_HAS_ACTIVE_RESERVATION (ExistingReservation ex), s)
      /\ ex ∈ reservations st
      /\ Reservation.status ex = ReservationStatus.AWAITING_CHECKIN.
Proof.
  intros V <- <- H s <-. unfold createPublicReservation. rewrite V.
  destruct (Js.truthy_opt _ || Js.truthy_opt _) eqn:T.
  - cbn [run query].
    destruct (findActiveByContact _ _ (db s)) as [ex |] eqn:F.
    + exists ex. split; [reflexivity |].
      unfold findActiveByContact in F. apply head_Some_elem_of in F.
      apply elem_of_sort_by, list_elem_of_filter in F as [F1 F2].
      split; [exact F2 |].
      apply Is_true_true, andb_true_iff in F1 as [F1 _].
      apply bool_decide_eq_true in F1. exact F1.
    + apply findActiveByContact_None in F. congruence.
  - rewrite has_active_contact_no_contact in H by exact T. discriminate.
Qed.

Lemma has_active_contact_elem st e ph r :
  r ∈ reservations st ->
  Reservation.status r = ReservationStatus.AWAITING_CHECKIN ->
  (Js.truthy_opt e = true /\ Reservation.email r = e)
  \/ (Js.truthy_opt ph = true /\ Reservation.phone r = ph) ->
  has_active_contact st e ph = true.
Proof.
  intros Hin Hs Hc. unfold has_active_contact.
  apply existsb_exists. exists r. split; [apply list_elem_of_In, Hin |].
  rewrite (bool_decide_eq_true_2 _ Hs). cbn [andb].
  apply orb_true_iff.
  destruct Hc as [[T E] | [T E]]; [left | right];
    rewrite T, (bool_decide_eq_true_2 _ E); reflexivity.
Qed.

(** X8.  One active reservation per contact: once the public route has
    created a reservation, a valid request that carries the same normalised
    e-mail, or the same normalised phone, is answered 409
    ALREADY_HAS_ACTIVE_RESERVATION and writes nothing, when it is served on
    the state the creation leaves, and likewise on every later state in which
    a reservation with the e-mail and the phone of the created one is
    AWAITING_CHECKIN.  (Once the reservation is checked in, the contact is
    free again.) *)
Theorem second_request_of_contact_rejected
  (w w' : World) (req req' : Request) (s s' s'' : Sys) (row : Reservation.t) :
  run (createPublicReservation w req) s = (Created row, s') ->
  basicValidation (body req') = None ->
  (Js.truthy_opt (toLowerEmail (Body.email (body req))) = true
   /\ toLowerEmail (Body.email (body req'))
      = toLowerEmail (Body.email (body req)))
  \/ (Js.truthy_opt (phoneNorm_of (Body.phone (body req))) = true
      /\ phoneNorm_of (Body.phone (body req'))
         = phoneNorm_of (Body.phone (body req))) ->
  s'' = s'
  \/ (exists r, r ∈ reservations (db s'')
                /\ Reservation.status r = ReservationStatus.AWAITING_CHECKIN
                /\ Reservation.email r = Reservation.email row
                /\ Reservation.phone r = Reservation.phone row) ->
  exists ex,
    run (createPublicReservation w' req') s''
    = (Failure 409 ALREADY_HAS_ACTIVE_RESERVATION (ExistingReservation ex), s'')
    /\ Reservation.status ex = ReservationStatus.AWAITING_CHECKIN.
Proof.
  intros Hrun V Hsame Hlater.
  destruct (createPublicReservation_created _ _ _ _ _ Hrun)
    as (_ & _ & Edb & Eemail & Ephone & Estatus & _).
  assert (exists r, r ∈ reservations (db s'')
                    /\ Reservation.status r = ReservationStatus.AWAITING_CHECKIN
                    /\ Reservation.email r = Reservation.email row
                    /\ Reservation.phone r = Reservation.phone row)
    as (r & Hin & Hst & He & Hp).
  { destruct Hlater as [-> | H]; [| exact H].
    exists row. rewrite Edb. cbn [with_reservation reservations].
    split; [apply elem_of_app; right; left | auto]. }
  destruct (has_active_contact_true (db s'')
              (toLowerEmail (Body.email (body req')))
              (phoneNorm_of (Body.phone (body req'))) w' req' V eq_refl eq_refl)
    with (s := s'') as (ex & E & _ & Hex); [| reflexivity | eauto].
  apply (has_active_contact_elem _ _ _ r Hin Hst).
  rewrite He, Hp, Eemail, Ephone.
  destruct Hsame as [[T E] | [T E]]; rewrite E; [left | right]; auto.
Qed.

Lemma second_request_of_contact_rejected_witness :
  let req := Scenario.request_of 2 (newDate Scenario.day0 13 0 0 0)
               (Some " Ana@Example.com ") in
  let req' := Scenario.request_of 1 (newDate Scenario.day0 19 0 0 0)
                (Some "ana@example.com") in
  let p := run (createPublicReservation Scenario.world0 req)
             (Scenario.sys_of Scenario.store_free) in
  is_created p.1 = true
  /\ exists ex,
       run (createPublicReservation Scenario.world0 req') p.2
       = (Failure 409 ALREADY_HAS_ACTIVE_RESERVATION (ExistingReservation ex),
          p.2)
       /\ Reservation.status ex = ReservationStatus.AWAITING_CHECKIN.
Proof.
  cbv zeta.
  remember (run (createPublicReservation Scenario.world0
                   (Scenario.request_of 2 (newDate Scenario.day0 13 0 0 0)
                      (Some " Ana@Example.com ")))
              (Scenario.sys_of Scenario.store_free)) as p eqn:Ep.
  assert (is_created p.1 = true) as Hc by (rewrite Ep; vm_compute; reflexivity).
  destruct p as [[st c d | row] s']; [discriminate Hc |].
  split; [reflexivity |]. cbn [snd].
  apply (second_request_of_contact_rejected Scenario.world0 Scenario.world0
           (Scenario.request_of 2 (newDate Scenario.day0 13 0 0 0)
              (Some " Ana@Example.com "))
           (Scenario.request_of 1 (newDate Scenario.day0 19 0 0 0)
              (Some "ana@example.com"))
           (Scenario.sys_of Scenario.store_free) s' s' row (eq_sym Ep)).
  - vm_compute. reflexivity.
  - left. split; vm_compute; reflexivity.
  - left. reflexivity.
Defined.

(** ** GET /active and the anti-duplication check *)

Lemma findActiveExact_Some st email phone r :
  findActiveExact email phone st = Some r ->
  r ∈ reservations st
  /\ Reservation.status r = ReservationStatus.AWAITING_CHECKIN
  /\ (Js.truthy_opt email = true -> Reservation.email r = email)
  /\ (Js.truthy_opt phone = true -> Reservation.phone r = phone).
Proof.
  unfold findActiveExact. intros F. apply head_Some_elem_of in F.
  apply elem_of_sort_by, list_elem_of_filter in F as [F1 F2].
  split; [exact F2 |].
  apply Is_true_true in F1.
  apply andb_true_iff in F1 as [F1 Fp]. apply andb_true_iff in F1 as [Fs Fe].
  apply bool_decide_eq_true in Fs. split; [exact Fs |].
  split; intros T; rewrite T in *; cbn [negb orb] in *.
  - apply bool_decide_eq_true in Fe. exact Fe.
  - apply bool_decide_eq_true in Fp. exact Fp.
Qed.

Lemma phoneNorm_of_query phone :
  Js.truthy_opt (phoneNorm_of phone) = Js.truthy_opt (Js.digits_only <$> phone)
  /\ (Js.truthy_opt (phoneNorm_of phone) = true ->
      phoneNorm_of phone = Js.digits_only <$> phone).
Proof.
  unfold phoneNorm_of. destruct phone as [p |]; [| split; [reflexivity | discriminate]].
  cbn [fmap option_fmap option_map Js.truthy_opt from_option id].
  destruct (Js.truthy p) eqn:T; cbn [Js.truthy_opt].
  - split; [reflexivity |]. reflexivity.
  - destruct p; [| discriminate]. split; [reflexivity | discriminate].
Qed.

(** X9.  Whenever GET /active, asked by e-mail and/or phone, reports an
    active reservation, a valid POST with the same e-mail and phone is
    answered 409 ALREADY_HAS_ACTIVE_RESERVATION and writes nothing. *)
Theorem active_reservation_blocks_creation
  (w : World) (email phone : option string) (req : Request) (s s1 : Sys)
  (r : Reservation.t) :
  run (getActive None email phone) s = (Json r, s1) ->
  basicValidation (body req) = None ->
  Body.email (body req) = email ->
  Body.phone (body req) = phone ->
  exists ex,
    run (createPublicReservation w req) s
    = (Failure 409 ALREADY_HAS_ACTIVE_RESERVATION (ExistingReservation ex), s)
    /\ Reservation.status ex = ReservationStatus.AWAITING_CHECKIN.
Proof.
  intros Hrun V <- <-. unfold getActive in Hrun.
  cbn [fmap option_fmap option_map Js.truthy_opt] in Hrun.
  destruct (negb (Js.truthy_opt (toLowerEmail (Body.email (body req))))
            && negb (Js.truthy_opt (Js.digits_only <$> Body.phone (body req))))
    eqn:T; [discriminate |].
  cbn [run query] in Hrun.
  destruct (findActiveExact _ _ (db s)) as [x |] eqn:F; [| discriminate].
  injection Hrun as <- <-.
  apply findActiveExact_Some in F as (Hin & Hs & He & Hp).
  destruct (phoneNorm_of_query (Body.phone (body req))) as [Tp Ep].
  destruct (has_active_contact_true (db s)
              (toLowerEmail (Body.email (body req)))
              (phoneNorm_of (Body.phone (body req))) w req V eq_refl eq_refl)
    with (s := s) as (ex & E & _ & Hst); [| reflexivity | eauto].
  apply (has_active_contact_elem _ _ _ x Hin Hs).
  apply andb_false_iff in T as [T | T]; apply negb_false_iff in T.
  - left. split; [exact T | exact (He T)].
  - right. rewrite Tp. split; [exact T |].
    rewrite Ep by (rewrite Tp; exact T). exact (Hp T).
Qed.

Lemma active_reservation_blocks_creation_witness :
  let req := Scenario.request_of 2 (newDate Scenario.day0 13 0 0 0)
               (Some "ANA@example.com") in
  let s := Scenario.sys_of Scenario.store_no_unit in
  exists ex,
    run (createPublicReservation Scenario.world0 req) s
    = (Failure 409 ALREADY_HAS_ACTIVE_RESERVATION (ExistingReservation ex), s)
    /\ Reservation.status ex = ReservationStatus.AWAITING_CHECKIN.
Proof.
  cbv zeta.
  apply (active_reservation_blocks_creation Scenario.world0
           (Some "ANA@example.com") None
           (Scenario.request_of 2 (newDate Scenario.day0 13 0 0 0)
              (Some "ANA@example.com"))
           (Scenario.sys_of Scenario.store_no_unit)
           (Scenario.sys_of Scenario.store_no_unit)
           (Scenario.booking "r1" (newDate Scenario.day0 13 0 0 0) 2 0
              ReservationStatus.AWAITING_CHECKIN (Some "ana@example.com")));
    vm_compute; reflexivity.
Defined.

(** ** Look-up by code *)

Lemma alphabet_is_code_char c :
  c ∈ list_ascii_of_string code_alphabet -> is_code_char c = true.
Proof.
  intros H. apply list_elem_of_In in H.
  assert (forallb is_code_char (list_ascii_of_string code_alphabet) = true) as F
    by reflexivity.
  rewrite forallb_forall in F. exact (F c H).
Qed.

Lemma code_ok_isCode6 code : code_ok code -> isCode6 code = true.
Proof.
  intros [L F]. unfold isCode6. rewrite L. cbn [Nat.eqb andb].
  apply forallb_forall. intros c Hc. apply alphabet_is_code_char.
  rewrite Forall_forall in F. apply F, list_elem_of_In, Hc.
Qed.

Lemma isCode6_truthy code : isCode6 code = true -> Js.truthy code = true.
Proof. destruct code; [discriminate | reflexivity]. Qed.

Lemma find_app_fresh {A} (p : A -> bool) (l : list A) (x : A) :
  Forall (fun y => p y = false) l -> p x = true ->
  List.find p (l ++ [x]) = Some x.
Proof.
  intros F Hx. induction F as [| y l Hy F IH]; cbn [List.find app].
  - rewrite Hx. reflexivity.
  - rewrite Hy. exact IH.
Qed.

Lemma findByCode_created st row code :
  Reservation.reservationCode row = Some code ->
  Forall (fun r => Reservation.reservationCode r
                   <> Reservation.reservationCode row) (reservations st) ->
  reservation_findByCode code (with_reservation st row) = Some row.
Proof.
  intros E F. unfold reservation_findByCode.
  cbn [with_reservation reservations]. apply find_app_fresh.
  - eapply Forall_impl; [exact F |]. intros r Hr. cbn beta.
    apply bool_decide_eq_false_2. congruence.
  - apply bool_decide_eq_true_2, E.
Qed.

(** X10.  A reservation created by the public route is found again under
    its code by GET /lookup and GET /code/:code, whatever the letter case of
    the code and the white space around it. *)
Theorem created_reservation_found_by_code
  (w : World) (req : Request) (s s' : Sys) (row : Reservation.t) :
  (forall k, (0 <= random w k)%Q /\ (random w k < 1)%Q) ->
  run (createPublicReservation w req) s = (Created row, s') ->
  exists code,
    Reservation.reservationCode row = Some code
    /\ forall x, Js.toUpperCase (Js.trim x) = code ->
         run (lookupByCode (Some x)) s' = (Json row, s')
         /\ run (getByCode x) s' = (Json row, s').
Proof.
  intros Hrand Hrun.
  destruct (createPublicReservation_created _ _ _ _ _ Hrun)
    as (_ & _ & Edb & _ & _ & _ & _ & _ & (n & Ecode) & Hfresh).
  exists (code_from w n). split; [exact Ecode |].
  intros x Ex.
  pose proof (code_ok_isCode6 _ (code_from_ok w Hrand n)) as Hc.
  pose proof (isCode6_truthy _ Hc) as Ht.
  assert (reservation_findByCode (code_from w n) (db s') = Some row) as Hf.
  { rewrite Edb. apply findByCode_created; [exact Ecode |].
    eapply Forall_impl; [exact Hfresh |]. intros r (_ & _ & H). exact H. }
  unfold lookupByCode, getByCode. cbn [from_option id].
  rewrite Ex, Hc, Ht. cbn [negb run query]. rewrite Hf. split; reflexivity.
Qed.

Lemma created_reservation_found_by_code_witness :
  let req := Scenario.request_of 2 (newDate Scenario.day0 13 0 0 0) None in
  let p := run (createPublicReservation Scenario.world_zero req)
             (Scenario.sys_of Scenario.store_free) in
  (forall k, (0 <= random Scenario.world_zero k)%Q
             /\ (random Scenario.world_zero k < 1)%Q)
  /\ exists row,
       p.1 = Created row
       /\ Reservation.reservationCode row = Some "AAAAAA"
       /\ run (lookupByCode (Some " aaaaaa ")) p.2 = (Json row, p.2).
Proof.
  cbv zeta.
  assert (forall k, (0 <= random Scenario.world_zero k)%Q
                    /\ (random Scenario.world_zero k < 1)%Q) as H.
  { intros k. split; [apply Qle_refl | reflexivity]. }
  split; [exact H |].
  remember (run (createPublicReservation Scenario.world_zero
                   (Scenario.request_of 2 (newDate Scenario.day0 13 0 0 0) None))
              (Scenario.sys_of Scenario.store_free)) as p eqn:Ep.
  assert (is_created p.1 = true
          /\ match p.1 with
             | Created r => Reservation.reservationCode r = Some "AAAAAA"
             | _ => False
             end) as [Hc Hcode] by (rewrite Ep; vm_compute; split; reflexivity).
  destruct p as [[st c d | row] s']; [discriminate Hc |].
  cbn [fst snd] in *. exists row. split; [reflexivity |]. split; [exact Hcode |].
  destruct (created_reservation_found_by_code Scenario.world_zero
              (Scenario.request_of 2 (newDate Scenario.day0 13 0 0 0) None)
              (Scenario.sys_of Scenario.store_free) s' row H (eq_sym Ep))
    as (code & E & Hx).
  rewrite Hcode in E. injection E as <-.
  exact (proj1 (Hx " aaaaaa " eq_refl)).
Defined.

(** ** Check-in and QR renewal *)

Lemma find_update_first id (f : Reservation.t -> Reservation.t) rows :
  (forall r, Reservation.id (f r) = Reservation.id r) ->
  List.find (fun r => String.eqb (Reservation.id r) id) (update_first id f rows)
  = f <$> List.find (fun r => String.eqb (Reservation.id r) id) rows.
Proof.
  intros Hid. induction rows as [| r rows IH]; [reflexivity |].
  cbn [update_first List.find].
  destruct (String.eqb (Reservation.id r) id) eqn:E; cbn [List.find].
  - rewrite Hid, E. reflexivity.
  - rewrite E. exact IH.
Qed.

Lemma find_update_first_other id id' (f : Reservation.t -> Reservation.t) rows :
  (forall r, Reservation.id (f r) = Reservation.id r) ->
  id' <> id ->
  List.find (fun r => String.eqb (Reservation.id r) id') (update_first id f rows)
  = List.find (fun r => String.eqb (Reservation.id r) id') rows.
Proof.
  intros Hid Hne. induction rows as [| r rows IH]; [reflexivity |].
  cbn [update_first List.find].
  destruct (String.eqb_spec (Reservation.id r) id) as [E | E]; cbn [List.find].
  - rewrite Hid.
    destruct (String.eqb_spec (Reservation.id r) id'); [congruence | reflexivity].
  - rewrite IH. reflexivity.
Qed.

Lemma update_first_same_bookings id (f : Reservation.t -> Reservation.t) rows :
  (forall r, r ∈ rows -> same_booking r (f r)) ->
  Forall2 same_booking rows (update_first id f rows).
Proof.
  assert (forall r, same_booking r r) as Hrefl by (intros r; repeat split).
  induction rows as [| r rows IH]; intros Hf; [constructor |].
  cbn [update_first]. destruct (String.eqb (Reservation.id r) id).
  - constructor; [apply Hf; left |]. apply Forall2_same_length_lookup_2; [reflexivity |].
    intros i x y Hx Hy. rewrite Hx in Hy. injection Hy as <-. apply Hrefl.
  - constructor; [apply Hrefl |]. apply IH. intros x Hx. apply Hf. right. exact Hx.
Qed.

Lemma same_booking_check_in w r :
  status_counts (Reservation.status r) = true -> same_booking r (check_in w r).
Proof. intros H. repeat split. cbn. exact H. Qed.

Lemma same_booking_renewed w ttl tok r :
  status_counts (Reservation.status r) = true ->
  same_booking r (renewed w ttl tok r).
Proof. intros H. repeat split. cbn. exact H. Qed.

(** The availability calculator reads the reservations only through the
    area, the party, the date and whether the status counts. *)
Lemma filter_same_bookings (P : Reservation.t -> bool) rows rows' :
  (forall r r', same_booking r r' -> P r = P r') ->
  Forall2 same_booking rows rows' ->
  Forall2 same_booking (filter P rows) (filter P rows').
Proof.
  intros HP F. induction F as [| r r' rows rows' Hr F IH]; [constructor |].
  rewrite !filter_cons. rewrite <- (HP r r' Hr).
  destruct (decide (P r)); [constructor; assumption | exact IH].
Qed.

Lemma groupBy_same_bookings rows rows' :
  Forall2 same_booking rows rows' ->
  groupBy_areaId rows = groupBy_areaId rows'.
Proof.
  intros F. unfold groupBy_areaId.
  assert (map Reservation.areaId rows = map Reservation.areaId rows') as Ek.
  { induction F as [| r r' l l' (Ha & _) F IH]; [reflexivity |].
    cbn [map]. rewrite Ha, IH. reflexivity. }
  rewrite Ek. apply map_ext. intros k.
  assert (map Reservation.people (rows_of_area k rows)
          = map Reservation.people (rows_of_area k rows')
          /\ map Reservation.kids (rows_of_area k rows)
             = map Reservation.kids (rows_of_area k rows')) as [Ep Ekids].
  { unfold rows_of_area. clear Ek.
    induction F as [| r r' l l' (Ha & Hp & Hk & _) F [IH1 IH2]].
    - split; reflexivity.
    - rewrite !filter_cons. rewrite <- Ha.
      destruct (decide _); cbn [map].
      + rewrite Hp, Hk, IH1, IH2. split; reflexivity.
      + split; assumption. }
  rewrite Ep, Ekids. reflexivity.
Qed.

Lemma grouped_same_bookings win rows rows' :
  Forall2 same_booking rows rows' ->
  groupBy_areaId (filter (reservation_where_window win) rows)
  = groupBy_areaId (filter (reservation_where_window win) rows').
Proof.
  intros F. apply groupBy_same_bookings, filter_same_bookings; [| exact F].
  intros r r' (Ha & _ & _ & Hd & Hs). unfold reservation_where_window.
  rewrite Ha, Hd, Hs. reflexivity.
Qed.

Lemma listByUnitPublic_same_bookings w st st' unitId dateISO timeHHmm :
  areas st' = areas st ->
  reservationBlocks st' = reservationBlocks st ->
  Forall2 same_booking (reservations st) (reservations st') ->
  listByUnitPublic w st' unitId dateISO timeHHmm
  = listByUnitPublic w st unitId dateISO timeHHmm.
Proof.
  intros Ea Eb F.
  assert (forall u, area_findMany w st' u = area_findMany w st u) as EA
    by (intros u; unfold area_findMany; rewrite Ea; reflexivity).
  assert (forall u a b ps, reservationBlock_findMany st' u a b ps
                           = reservationBlock_findMany st u a b ps) as EB
    by (intros; unfold reservationBlock_findMany; rewrite Eb; reflexivity).
  assert (forall base t, availabilityForPeriod w st' unitId base t
                         = availabilityForPeriod w st unitId base t) as EP.
  { intros base t. unfold availabilityForPeriod.
    destruct (periodWindow base _) as [win p].
    rewrite EA, EB, (grouped_same_bookings win _ _ F). reflexivity. }
  assert (forall base, availabilityForDay w st' unitId base
                       = availabilityForDay w st unitId base) as ED.
  { intros base. unfold availabilityForDay. cbn [from to].
    rewrite EA, EB, (grouped_same_bookings _ _ _ F). reflexivity. }
  unfold listByUnitPublic. rewrite EA.
  destruct (negb (Js.truthy unitId)); [reflexivity |].
  destruct dateISO as [d |]; [| reflexivity].
  destruct (Js.truthy d); [| reflexivity].
  destruct timeHHmm as [t |]; [destruct (Js.truthy t) |]; auto.
Qed.

Lemma reservation_update_tables id f s :
  (forall r, r ∈ reservations (db s) -> same_booking r (f r)) ->
  let s' := (reservation_update id f s).2 in
  units (db s') = units (db s)
  /\ areas (db s') = areas (db s)
  /\ reservationBlocks (db s') = reservationBlocks (db s)
  /\ Forall2 same_booking (reservations (db s)) (reservations (db s')).
Proof.
  intros Hf. cbv zeta. unfold reservation_update.
  assert (Forall2 same_booking (reservations (db s)) (reservations (db s))) as R.
  { apply Forall2_same_length_lookup_2; [reflexivity |].
    intros i x y Hx Hy. rewrite Hx in Hy. injection Hy as <-. repeat split. }
  destruct (reservation_findUnique id (db s)); [| repeat split; exact R].
  destruct (_ && _); [repeat split; exact R |].
  cbn [snd db units areas reservationBlocks reservations].
  repeat split. apply update_first_same_bookings, Hf.
Qed.

Lemma reservation_update_same_token id f s r0 :
  reservation_findUnique id (db s) = Some r0 ->
  Reservation.qrToken (f r0) = Reservation.qrToken r0 ->
  reservation_update id f s
  = (Some (f r0),
     {| db := {| units := units (db s);
                 areas := areas (db s);
                 reservations := update_first id f (reservations (db s));
                 reservationBlocks := reservationBlocks (db s) |};
        rngCalls := rngCalls s;
        idCalls := idCalls s;
        tokCalls := tokCalls s |}).
Proof.
  intros F T. unfold reservation_update. rewrite F, T, String.eqb_refl.
  reflexivity.
Qed.

Lemma checkinById_found w id s r0 :
  reservation_findUnique id (db s) = Some r0 ->
  run (checkinById w id) s
  = if bool_decide (Reservation.checkedInAt r0 <> None) then (Status 409, s)
    else
      (Json (check_in w r0),
       {| db := {| units := units (db s);
                   areas := areas (db s);
                   reservations :=
                     update_first id (check_in w) (reservations (db s));
                   reservationBlocks := reservationBlocks (db s) |};
          rngCalls := rngCalls s;
          idCalls := idCalls s;
          tokCalls := tokCalls s |}).
Proof.
  intros F. unfold checkinById. cbn [run query]. rewrite F.
  destruct (bool_decide _); [reflexivity |].
  cbn [run]. rewrite (reservation_update_same_token id (check_in w) s r0 F eq_refl).
  reflexivity.
Qed.

(** X11.  A check-in by id that is answered 200 marks the reservation
    CHECKED_IN at the current instant.  A further check-in by id is answered
    409 and writes nothing when it is served on the state the first one
    leaves, and likewise on every later state in which the reservation found
    under that id has its [checkedInAt] set.  (A QR renewal clears
    [checkedInAt] and opens the check-in again.) *)
Theorem checkin_at_most_once
  (w : World) (id : string) (s s' : Sys) (r : Reservation.t) :
  run (checkinById w id) s = (Json r, s') ->
  Reservation.status r = ReservationStatus.CHECKED_IN
  /\ Reservation.checkedInAt r = Some (now w)
  /\ reservation_findUnique id (db s') = Some r
  /\ forall (w' : World) (s'' : Sys),
       s'' = s'
       \/ (exists r'', reservation_findUnique id (db s'') = Some r''
                       /\ Reservation.checkedInAt r'' <> None) ->
       run (checkinById w' id) s'' = (Status 409, s'').
Proof.
  intros Hrun.
  destruct (reservation_findUnique id (db s)) as [r0 |] eqn:F.
  - rewrite (checkinById_found _ _ _ _ F) in Hrun.
    destruct (bool_decide _); [discriminate |].
    injection Hrun as <- Es.
    assert (reservation_findUnique id (db s') = Some (check_in w r0)) as F'.
    { rewrite <- Es. unfold reservation_findUnique in *. cbn [db reservations].
      rewrite find_update_first by reflexivity. rewrite F. reflexivity. }
    split; [reflexivity |]. split; [reflexivity |]. split; [exact F' |].
    intros w' s'' Hlater.
    assert (exists r'', reservation_findUnique id (db s'') = Some r''
                        /\ Reservation.checkedInAt r'' <> None)
      as (r'' & F'' & Hci).
    { destruct Hlater as [-> | H]; [| exact H].
      exists (check_in w r0). split; [exact F' | discriminate]. }
    rewrite (checkinById_found w' id s'' _ F'').
    rewrite bool_decide_eq_true_2 by exact Hci. reflexivity.
  - unfold checkinById in Hrun. cbn [run query] in Hrun. rewrite F in Hrun.
    discriminate.
Qed.

Lemma checkin_at_most_once_witness :
  let s := Scenario.sys_of Scenario.store_1300 in
  let p := run (checkinById Scenario.world0 "r1") s in
  (exists r, p.1 = Json r
             /\ Reservation.status r = ReservationStatus.CHECKED_IN)
  /\ run (checkinById Scenario.world0 "r1") p.2 = (Status 409, p.2).
Proof.
  cbv zeta.
  remember (run (checkinById Scenario.world0 "r1")
              (Scenario.sys_of Scenario.store_1300)) as p eqn:Ep.
  assert (match p.1 with Json _ => True | Status _ => False end) as Hj
    by (rewrite Ep; vm_compute; exact I).
  destruct p as [[c | r] s']; [destruct Hj |].
  destruct (checkin_at_most_once Scenario.world0 "r1"
              (Scenario.sys_of Scenario.store_1300) s' r (eq_sym Ep))
    as (H1 & _ & _ & H4).
  split; [exists r; split; [reflexivity | exact H1] |].
  exact (H4 Scenario.world0 s' (or_introl eq_refl)).
Defined.

Lemma run_update_reply id f s :
  (run (Await (reservation_update id f) reply_updated) s).2
  = (reservation_update id f s).2.
Proof.
  cbn [run]. destruct (reservation_update id f s) as [[u |] s1]; reflexivity.
Qed.

Lemma listing_after_update w id f s unitId dateISO timeHHmm :
  (forall r, r ∈ reservations (db s) -> same_booking r (f r)) ->
  listByUnitPublic w (db (run (Await (reservation_update id f) reply_updated) s).2)
    unitId dateISO timeHHmm
  = listByUnitPublic w (db s) unitId dateISO timeHHmm.
Proof.
  intros Hf. rewrite run_update_reply.
  destruct (reservation_update_tables id f s Hf) as (_ & Ea & Eb & F).
  apply listByUnitPublic_same_bookings; assumption.
Qed.

(** X12.  In a store where every reservation has a counting status
    (AWAITING_CHECKIN or CHECKED_IN), no check-in and no QR renewal, by id,
    by token or by code, whatever it answers, changes any availability
    listing. *)
Theorem checkin_and_renewal_keep_availability
  (w0 : World) (ttlHours : Z) (s : Sys) (p : Proc Reply) :
  Forall (fun r => status_counts (Reservation.status r) = true)
    (reservations (db s)) ->
  (exists id, p = checkinById w0 id)
  \/ (exists token, p = checkinByToken w0 token)
  \/ (exists id, p = renewQrById w0 ttlHours id)
  \/ (exists code, p = renewQrByCode w0 ttlHours code) ->
  forall w unitId dateISO timeHHmm,
    listByUnitPublic w (db (run p s).2) unitId dateISO timeHHmm
    = listByUnitPublic w (db s) unitId dateISO timeHHmm.
Proof.
  intros Hall Hp w unitId dateISO timeHHmm.
  rewrite Forall_forall in Hall.
  assert (forall r, r ∈ reservations (db s) -> same_booking r (check_in w0 r))
    as Hci by (intros r Hr; apply same_booking_check_in, Hall, Hr).
  assert (forall tok r, r ∈ reservations (db s) ->
            same_booking r (renewed w0 ttlHours tok r))
    as Hre by (intros tok r Hr; apply same_booking_renewed, Hall, Hr).
  assert (forall id,
            listByUnitPublic w
              (db (run (Await (update_renewed w0 ttlHours id) reply_updated) s).2)
              unitId dateISO timeHHmm
            = listByUnitPublic w (db s) unitId dateISO timeHHmm) as Hrenew.
  { intros id.
    pose proof (listing_after_update w id
                  (renewed w0 ttlHours (cryptoRandom w0 (tokCalls s)))
                  (next_cryptoRandom w0 s).2 unitId dateISO timeHHmm
                  (Hre _)) as H.
    exact H. }
  destruct Hp as [[id ->] | [[token ->] | [[id ->] | [code ->]]]].
  - unfold checkinById. cbn [run query].
    destruct (reservation_findUnique id (db s)); [| reflexivity].
    destruct (bool_decide _); [reflexivity |].
    apply listing_after_update, Hci.
  - unfold checkinByToken.
    destruct (negb (Js.truthy _)); [reflexivity |]. cbn [run query].
    destruct (reservation_findByToken _ (db s)) as [r |]; [| reflexivity].
    destruct (match Reservation.qrExpiresAt r with
              | Some e => e <? now w0 | None => false end); [reflexivity |].
    destruct (bool_decide _); [reflexivity |].
    apply listing_after_update, Hci.
  - unfold renewQrById. cbn [run query].
    destruct (reservation_findUnique id (db s)); [| reflexivity].
    apply Hrenew.
  - unfold renewQrByCode.
    destruct (negb (isCode6 _)); [reflexivity |]. cbn [run query].
    destruct (reservation_findByCode _ (db s)) as [r |]; [| reflexivity].
    apply Hrenew.
Qed.

Lemma checkin_and_renewal_keep_availability_witness :
  let s := Scenario.sys_of Scenario.store_1300 in
  Forall (fun r => status_counts (Reservation.status r) = true)
    (reservations (db s))
  /\ listByUnitPublic Scenario.world0
       (db (run (checkinById Scenario.world0 "r1") s).2)
       "u1" (Some "2025-03-10") (Some "13:00")
     = listByUnitPublic Scenario.world0 (db s)
         "u1" (Some "2025-03-10") (Some "13:00").
Proof.
  cbv zeta.
  assert (Forall (fun r => status_counts (Reservation.status r) = true)
            (reservations (db (Scenario.sys_of Scenario.store_1300)))) as H
    by (repeat constructor).
  split; [exact H |].
  apply (checkin_and_renewal_keep_availability Scenario.world0 24
           (Scenario.sys_of Scenario.store_1300)
           (checkinById Scenario.world0 "r1") H).
  left. exists "r1". reflexivity.
Defined.

Lemma find_id_NoDup rows r0 :
  NoDup (map Reservation.id rows) -> r0 ∈ rows ->
  List.find (fun r => String.eqb (Reservation.id r) (Reservation.id r0)) rows
  = Some r0.
Proof.
  induction rows as [| r rows IH]; intros Hnd Hin; [inversion Hin |].
  cbn [map] in Hnd. apply NoDup_cons in Hnd as [Hr Hnd]. cbn [List.find].
  apply elem_of_cons in Hin as [-> | Hin].
  - rewrite String.eqb_refl. reflexivity.
  - destruct (String.eqb_spec (Reservation.id r) (Reservation.id r0)) as [E | E].
    + exfalso. apply Hr. rewrite E. apply list_elem_of_fmap. eauto.
    + apply IH; assumption.
Qed.

Lemma find_Some_elem {A} (p : A -> bool) l x :
  List.find p l = Some x -> x ∈ l /\ p x = true.
Proof.
  intros H. apply find_some in H as [H1 H2].
  split; [apply list_elem_of_In, H1 | exact H2].
Qed.

(** X13.  Check-in by QR token: an expired token is answered 410 and writes
    nothing; otherwise the route answers and writes exactly what check-in by
    id does for the reservation that holds the token. *)
Theorem checkin_by_token_as_by_id
  (w : World) (token : string) (s : Sys) (r0 : Reservation.t) :
  NoDup (map Reservation.id (reservations (db s))) ->
  Js.truthy (Js.trim token) = true ->
  reservation_findByToken (Js.trim token) (db s) = Some r0 ->
  run (checkinByToken w (Some token)) s
  = if match Reservation.qrExpiresAt r0 with
       | Some e => e <? now w
       | None => false
       end
    then (Status 410, s)
    else run (checkinById w (Reservation.id r0)) s.
Proof.
  intros Hnd Ht F.
  assert (reservation_findUnique (Reservation.id r0) (db s) = Some r0) as Fid.
  { apply find_id_NoDup; [exact Hnd |].
    apply find_Some_elem in F as [F _]. exact F. }
  rewrite (checkinById_found _ _ _ _ Fid).
  unfold checkinByToken. cbn [from_option id]. rewrite Ht. cbn [negb run query].
  rewrite F.
  destruct (match Reservation.qrExpiresAt r0 with
            | Some e => e <? now w | None => false end); [reflexivity |].
  destruct (bool_decide _); [reflexivity |].
  cbn [run].
  rewrite (reservation_update_same_token (Reservation.id r0) (check_in w) s r0
             Fid eq_refl).
  reflexivity.
Qed.

Lemma checkin_by_token_as_by_id_witness :
  let s := Scenario.sys_of Scenario.store_1300 in
  NoDup (map Reservation.id (reservations (db s)))
  /\ run (checkinByToken Scenario.world0 (Some " qr-r1 ")) s
     = run (checkinById Scenario.world0 "r1") s.
Proof.
  cbv zeta.
  assert (NoDup (map Reservation.id
                   (reservations (db (Scenario.sys_of Scenario.store_1300)))))
    as H by (cbn; apply NoDup_singleton).
  split; [exact H |].
  exact (checkin_by_token_as_by_id Scenario.world0 " qr-r1 "
           (Scenario.sys_of Scenario.store_1300)
           (Scenario.booking "r1" (newDate Scenario.day0 13 0 0 0) 6 2
              ReservationStatus.AWAITING_CHECKIN None)
           H eq_refl eq_refl).
Defined.

Lemma find_token_after_update id f rows r0 tok :
  List.find (fun r => String.eqb (Reservation.id r) id) rows = Some r0 ->
  Reservation.qrToken (f r0) = tok ->
  (forall x, x ∈ rows -> Reservation.qrToken x = tok -> x = r0) ->
  List.find (fun r => String.eqb (Reservation.qrToken r) tok)
    (update_first id f rows) = Some (f r0).
Proof.
  intros F Ht Hx. induction rows as [| r rows IH]; [discriminate |].
  cbn [List.find update_first] in *.
  destruct (String.eqb (Reservation.id r) id) eqn:E.
  - injection F as ->. cbn [List.find]. rewrite Ht, String.eqb_refl. reflexivity.
  - cbn [List.find].
    destruct (String.eqb_spec (Reservation.qrToken r) tok) as [Et | Et].
    + assert (r = r0) as -> by (apply Hx; [left | exact Et]).
      apply find_some in F as [_ F]. congruence.
    + apply IH; [exact F |]. intros x Hin. apply Hx. right. exact Hin.
Qed.

Lemma find_token_absent tok rows :
  tok ∉ map Reservation.qrToken rows ->
  List.find (fun r => String.eqb (Reservation.qrToken r) tok) rows = None.
Proof.
  intros H. induction rows as [| r rows IH]; [reflexivity |].
  cbn [List.find]. cbn [map] in H. apply not_elem_of_cons in H as [H1 H2].
  destruct (String.eqb_spec (Reservation.qrToken r) tok); [congruence |].
  apply IH, H2.
Qed.

Lemma find_old_token_after_update id f rows r0 :
  List.find (fun r => String.eqb (Reservation.id r) id) rows = Some r0 ->
  NoDup (map Reservation.qrToken rows) ->
  Reservation.qrToken (f r0) <> Reservation.qrToken r0 ->
  List.find (fun r => String.eqb (Reservation.qrToken r) (Reservation.qrToken r0))
    (update_first id f rows) = None.
Proof.
  intros F Hnd Hne. induction rows as [| r rows IH]; [discriminate |].
  cbn [map] in Hnd. apply NoDup_cons in Hnd as [Hr Hnd].
  cbn [List.find update_first] in *.
  destruct (String.eqb (Reservation.id r) id) eqn:E.
  - injection F as ->. cbn [List.find].
    destruct (String.eqb_spec (Reservation.qrToken (f r0)) (Reservation.qrToken r0));
      [congruence |].
    apply find_token_absent, Hr.
  - cbn [List.find].
    destruct (String.eqb_spec (Reservation.qrToken r) (Reservation.qrToken r0))
      as [Et | Et].
    + exfalso. apply Hr. rewrite Et. apply list_elem_of_fmap. exists r0.
      split; [reflexivity |]. apply find_Some_elem in F as [F _]. exact F.
    + apply IH; assumption.
Qed.

Lemma token_holder_unique rows x r0 :
  NoDup (map Reservation.qrToken rows) -> x ∈ rows -> r0 ∈ rows ->
  Reservation.qrToken x = Reservation.qrToken r0 -> x = r0.
Proof.
  induction rows as [| r rows IH]; intros Hnd Hx Hr0 E; [inversion Hx |].
  cbn [map] in Hnd. apply NoDup_cons in Hnd as [Hr Hnd].
  apply elem_of_cons in Hx as [-> | Hx]; apply elem_of_cons in Hr0 as [-> | Hr0].
  - reflexivity.
  - exfalso. apply Hr. rewrite E. apply list_elem_of_fmap. eauto.
  - exfalso. apply Hr. rewrite <- E. apply list_elem_of_fmap. eauto.
  - apply IH; assumption.
Qed.

(** X14.  A QR renewal by id that is answered 200 leaves the reservation
    AWAITING_CHECKIN, not checked in, with a QR that expires [ttlHours]
    hours later.  After it the reservation can be checked in again, by id
    and, until the expiry, by the new token; the token it had before, when
    different, is answered 404. *)
Theorem renewal_reopens_checkin
  (w : World) (ttlHours : Z) (id : string) (s s' : Sys) (r : Reservation.t) :
  NoDup (map Reservation.qrToken (reservations (db s))) ->
  Js.truthy (Reservation.qrToken r) = true ->
  run (renewQrById w ttlHours id) s = (Json r, s') ->
  (Reservation.status r = ReservationStatus.AWAITING_CHECKIN
   /\ Reservation.checkedInAt r = None
   /\ Reservation.qrExpiresAt r = Some (now w + ttlHours * 3600000))
  /\ (forall w', (run (checkinById w' id) s').1 = Json (check_in w' r))
  /\ (forall w' token,
        Js.trim token = Reservation.qrToken r ->
        now w' <= now w + ttlHours * 3600000 ->
        (run (checkinByToken w' (Some token)) s').1 = Json (check_in w' r))
  /\ (forall w' token r0,
        reservation_findUnique id (db s) = Some r0 ->
        Js.trim token = Reservation.qrToken r0 ->
        Js.truthy (Reservation.qrToken r0) = true ->
        Reservation.qrToken r0 <> Reservation.qrToken r ->
        run (checkinByToken w' (Some token)) s' = (Status 404, s')).
Proof.
  intros Hnd Htruthy Hrun. unfold renewQrById in Hrun. cbn [run query] in Hrun.
  destruct (reservation_findUnique id (db s)) as [r0 |] eqn:F; [| discriminate].
  cbn [run] in Hrun. unfold update_renewed in Hrun.
  cbn [next_cryptoRandom] in Hrun. unfold reservation_update in Hrun.
  cbn [db] in Hrun. rewrite F in Hrun.
  set (tok := cryptoRandom w (tokCalls s)) in *.
  set (f := renewed w ttlHours tok) in *.
  destruct (negb (String.eqb (Reservation.qrToken (f r0)) (Reservation.qrToken r0))
            && existsb _ _) eqn:Hcheck; [discriminate |].
  cbn [reply_updated run] in Hrun. injection Hrun as <- Es.
  assert (Hrows : reservations (db s')
                  = update_first id f (reservations (db s)))
    by (rewrite <- Es; reflexivity).
  assert (Fid : reservation_findUnique id (db s') = Some (f r0)).
  { unfold reservation_findUnique in *. rewrite Hrows.
    rewrite find_update_first by reflexivity. rewrite F. reflexivity. }
  assert (Ftok : reservation_findByToken tok (db s') = Some (f r0)).
  { unfold reservation_findByToken. rewrite Hrows.
    apply (find_token_after_update id f _ r0 tok F eq_refl).
    intros x Hx Ex.
    apply andb_false_iff in Hcheck as [Hc | Hc].
    - apply negb_false_iff, String.eqb_eq in Hc. cbn in Hc.
      apply (token_holder_unique _ _ _ Hnd Hx).
      + apply find_Some_elem in F as [F _]. exact F.
      + congruence.
    - exfalso. rewrite <- not_true_iff_false, existsb_exists in Hc.
      apply Hc. exists x. split; [apply list_elem_of_In, Hx |].
      apply String.eqb_eq. exact Ex. }
  split; [repeat split |].
  split; [| split].
  - intros w'. rewrite (checkinById_found w' id s' _ Fid).
    rewrite bool_decide_eq_false_2 by (intros H; apply H; reflexivity).
    reflexivity.
  - intros w' token Et Hnow. unfold checkinByToken. cbn [from_option Datatypes.id].
    rewrite Et, Htruthy. cbn [negb run query].
    change (Reservation.qrToken (f r0)) with tok. rewrite Ftok.
    cbn [f renewed with_qr_state Reservation.qrExpiresAt
         Reservation.checkedInAt Reservation.id].
    destruct (Z.ltb_spec (now w + ttlHours * 3600000) (now w')); [lia |].
    rewrite bool_decide_eq_false_2 by (intros H'; apply H'; reflexivity).
    cbn [run].
    assert (reservation_findUnique (Reservation.id r0) (db s') = Some (f r0))
      as Fid'.
    { apply find_Some_elem in F as [_ F]. apply String.eqb_eq in F.
      rewrite F. exact Fid. }
    rewrite (reservation_update_same_token (Reservation.id r0) (check_in w') s'
               (f r0) Fid' eq_refl).
    reflexivity.
  - intros w' token r1 E1 Et T Hne. injection E1 as <-.
    unfold checkinByToken. cbn [from_option Datatypes.id]. rewrite Et, T.
    cbn [negb run query].
    assert (reservation_findByToken (Reservation.qrToken r0) (db s') = None) as Fo.
    { unfold reservation_findByToken. rewrite Hrows.
      apply (find_old_token_after_update id f _ r0 F Hnd). congruence. }
    rewrite Fo. reflexivity.
Qed.

Lemma renewal_reopens_checkin_witness :
  let s := Scenario.sys_of Scenario.store_1300 in
  let p := run (renewQrById Scenario.world0 24 "r1") s in
  NoDup (map Reservation.qrToken (reservations (db s)))
  /\ exists r,
       p.1 = Json r
       /\ Reservation.qrToken r = "t0"
       /\ (run (checkinByToken Scenario.world0 (Some "t0")) p.2).1
          = Json (check_in Scenario.world0 r)
       /\ run (checkinByToken Scenario.world0 (Some "qr-r1")) p.2
          = (Status 404, p.2).
Proof.
  cbv zeta.
  assert (NoDup (map Reservation.qrToken
                   (reservations (db (Scenario.sys_of Scenario.store_1300)))))
    as H by (cbn; apply NoDup_singleton).
  split; [exact H |].
  remember (run (renewQrById Scenario.world0 24 "r1")
              (Scenario.sys_of Scenario.store_1300)) as p eqn:Ep.
  assert (match p.1 with
          | Json r => Reservation.qrToken r = "t0"
          | Status _ => False
          end) as Hj by (rewrite Ep; vm_compute; reflexivity).
  destruct p as [[c | r] s']; [destruct Hj |]. cbn [fst snd] in *.
  assert (Js.truthy (Reservation.qrToken r) = true) as Ht
    by (rewrite Hj; reflexivity).
  destruct (renewal_reopens_checkin Scenario.world0 24 "r1"
              (Scenario.sys_of Scenario.store_1300) s' r H Ht (eq_sym Ep))
    as (_ & _ & Hnew & Hold).
  exists r. split; [reflexivity |]. split; [exact Hj |]. split.
  - apply Hnew; [rewrite Hj; reflexivity | vm_compute; discriminate].
  - apply (Hold Scenario.world0 "qr-r1"
             (Scenario.booking "r1" (newDate Scenario.day0 13 0 0 0) 6 2
                ReservationStatus.AWAITING_CHECKIN None));
      [reflexivity | reflexivity | reflexivity | rewrite Hj; discriminate].
Defined.

Lemma findUnique_created st row :
  Forall (fun r => Reservation.id r <> Reservation.id row) (reservations st) ->
  reservation_findUnique (Reservation.id row) (with_reservation st row)
  = Some row.
Proof.
  intros F. unfold reservation_findUnique. cbn [with_reservation reservations].
  apply find_app_fresh; [| apply String.eqb_refl].
  eapply Forall_impl; [exact F |]. intros r Hr. cbn beta.
  apply String.eqb_neq, Hr.
Qed.

Lemma update_first_app_fresh id f rows row :
  Forall (fun r => Reservation.id r <> id) rows ->
  Reservation.id row = id ->
  update_first id f (rows ++ [row]) = (rows ++ [f row])%list.
Proof.
  intros F E. induction F as [| r rows Hr F IH]; cbn [update_first app].
  - rewrite E, String.eqb_refl. reflexivity.
  - apply String.eqb_neq in Hr. rewrite Hr, IH. reflexivity.
Qed.

Lemma not_duplicate_when_no_active_contact w req s :
  basicValidation (body req) = None ->
  has_active_contact (db s) (toLowerEmail (Body.email (body req)))
    (phoneNorm_of (Body.phone (body req))) = false ->
  failure_code (run (createPublicReservation w req) s).1
  <> Some ALREADY_HAS_ACTIVE_RESERVATION.
Proof.
  intros V H. pose proof (createPublicReservation_outcome w req s) as O.
  cbv zeta in O. rewrite V, H in O. unfold admission_check in O.
  destruct (active_unit _ _) as [u |]; [| rewrite O; discriminate].
  destruct (area_of_unit _ _ _) as [a |]; [| rewrite O; discriminate].
  cbv zeta in O.
  destruct (spec_blocked _ _ _ _ _); [rewrite O; discriminate |].
  destruct (requested req >? _); [rewrite O; discriminate |].
  destruct O as [[E _] | (row & E & _)]; rewrite E; discriminate.
Qed.

(** X15.  The contact is free again after the check-in: when the public
    route has created a reservation and that reservation is then checked in
    by id, the check-in is answered 200, and a later valid request of the
    same contact is no longer rejected as ALREADY_HAS_ACTIVE_RESERVATION. *)
Theorem contact_free_after_checkin
  (w w1 w2 : World) (req req2 : Request) (s s1 : Sys) (row : Reservation.t) :
  run (createPublicReservation w req) s = (Created row, s1) ->
  basicValidation (body req2) = None ->
  toLowerEmail (Body.email (body req2)) = toLowerEmail (Body.email (body req)) ->
  phoneNorm_of (Body.phone (body req2)) = phoneNorm_of (Body.phone (body req)) ->
  let p := run (checkinById w1 (Reservation.id row)) s1 in
  p.1 = Json (check_in w1 row)
  /\ failure_code (run (createPublicReservation w2 req2) p.2).1
     <> Some ALREADY_HAS_ACTIVE_RESERVATION.
Proof.
  intros Hrun V Ee Ep. cbv zeta.
  destruct (createPublicReservation_created _ _ _ _ _ Hrun)
    as (_ & Hfree & Edb & _ & _ & _ & Hci & _ & _ & Hfresh).
  assert (Forall (fun r => Reservation.id r <> Reservation.id row)
            (reservations (db s))) as Hid
    by (eapply Forall_impl; [exact Hfresh |]; intros r (H & _); exact H).
  assert (reservation_findUnique (Reservation.id row) (db s1) = Some row) as F
    by (rewrite Edb; apply findUnique_created, Hid).
  rewrite (checkinById_found w1 _ s1 row F), Hci.
  rewrite bool_decide_eq_false_2 by (intros H; apply H; reflexivity).
  cbn [fst snd]. split; [reflexivity |].
  apply not_duplicate_when_no_active_contact; [exact V |].
  rewrite Ee, Ep. cbn [db]. rewrite Edb. cbn [with_reservation reservations].
  rewrite (update_first_app_fresh _ _ _ _ Hid eq_refl).
  unfold has_active_contact in *. cbn [reservations].
  rewrite existsb_app, Hfree. cbn [existsb orb check_in with_qr_state
                                   Reservation.status].
  rewrite bool_decide_eq_false_2 by discriminate. reflexivity.
Qed.

Lemma contact_free_after_checkin_witness :
  let req := Scenario.request_of 2 (newDate Scenario.day0 13 0 0 0)
               (Some "ana@example.com") in
  let p := run (createPublicReservation Scenario.world0 req)
             (Scenario.sys_of Scenario.store_free) in
  exists row,
    p.1 = Created row
    /\ let q := run (checkinById Scenario.world0 (Reservation.id row)) p.2 in
       q.1 = Json (check_in Scenario.world0 row)
       /\ failure_code
            (run (createPublicReservation Scenario.world0 req) q.2).1
          <> Some ALREADY_HAS_ACTIVE_RESERVATION.
Proof.
  cbv zeta.
  remember (run (createPublicReservation Scenario.world0
                   (Scenario.request_of 2 (newDate Scenario.day0 13 0 0 0)
                      (Some "ana@example.com")))
              (Scenario.sys_of Scenario.store_free)) as p eqn:Ep.
  assert (is_created p.1 = true) as Hc by (rewrite Ep; vm_compute; reflexivity).
  destruct p as [[st c d | row] s']; [discriminate Hc |].
  exists row. split; [reflexivity |]. cbn [snd].
  exact (contact_free_after_checkin Scenario.world0 Scenario.world0
           Scenario.world0
           (Scenario.request_of 2 (newDate Scenario.day0 13 0 0 0)
              (Some "ana@example.com"))
           (Scenario.request_of 2 (newDate Scenario.day0 13 0 0 0)
              (Some "ana@example.com"))
           (Scenario.sys_of Scenario.store_free) s' row (eq_sym Ep)
           eq_refl eq_refl eq_refl).
Defined.

(** ** Period blocks *)

Lemma block_update_first_keeps (P : ReservationBlock.t -> Prop) id f rows x :
  (forall y, P y -> P (f y)) ->
  x ∈ rows -> P x ->
  exists x', x' ∈ block_update_first id f rows /\ P x'.
Proof.
  intros HP. induction rows as [| y rows IH]; intros Hin Hx; [inversion Hin |].
  cbn [block_update_first].
  destruct (String.eqb (ReservationBlock.id y) id).
  - apply elem_of_cons in Hin as [-> | Hin].
    + exists (f y). split; [left | apply HP, Hx].
    + exists x. split; [right; exact Hin | exact Hx].
  - apply elem_of_cons in Hin as [-> | Hin].
    + exists y. split; [left | exact Hx].
    + destruct (IH Hin Hx) as (x' & H1 & H2). exists x'. split; [right |]; assumption.
Qed.

Lemma block_update_first_key id r rows :
  map (fun x => with_reason x None)
    (block_update_first id (fun x => with_reason x r) rows)
  = map (fun x => with_reason x None) rows.
Proof.
  induction rows as [| y rows IH]; [reflexivity |].
  cbn [block_update_first].
  destruct (String.eqb (ReservationBlock.id y) id); cbn [map].
  - reflexivity.
  - rewrite IH. reflexivity.
Qed.

(** The block a key selects. *)
Lemma block_findFirst_Some unitId areaId dayStart period st x :
  block_findFirst unitId areaId dayStart period st = Some x ->
  x ∈ reservationBlocks st
  /\ ReservationBlock.unitId x = unitId
  /\ ReservationBlock.areaId x = areaId
  /\ ReservationBlock.date x = dayStart
  /\ ReservationBlock.mode x = ReservationBlockMode.PERIOD
  /\ ReservationBlock.period x = period.
Proof.
  unfold block_findFirst. intros F. apply find_Some_elem in F as [Hin F].
  repeat (apply andb_true_iff in F as [F ?]).
  split; [exact Hin |].
  repeat match goal with
         | H : bool_decide _ = true |- _ => apply bool_decide_eq_true in H
         | H : String.eqb _ _ = true |- _ => apply String.eqb_eq in H
         | H : (_ =? _) = true |- _ => apply Z.eqb_eq in H
         end.
  auto.
Qed.

Lemma block_findFirst_elem unitId areaId dayStart period st x :
  x ∈ reservationBlocks st ->
  ReservationBlock.unitId x = unitId ->
  ReservationBlock.areaId x = areaId ->
  ReservationBlock.date x = dayStart ->
  ReservationBlock.mode x = ReservationBlockMode.PERIOD ->
  ReservationBlock.period x = period ->
  is_Some (block_findFirst unitId areaId dayStart period st).
Proof.
  intros Hin H1 H2 H3 H4 H5. unfold block_findFirst.
  destruct (List.find _ _) eqn:F; [eauto |].
  exfalso. pose proof (find_none _ _ F x (proj1 (list_elem_of_In _ _) Hin)) as N.
  cbn beta in N. rewrite H1, H3, String.eqb_refl, Z.eqb_refl in N.
  rewrite !bool_decide_eq_true_2 in N by assumption. discriminate.
Qed.

(** What a POST /period that answers 200 leaves in the store. *)
Lemma postBlockPeriod_ok w b s blk s1 :
  run (postBlockPeriod w b) s = (BlockJson blk, s1) ->
  bodySchema_ok b = true
  /\ exists base,
       dayjs_strict w (BlockBody.date b) = Some base
       /\ units (db s1) = units (db s)
       /\ areas (db s1) = areas (db s)
       /\ reservations (db s1) = reservations (db s)
       /\ exists x,
            x ∈ reservationBlocks (db s1)
            /\ ReservationBlock.unitId x = BlockBody.unitId b
            /\ ReservationBlock.areaId x = BlockBody.areaId b
            /\ ReservationBlock.date x = startOfDay base
            /\ ReservationBlock.mode x = ReservationBlockMode.PERIOD
            /\ ReservationBlock.period x = BlockBody.period b.
Proof.
  unfold postBlockPeriod.
  destruct (bodySchema_ok b); cbn [negb]; [| discriminate].
  destruct (dayjs_strict w (BlockBody.date b)) as [base |]; [| discriminate].
  cbn [run query]. intros H. split; [reflexivity |]. exists base.
  split; [reflexivity |].
  destruct (block_findFirst _ _ _ _ (db s)) as [e |] eqn:F.
  - apply block_findFirst_Some in F as (Hin & H1 & H2 & H3 & H4 & H5).
    cbn [run] in H. unfold reservationBlock_update in H.
    destruct (block_findUnique _ (db s)); cbn [reply_block run] in H;
      [| discriminate].
    injection H as _ <-. cbn [with_blocks db units areas reservations
                              reservationBlocks].
    repeat (split; [reflexivity |]).
    apply (block_update_first_keeps
             (fun x => ReservationBlock.unitId x = BlockBody.unitId b
                       /\ ReservationBlock.areaId x = BlockBody.areaId b
                       /\ ReservationBlock.date x = startOfDay base
                       /\ ReservationBlock.mode x = ReservationBlockMode.PERIOD
                       /\ ReservationBlock.period x = BlockBody.period b)
             _ _ _ e); [intros y Hy; exact Hy | exact Hin | auto].
  - cbn [run] in H. unfold reservationBlock_create in H.
    destruct (_ || _); cbn [reply_block run] in H; [discriminate |].
    injection H as _ <-. cbn [with_blocks db units areas reservations
                              reservationBlocks].
    repeat (split; [reflexivity |]).
    eexists. split; [apply elem_of_app; right; left |]. repeat split.
Qed.

Lemma bodySchema_ok_fields b :
  bodySchema_ok b = true ->
  Js.truthy (BlockBody.unitId b) = true
  /\ Js.truthy (BlockBody.date b) = true
  /\ (forall a, BlockBody.areaId b = Some a -> Js.truthy a = true).
Proof.
  unfold bodySchema_ok. intros H.
  repeat (apply andb_true_iff in H as [H ?]).
  split; [exact H |]. split.
  - destruct (BlockBody.date b); [discriminate | reflexivity].
  - intros a Ea. rewrite Ea in *. assumption.
Qed.

Lemma blocked_by_member (blocks : list ReservationBlock.t) x A :
  x ∈ blocks ->
  ReservationBlock.areaId x = None
  \/ (ReservationBlock.areaId x = Some A /\ Js.truthy A = true) ->
  blockedAll_of blocks || bool_decide (A ∈ blockedAreas_of blocks) = true.
Proof.
  intros Hin [E | [E T]]; apply orb_true_iff.
  - left. unfold blockedAll_of. apply existsb_exists. exists x.
    split; [apply list_elem_of_In, Hin |]. rewrite E. reflexivity.
  - right. apply bool_decide_eq_true. unfold blockedAreas_of.
    apply elem_of_list_to_set, list_elem_of_omap. exists x.
    split; [| exact E]. apply list_elem_of_filter.
    split; [| exact Hin]. rewrite E. cbn. rewrite T. exact I.
Qed.

Lemma entry_zero (f : AreaPublicDTO -> Z) (l : list AreaPublicDTO) d :
  d ∈ map (fun a => withAvailability a (f a)) l ->
  (forall a, dto_id a = dto_id d -> f a = 0) ->
  remaining d = Some 0 /\ available d = Some 0 /\ isAvailable d = Some false.
Proof.
  intros H Hf. apply elem_of_map_iff in H as (a & -> & _).
  cbn [withAvailability remaining available isAvailable dto_id] in *.
  rewrite (Hf a eq_refl). repeat split.
Qed.

Lemma block_in_findMany st unitId base ps x :
  x ∈ reservationBlocks st ->
  ReservationBlock.unitId x = unitId ->
  ReservationBlock.mode x = ReservationBlockMode.PERIOD ->
  dayIndex (ReservationBlock.date x) = dayIndex base ->
  ReservationBlock.period x ∈ ps ->
  x ∈ reservationBlock_findMany st unitId (startOfDay base) (endOfDay base) ps.
Proof.
  intros Hin Hu Hm Hd Hp. unfold reservationBlock_findMany.
  apply list_elem_of_filter. split; [| exact Hin].
  apply Is_true_true. unfold block_period_in.
  rewrite Hu, String.eqb_refl, !bool_decide_eq_true_2 by assumption.
  cbn [andb]. rewrite andb_true_r. apply andb_true_iff.
  pose proof (date_decompose (ReservationBlock.date x)) as D.
  pose proof (msOfDay_range (ReservationBlock.date x)) as R.
  unfold startOfDay, endOfDay, newDate, MS_PER_DAY in *.
  rewrite Hd in D. split; [apply Z.leb_le | apply Z.leb_le]; lia.
Qed.

Lemma dayIndex_startOfDay base : dayIndex (startOfDay base) = dayIndex base.
Proof.
  unfold startOfDay, newDate.
  replace (dayIndex base * MS_PER_DAY + ((0 * 60 + 0) * 60 + 0) * 1000 + 0)
    with (dayIndex base * MS_PER_DAY + 0) by lia.
  apply dayIndex_newDate. unfold MS_PER_DAY. lia.
Qed.

(** X16.  Once POST /v1/blocks/period has answered 200 for a unit, a date,
    a period and an area (or every area), the availability listing of that
    unit and date shows 0 remaining seats, not available, for the area (for
    every area when none was given): at every time of the blocked period,
    and, for an ALL_DAY block, at every time and in the whole-day view. *)
Theorem block_makes_area_unavailable
  (w : World) (b : BlockBody.t) (s s1 : Sys) (blk : ReservationBlock.t)
  (timeHHmm : option string) (d : AreaPublicDTO) :
  run (postBlockPeriod w b) s = (BlockJson blk, s1) ->
  BlockBody.period b = ReservationBlockPeriod.ALL_DAY
  \/ (exists t, timeHHmm = Some t /\ Js.truthy t = true
                /\ BlockBody.period b = blockPeriodOf (period_of_time t)) ->
  BlockBody.areaId b = None \/ BlockBody.areaId b = Some (dto_id d) ->
  d ∈ listByUnitPublic w (db s1) (BlockBody.unitId b)
        (Some (BlockBody.date b)) timeHHmm ->
  remaining d = Some 0 /\ available d = Some 0 /\ isAvailable d = Some false.
Proof.
  intros Hrun Hperiod Harea Hd.
  destruct (postBlockPeriod_ok _ _ _ _ _ Hrun)
    as (Hok & base & Hbase & _ & _ & _ & x & Hx & Xu & Xa & Xd & Xm & Xp).
  destruct (bodySchema_ok_fields _ Hok) as (Tu & Td & Ta).
  rewrite listByUnitPublic_base in Hd by assumption.
  rewrite Hbase in Hd. cbn [from_option id] in Hd. cbv zeta in Hd.
  assert (ReservationBlock.areaId x = None
          \/ (ReservationBlock.areaId x = Some (dto_id d)
              /\ Js.truthy (dto_id d) = true)) as Hxa.
  { rewrite Xa. destruct Harea as [E | E]; [left; exact E | right].
    split; [exact E | apply Ta, E]. }
  assert (forall ps, BlockBody.period b ∈ ps ->
            x ∈ reservationBlock_findMany (db s1) (BlockBody.unitId b)
                  (startOfDay base) (endOfDay base) ps) as Hmem.
  { intros ps Hps. apply block_in_findMany; try assumption.
    - rewrite Xd. apply dayIndex_startOfDay.
    - rewrite Xp. exact Hps. }
  destruct (Js.truthy_opt timeHHmm) eqn:Tt.
  - destruct timeHHmm as [t |]; [| discriminate]. cbn [from_option id] in Hd.
    cbn [Js.truthy_opt] in Tt.
    revert Hd. unfold availabilityForPeriod. rewrite periodWindow_spec.
    fold (period_of_time t). rewrite blockPeriodOf_match.
    intros Hd. eapply entry_zero; [exact Hd |].
    intros a Ea. cbv beta zeta. rewrite Ea.
    rewrite (blocked_by_member _ x (dto_id d)); [reflexivity | | exact Hxa].
    apply Hmem.
    destruct Hperiod as [E | (t' & Et & _ & E)]; rewrite E.
    + left.
    + injection Et as <-. right. left.
  - revert Hd. unfold availabilityForDay. cbn [from to].
    intros Hd. eapply entry_zero; [exact Hd |].
    intros a Ea. cbv beta zeta. rewrite Ea.
    rewrite (blocked_by_member _ x (dto_id d)); [reflexivity | | exact Hxa].
    apply Hmem.
    destruct Hperiod as [E | (t' & Et & Tt' & _)].
    + rewrite E. left.
    + rewrite Et in Tt. cbn [Js.truthy_opt] in Tt. congruence.
Qed.

Lemma block_makes_area_unavailable_witness :
  let b := {| BlockBody.unitId := "u1"; BlockBody.areaId := None;
              BlockBody.date := "2025-03-10";
              BlockBody.period := ReservationBlockPeriod.NIGHT;
              BlockBody.reason := None |} in
  let p := run (postBlockPeriod Scenario.world0 b)
             (Scenario.sys_of Scenario.store_free) in
  exists d,
    d ∈ listByUnitPublic Scenario.world0 (db p.2) "u1"
          (Some "2025-03-10") (Some "19:00")
    /\ remaining d = Some 0 /\ available d = Some 0
    /\ isAvailable d = Some false.
Proof.
  cbv zeta. eexists. split; [left |].
  eapply (block_makes_area_unavailable Scenario.world0
            {| BlockBody.unitId := "u1"; BlockBody.areaId := None;
               BlockBody.date := "2025-03-10";
               BlockBody.period := ReservationBlockPeriod.NIGHT;
               BlockBody.reason := None |}
            (Scenario.sys_of Scenario.store_free)
            (run (postBlockPeriod Scenario.world0
                    {| BlockBody.unitId := "u1"; BlockBody.areaId := None;
                       BlockBody.date := "2025-03-10";
                       BlockBody.period := ReservationBlockPeriod.NIGHT;
                       BlockBody.reason := None |})
               (Scenario.sys_of Scenario.store_free)).2
            {| ReservationBlock.id := "r0"; ReservationBlock.unitId := "u1";
               ReservationBlock.areaId := None;
               ReservationBlock.date := newDate Scenario.day0 0 0 0 0;
               ReservationBlock.mode := ReservationBlockMode.PERIOD;
               ReservationBlock.period := ReservationBlockPeriod.NIGHT;
               ReservationBlock.reason := None |}
            (Some "19:00")).
  - vm_compute. reflexivity.
  - right. exists "19:00". repeat split.
  - left. reflexivity.
  - vm_compute. left.
Defined.

(** X17.  POST /v1/blocks/period is an upsert: when it has answered 200,
    posting the same unit, area, date and period again (with any reason the
    schema accepts) answers 200 too and leaves the blocks as they are, up to
    their reasons; no second block is created. *)
Theorem block_upsert_idempotent
  (w : World) (b b' : BlockBody.t) (s s1 : Sys) (blk : ReservationBlock.t) :
  run (postBlockPeriod w b) s = (BlockJson blk, s1) ->
  BlockBody.unitId b' = BlockBody.unitId b ->
  BlockBody.areaId b' = BlockBody.areaId b ->
  BlockBody.date b' = BlockBody.date b ->
  BlockBody.period b' = BlockBody.period b ->
  (forall r, BlockBody.reason b' = Some r -> (String.length r <= 255)%nat) ->
  exists blk' s2,
    run (postBlockPeriod w b') s1 = (BlockJson blk', s2)
    /\ map (fun x => with_reason x None) (reservationBlocks (db s2))
       = map (fun x => with_reason x None) (reservationBlocks (db s1))
    /\ units (db s2) = units (db s1)
    /\ areas (db s2) = areas (db s1)
    /\ reservations (db s2) = reservations (db s1).
Proof.
  intros Hrun Eu Ea Ed Ep Hr.
  destruct (postBlockPeriod_ok _ _ _ _ _ Hrun)
    as (Hok & base & Hbase & _ & _ & _ & x & Hx & Xu & Xa & Xd & Xm & Xp).
  assert (bodySchema_ok b' = true) as Hok'.
  { unfold bodySchema_ok in *. rewrite Eu, Ea, Ed.
    repeat (apply andb_true_iff in Hok as [Hok ?]).
    repeat (apply andb_true_iff; split); try assumption.
    destruct (BlockBody.reason b') as [r |]; [| reflexivity].
    apply Nat.leb_le, Hr. reflexivity. }
  unfold postBlockPeriod. rewrite Hok', Ed, Hbase, Eu, Ea, Ep.
  cbn [negb run query].
  destruct (block_findFirst_elem _ _ _ _ _ x Hx Xu Xa Xd Xm Xp) as [e F].
  rewrite F. cbn [run]. unfold reservationBlock_update.
  apply block_findFirst_Some in F as (Hin & _).
  destruct (block_findUnique (ReservationBlock.id e) (db s1)) as [y |] eqn:Fy.
  - cbn [reply_block run]. eexists _, _. split; [reflexivity |].
    cbn [with_blocks db units areas reservations reservationBlocks].
    split; [apply block_update_first_key |]. repeat split.
  - exfalso. unfold block_findUnique in Fy.
    pose proof (find_none _ _ Fy e (proj1 (list_elem_of_In _ _) Hin)) as N.
    cbn beta in N. rewrite String.eqb_refl in N. discriminate.
Qed.

Lemma block_upsert_idempotent_witness :
  let b := {| BlockBody.unitId := "u1"; BlockBody.areaId := Some "a1";
              BlockBody.date := "2025-03-10";
              BlockBody.period := ReservationBlockPeriod.NIGHT;
              BlockBody.reason := None |} in
  let b' := {| BlockBody.unitId := "u1"; BlockBody.areaId := Some "a1";
               BlockBody.date := "2025-03-10";
               BlockBody.period := ReservationBlockPeriod.NIGHT;
               BlockBody.reason := Some "obra" |} in
  let p := run (postBlockPeriod Scenario.world0 b)
             (Scenario.sys_of Scenario.store_free) in
  exists blk' s2,
    run (postBlockPeriod Scenario.world0 b') p.2 = (BlockJson blk', s2)
    /\ length (reservationBlocks (db s2)) = 1%nat.
Proof.
  cbv zeta.
  destruct (block_upsert_idempotent Scenario.world0
              {| BlockBody.unitId := "u1"; BlockBody.areaId := Some "a1";
                 BlockBody.date := "2025-03-10";
                 BlockBody.period := ReservationBlockPeriod.NIGHT;
                 BlockBody.reason := None |}
              {| BlockBody.unitId := "u1"; BlockBody.areaId := Some "a1";
                 BlockBody.date := "2025-03-10";
                 BlockBody.period := ReservationBlockPeriod.NIGHT;
                 BlockBody.reason := Some "obra" |}
              (Scenario.sys_of Scenario.store_free)
              (run (postBlockPeriod Scenario.world0
                      {| BlockBody.unitId := "u1"; BlockBody.areaId := Some "a1";
                         BlockBody.date := "2025-03-10";
                         BlockBody.period := ReservationBlockPeriod.NIGHT;
                         BlockBody.reason := None |})
                 (Scenario.sys_of Scenario.store_free)).2
              {| ReservationBlock.id := "r0"; ReservationBlock.unitId := "u1";
                 ReservationBlock.areaId := Some "a1";
                 ReservationBlock.date := newDate Scenario.day0 0 0 0 0;
                 ReservationBlock.mode := ReservationBlockMode.PERIOD;
                 ReservationBlock.period := ReservationBlockPeriod.NIGHT;
                 ReservationBlock.reason := None |})
    as (blk' & s2 & E & Hk & _).
  - vm_compute. reflexivity.
  - reflexivity.
  - reflexivity.
  - reflexivity.
  - reflexivity.
  - intros r [= <-]. vm_compute. lia.
  - exists blk', s2. split; [exact E |].
    apply (f_equal length) in Hk. rewrite !length_map in Hk. rewrite Hk.
    vm_compute. reflexivity.
Defined.

Lemma block_find_absent id (rows : list ReservationBlock.t) :
  List.find (fun x => String.eqb (ReservationBlock.id x) id) rows = None ->
  Forall (fun x => String.eqb (ReservationBlock.id x) id = false) rows.
Proof.
  intros F. apply Forall_forall. intros x Hx.
  exact (find_none _ _ F x (proj1 (list_elem_of_In _ _) Hx)).
Qed.

Lemma block_delete_first_app_fresh id rows (row : ReservationBlock.t) :
  Forall (fun x => String.eqb (ReservationBlock.id x) id = false) rows ->
  ReservationBlock.id row = id ->
  block_delete_first id (rows ++ [row]) = rows.
Proof.
  intros F E. induction F as [| y rows Hy F IH]; cbn [block_delete_first app].
  - rewrite E, String.eqb_refl. reflexivity.
  - rewrite Hy, IH. reflexivity.
Qed.

(** X18.  A block that POST /v1/blocks/period has newly created is removed
    again by DELETE /v1/blocks/:id: the route answers 204, the store is back
    to what it was before the POST, and a second DELETE answers 404 and
    changes nothing. *)
Theorem block_create_then_delete
  (w : World) (b : BlockBody.t) (s s1 : Sys) (blk : ReservationBlock.t) :
  run (postBlockPeriod w b) s = (BlockJson blk, s1) ->
  block_findUnique (ReservationBlock.id blk) (db s) = None ->
  exists s2,
    run (deleteBlock (ReservationBlock.id blk)) s1 = (BlockStatus 204, s2)
    /\ db s2 = db s
    /\ run (deleteBlock (ReservationBlock.id blk)) s2 = (BlockStatus 404, s2).
Proof.
  unfold postBlockPeriod.
  destruct (bodySchema_ok b); cbn [negb]; [| discriminate].
  destruct (dayjs_strict w (BlockBody.date b)) as [base |]; [| discriminate].
  cbn [run query].
  destruct (block_findFirst _ _ _ _ (db s)) as [e |] eqn:F; cbn [run].
  - unfold reservationBlock_update.
    destruct (block_findUnique (ReservationBlock.id e) (db s)) as [y |] eqn:Fy;
      cbn [reply_block run]; [| discriminate].
    intros H Hnew. injection H as <- _. cbn [with_reason ReservationBlock.id] in Hnew.
    unfold block_findUnique in Fy, Hnew.
    pose proof (find_Some_elem _ _ _ Fy) as [Hin Hy].
    pose proof (find_none _ _ Hnew y (proj1 (list_elem_of_In _ _) Hin)) as N.
    cbn beta in N. rewrite String.eqb_refl in N. discriminate.
  - unfold reservationBlock_create.
    destruct (_ || _); cbn [reply_block run]; [discriminate |].
    intros H Hnew. injection H as <- <-. cbn [ReservationBlock.id] in *.
    unfold block_findUnique in Hnew. pose proof Hnew as Fnone.
    apply block_find_absent in Hnew.
    set (row := {| ReservationBlock.id := cuid w (idCalls s) |}) in *.
    assert (forall s0, reservationBlocks (db s0) = (reservationBlocks (db s) ++ [row])%list ->
              block_findUnique (cuid w (idCalls s)) (db s0) = Some row) as Ffind.
    { intros s0 E. unfold block_findUnique. rewrite E.
      apply find_app_fresh; [exact Hnew | apply String.eqb_refl]. }
    unfold deleteBlock. cbn [run query].
    rewrite Ffind by reflexivity. cbn [run].
    unfold reservationBlock_delete. rewrite Ffind by reflexivity.
    cbn [with_blocks db units areas reservations reservationBlocks
         rngCalls idCalls tokCalls].
    rewrite (block_delete_first_app_fresh _ _ row Hnew eq_refl).
    eexists. split; [reflexivity |]. cbn [db].
    split; [destruct s as [[us ars rs bs] n1 n2 n3]; reflexivity |].
    cbn [run query]. unfold block_findUnique.
    cbn [with_blocks db reservationBlocks]. rewrite Fnone. reflexivity.
Qed.

Lemma block_create_then_delete_witness :
  let b := {| BlockBody.unitId := "u1"; BlockBody.areaId := None;
              BlockBody.date := "2025-03-10";
              BlockBody.period := ReservationBlockPeriod.NIGHT;
              BlockBody.reason := None |} in
  let s := Scenario.sys_of Scenario.store_free in
  let p := run (postBlockPeriod Scenario.world0 b) s in
  exists s2,
    run (deleteBlock "r0") p.2 = (BlockStatus 204, s2) /\ db s2 = db s.
Proof.
  cbv zeta.
  destruct (block_create_then_delete Scenario.world0
              {| BlockBody.unitId := "u1"; BlockBody.areaId := None;
                 BlockBody.date := "2025-03-10";
                 BlockBody.period := ReservationBlockPeriod.NIGHT;
                 BlockBody.reason := None |}
              (Scenario.sys_of Scenario.store_free)
              (run (postBlockPeriod Scenario.world0
                      {| BlockBody.unitId := "u1"; BlockBody.areaId := None;
                         BlockBody.date := "2025-03-10";
                         BlockBody.period := ReservationBlockPeriod.NIGHT;
                         BlockBody.reason := None |})
                 (Scenario.sys_of Scenario.store_free)).2
              {| ReservationBlock.id := "r0"; ReservationBlock.unitId := "u1";
                 ReservationBlock.areaId := None;
                 ReservationBlock.date := newDate Scenario.day0 0 0 0 0;
                 ReservationBlock.mode := ReservationBlockMode.PERIOD;
                 ReservationBlock.period := ReservationBlockPeriod.NIGHT;
                 ReservationBlock.reason := None |})
    as (s2 & E & Hdb & _).
  - vm_compute. reflexivity.
  - reflexivity.
  - exists s2. split; [exact E | exact Hdb].
Defined.

(** X19.  Once POST /v1/blocks/period has answered 200, the public route
    answers 409 BLOCKED_DAY, and writes nothing, to every request that
    passes the earlier checks and asks for the blocked unit and area (any
    area when none was given) on the blocked day, in the blocked period (at
    any time for an ALL_DAY block). *)
Theorem block_rejects_public_creation
  (w w' : World) (b : BlockBody.t) (s s1 : Sys) (blk : ReservationBlock.t)
  (req : Request) (base dt : Date) (u : Unit.t) (a : Area.t) :
  run (postBlockPeriod w b) s = (BlockJson blk, s1) ->
  dayjs_strict w (BlockBody.date b) = Some base ->
  basicValidation (body req) = None ->
  Body.reservationDate (body req) = Some dt ->
  dayIndex dt = dayIndex base ->
  has_active_contact (db s1) (toLowerEmail (Body.email (body req)))
    (phoneNorm_of (Body.phone (body req))) = false ->
  active_unit (db s1) (default EmptyString (Body.unitId (body req))) = Some u ->
  Unit.id u = BlockBody.unitId b ->
  area_of_unit (db s1) (default EmptyString (Body.areaId (body req))) (Unit.id u)
  = Some a ->
  BlockBody.areaId b = None \/ BlockBody.areaId b = Some (Area.id a) ->
  BlockBody.period b = ReservationBlockPeriod.ALL_DAY
  \/ BlockBody.period b = blockPeriodOf (getPeriodFromDate dt) ->
  run (createPublicReservation w' req) s1
  = (Failure 409 BLOCKED_DAY NoDetail, s1).
Proof.
  intros Hrun Hbase V Hdt Hday Hfree Hunit Hu Harea Hba Hbp.
  destruct (postBlockPeriod_ok _ _ _ _ _ Hrun)
    as (_ & base' & Hbase' & _ & _ & _ & x & Hx & Xu & Xa & Xd & Xm & Xp).
  rewrite Hbase in Hbase'. injection Hbase' as <-.
  pose proof (createPublicReservation_outcome w' req s1) as O. cbv zeta in O.
  rewrite V, Hfree, Hdt in O. cbn [from_option id] in O.
  unfold admission_check in O. rewrite Hunit, Harea in O. cbv zeta in O.
  assert (spec_blocked (db s1) (Unit.id u) (Area.id a) dt
            [ReservationBlockPeriod.ALL_DAY; blockPeriodOf (getPeriodFromDate dt)]
          = true) as Hb.
  { unfold spec_blocked. apply existsb_exists. exists x.
    split; [apply list_elem_of_In, Hx |].
    rewrite Xu, Hu, String.eqb_refl, Xd, Xa, Xp, Hday.
    rewrite (bool_decide_eq_true_2 _ Xm). cbn [andb].
    repeat (apply andb_true_iff; split).
    - apply Z.leb_le. unfold startOfDay. lia.
    - apply Z.leb_le. unfold startOfDay, newDate. lia.
    - apply bool_decide_eq_true.
      destruct Hbp as [E | E]; rewrite E; [left | right; left].
    - apply orb_true_iff.
      destruct Hba as [E | E]; rewrite E; [left | right];
        apply bool_decide_eq_true; reflexivity. }
  rewrite Hb in O. exact O.
Qed.

Lemma block_rejects_public_creation_witness :
  let b := {| BlockBody.unitId := "u1"; BlockBody.areaId := None;
              BlockBody.date := "2025-03-10";
              BlockBody.period := ReservationBlockPeriod.NIGHT;
              BlockBody.reason := None |} in
  let p := run (postBlockPeriod Scenario.world0 b)
             (Scenario.sys_of Scenario.store_free) in
  run (createPublicReservation Scenario.world0
         (Scenario.request_of 2 (newDate Scenario.day0 19 0 0 0) None)) p.2
  = (Failure 409 BLOCKED_DAY NoDetail, p.2).
Proof.
  cbv zeta.
  apply (block_rejects_public_creation Scenario.world0 Scenario.world0
           {| BlockBody.unitId := "u1"; BlockBody.areaId := None;
              BlockBody.date := "2025-03-10";
              BlockBody.period := ReservationBlockPeriod.NIGHT;
              BlockBody.reason := None |}
           (Scenario.sys_of Scenario.store_free)
           (run (postBlockPeriod Scenario.world0
                   {| BlockBody.unitId := "u1"; BlockBody.areaId := None;
                      BlockBody.date := "2025-03-10";
                      BlockBody.period := ReservationBlockPeriod.NIGHT;
                      BlockBody.reason := None |})
              (Scenario.sys_of Scenario.store_free)).2
           {| ReservationBlock.id := "r0"; ReservationBlock.unitId := "u1";
              ReservationBlock.areaId := None;
              ReservationBlock.date := newDate Scenario.day0 0 0 0 0;
              ReservationBlock.mode := ReservationBlockMode.PERIOD;
              ReservationBlock.period := ReservationBlockPeriod.NIGHT;
              ReservationBlock.reason := None |}
           (Scenario.request_of 2 (newDate Scenario.day0 19 0 0 0) None)
           (newDate Scenario.day0 0 0 0 0) (newDate Scenario.day0 19 0 0 0)
           Scenario.unit1 (Scenario.area_with (Some 10) (Some 4)));
    try (vm_compute; reflexivity).
  - left. reflexivity.
  - right. vm_compute. reflexivity.
Defined.

(** ** The staff middleware and the availability listing *)

Lemma listing_entry_area w st unitId dateISO timeHHmm d :
  d ∈ listByUnitPublic w st unitId dateISO timeHHmm ->
  exists a, a ∈ areas st /\ Area.unitId a = unitId /\ Area.isActive a = true
            /\ dto_id d = Area.id a.
Proof.
  unfold listByUnitPublic. intros H.
  destruct (negb (Js.truthy unitId)); [inversion H |].
  assert (d ∈ map (withResolvedPhoto w) (area_findMany w st unitId) ->
          exists a, a ∈ areas st /\ Area.unitId a = unitId
                    /\ Area.isActive a = true /\ dto_id d = Area.id a) as Hs.
  { intros Hd. apply listing_static in Hd as (a & Ha & ->).
    apply elem_of_area_findMany in Ha as (? & ? & ?). exists a. auto. }
  assert (forall f : AreaPublicDTO -> Z,
            d ∈ map (fun a => withAvailability a (f a))
                  (map (withResolvedPhoto w) (area_findMany w st unitId)) ->
            exists a, a ∈ areas st /\ Area.unitId a = unitId
                      /\ Area.isActive a = true /\ dto_id d = Area.id a) as Hdyn.
  { intros f Hd. apply listing_with_availability in Hd as (a & Ha & ->).
    apply elem_of_area_findMany in Ha as (? & ? & ?). exists a. auto. }
  destruct dateISO as [ds |]; [| apply Hs, H].
  destruct (Js.truthy ds); [| apply Hs, H].
  assert (d ∈ availabilityForDay w st unitId (default (now w) (dayjs_strict w ds)) ->
          exists a, a ∈ areas st /\ Area.unitId a = unitId
                    /\ Area.isActive a = true /\ dto_id d = Area.id a) as Hday
    by (unfold availabilityForDay; apply Hdyn).
  destruct timeHHmm as [t |]; [| apply Hday, H].
  destruct (Js.truthy t); [| apply Hday, H].
  revert H. unfold availabilityForPeriod.
  destruct (periodWindow _ _) as [win p]. apply Hdyn.
Qed.

Lemma listing_find_area w st unitId a dt :
  ids_nonempty st ->
  area_ids_unique st ->
  dayjs_reads w dt ->
  Js.truthy unitId = true ->
  a ∈ areas st -> Area.unitId a = unitId -> Area.isActive a = true ->
  List.find (fun x => String.eqb (dto_id x) (Area.id a))
    (listByUnitPublic w st unitId (Some (toYMD dt)) (Some (toHHmm dt)))
  = Some (withAvailability (withResolvedPhoto w a)
            (spec_remaining
               (periodCapacity (getPeriodFromDate dt) a)
               (spec_used st (Area.id a) (spec_window (getPeriodFromDate dt) dt))
               (spec_blocked st unitId (Area.id a) dt
                  [ReservationBlockPeriod.ALL_DAY;
                   blockPeriodOf (getPeriodFromDate dt)]))).
Proof.
  intros Hids Huniq (b & Hb & Hday) Hu Hin Hunit Hact.
  unfold listByUnitPublic.
  rewrite Hu, toYMD_truthy, toHHmm_truthy, Hb. cbn [negb from_option id].
  rewrite availabilityForPeriod_spec by assumption.
  rewrite isValidHHmm_toHHmm, clamp_toHHmm, <- getPeriodFromDate_rule.
  rewrite (find_dto_of_area _ _ a).
  - rewrite (spec_window_same_day _ b dt Hday).
    rewrite (spec_blocked_same_day _ _ _ b dt _ Hday). reflexivity.
  - reflexivity.
  - intros x y Hx Hy. apply elem_of_area_findMany in Hx as (Hx & _).
    apply elem_of_area_findMany in Hy as (Hy & _).
    apply (NoDup_map_inj Area.id (areas st)); assumption.
  - apply elem_of_area_findMany. auto.
Qed.

Lemma listing_find_absent w st unitId a dateISO timeHHmm :
  area_ids_unique st ->
  a ∈ areas st ->
  Area.isActive a && String.eqb (Area.unitId a) unitId = false ->
  List.find (fun x => String.eqb (dto_id x) (Area.id a))
    (listByUnitPublic w st unitId dateISO timeHHmm) = None.
Proof.
  intros Huniq Hin Hno.
  destruct (List.find _ _) as [d |] eqn:F; [| reflexivity].
  apply find_Some_elem in F as [Hd Heq]. apply String.eqb_eq in Heq.
  apply listing_entry_area in Hd as (x & Hx & Hxu & Hxa & Hxid).
  assert (x = a) as ->
    by (apply (NoDup_map_inj Area.id (areas st));
        first [exact Huniq | assumption | congruence]).
  rewrite Hxa, Hxu, String.eqb_refl in Hno. discriminate.
Qed.

Lemma find_id_eq {A} (key : A -> string) id (l : list A) x :
  List.find (fun y => String.eqb (key y) id) l = Some x -> x ∈ l /\ key x = id.
Proof.
  intros F. apply find_Some_elem in F as [Hin E].
  split; [exact Hin | apply String.eqb_eq, E].
Qed.

(** X20.  The capacity rule of the staff middleware.  For a body whose
    unit id and area id name a unit and an area of the store and that
    carries a date: an area that is inactive or of another unit is answered
    400 AREA_NOT_FOUND; otherwise the request passes exactly when
    people + kids is at most the remaining seats of the period of the date
    (0 when blocked, else max(0, capacity - used)) plus the credit, and is
    answered 409 AREA_NO_CAPACITY with these two numbers when it is not. *)
Theorem staff_capacity_rule
  (w : World) (st : Store) (req : StaffRequest)
  (u : Unit.t) (a : Area.t) (dt : Date) :
  ids_nonempty st ->
  area_ids_unique st ->
  dayjs_reads w dt ->
  Js.truthy_opt (StaffBody.unitId (staff_body req)) = true ->
  unit_findUnique (default EmptyString (StaffBody.unitId (staff_body req))) st
  = Some u ->
  Js.truthy_opt (StaffBody.areaId (staff_body req)) = true ->
  area_findUnique (default EmptyString (StaffBody.areaId (staff_body req))) st
  = Some a ->
  StaffBody.reservationDate (staff_body req) = Some dt ->
  let P := getPeriodFromDate dt in
  let avail :=
    spec_remaining (periodCapacity P a)
      (spec_used st (Area.id a) (spec_window P dt))
      (spec_blocked st (Unit.id u) (Area.id a) dt
         [ReservationBlockPeriod.ALL_DAY; blockPeriodOf P]) in
  let credit :=
    creditoAtual_of st req (Some (Unit.id u)) (Area.id a) (toYMD dt) (toHHmm dt) in
  let total :=
    (StaffBody.people (staff_body req) + StaffBody.kids (staff_body req))%Q in
  match enrichAndValidate w st req with
  | Respond r =>
      if Area.isActive a && String.eqb (Area.unitId a) (Unit.id u)
      then r = Failure 409 AREA_NO_CAPACITY (Credit avail credit)
           /\ (inject_Z (avail + credit) < total)%Q
      else r = Failure 400 AREA_NOT_FOUND NoDetail
  | Next b' =>
      Area.isActive a = true /\ Area.unitId a = Unit.id u
      /\ (total <= inject_Z (avail + credit))%Q
      /\ StaffBody.unitId b' = Some (Unit.id u)
      /\ StaffBody.areaId b' = Some (Area.id a)
      /\ StaffBody.reservationDate b' = Some dt
  end.
Proof.
  intros Hids Huniq Hread Tu Fu Ta Fa Hdt. cbv zeta.
  unfold enrichAndValidate, resolveUnit, resolveArea.
  rewrite Tu, Fu, Ta, Fa, Hdt. cbn [from_option id].
  pose proof (find_id_eq Unit.id _ _ _ Fu) as [_ Eu].
  pose proof (find_id_eq Area.id _ _ _ Fa) as [Hin Ea].
  assert (Js.truthy (Unit.id u) = true) as Tu'.
  { rewrite Eu. destruct (StaffBody.unitId (staff_body req)); [exact Tu | discriminate]. }
  assert (Js.truthy (Area.id a) = true) as Ta'.
  { rewrite Ea. destruct (StaffBody.areaId (staff_body req)); [exact Ta | discriminate]. }
  rewrite Ta'.
  destruct (Area.isActive a && String.eqb (Area.unitId a) (Unit.id u)) eqn:Hok.
  - apply andb_true_iff in Hok as [Hact Hun]. apply String.eqb_eq in Hun.
    rewrite (listing_find_area w st (Unit.id u) a dt) by assumption.
    cbn [withAvailability available remaining or_else from_option id].
    destruct (Js.Qltb _ _) eqn:Q; unfold Js.Qltb in Q.
    + split; [reflexivity |]. apply negb_true_iff in Q.
      apply Qnot_le_lt. intros L. apply Qle_bool_iff in L. congruence.
    + apply negb_false_iff, Qle_bool_iff in Q.
      cbn [StaffBody.unitId StaffBody.areaId StaffBody.reservationDate].
      auto 10.
  - rewrite (listing_find_absent w st (Unit.id u) a) by assumption.
    reflexivity.
Qed.

Lemma staff_capacity_rule_witness :
  exists b',
    enrichAndValidate Scenario.world0 Scenario.store_1900 Scenario.put_1900
    = Next b'
    /\ StaffBody.areaId b' = Some "a1".
Proof.
  assert (ids_nonempty Scenario.store_1900) as H1
    by (split; repeat constructor; discriminate).
  assert (area_ids_unique Scenario.store_1900) as H2.
  { unfold area_ids_unique. cbn. apply NoDup_singleton. }
  assert (dayjs_reads Scenario.world0 (newDate Scenario.day0 19 0 0 0)) as H3.
  { exists (newDate Scenario.day0 0 0 0 0).
    split; vm_compute; reflexivity. }
  pose proof (staff_capacity_rule Scenario.world0 Scenario.store_1900
                Scenario.put_1900 Scenario.unit1
                (Scenario.area_with (Some 10) (Some 4))
                (newDate Scenario.day0 19 0 0 0)
                H1 H2 H3 eq_refl eq_refl eq_refl eq_refl eq_refl) as H.
  cbv zeta in H.
  destruct (enrichAndValidate Scenario.world0 Scenario.store_1900
              Scenario.put_1900) as [r | b'] eqn:E.
  - vm_compute in E. discriminate E.
  - exists b'. split; [reflexivity |].
    destruct H as (_ & _ & _ & _ & Ha & _). exact Ha.
Defined.

(** ** Normalisation of the e-mail *)

Lemma is_space_lower c : Js.is_space (Js.lower_char c) = Js.is_space c.
Proof.
  destruct c as [[] [] [] [] [] [] [] []]; reflexivity.
Qed.

Lemma is_space_upper c : Js.is_space (Js.upper_char c) = Js.is_space c.
Proof.
  destruct c as [[] [] [] [] [] [] [] []]; reflexivity.
Qed.

Lemma lower_upper_char c : Js.lower_char (Js.upper_char c) = Js.lower_char c.
Proof.
  destruct c as [[] [] [] [] [] [] [] []]; reflexivity.
Qed.

Lemma lower_lower_char c : Js.lower_char (Js.lower_char c) = Js.lower_char c.
Proof.
  destruct c as [[] [] [] [] [] [] [] []]; reflexivity.
Qed.

Lemma map_chars_map_chars f g s :
  Js.map_chars f (Js.map_chars g s) = Js.map_chars (fun c => f (g c)) s.
Proof. induction s as [| c s IH]; cbn; [| rewrite IH]; reflexivity. Qed.

Lemma map_chars_ext f g s :
  (forall c, f c = g c) -> Js.map_chars f s = Js.map_chars g s.
Proof. intros H. induction s as [| c s IH]; cbn; [| rewrite H, IH]; reflexivity. Qed.

Lemma trimStart_map_chars f s :
  (forall c, Js.is_space (f c) = Js.is_space c) ->
  Js.trimStart (Js.map_chars f s) = Js.map_chars f (Js.trimStart s).
Proof.
  intros H. induction s as [| c s IH]; [reflexivity |].
  cbn [Js.map_chars Js.trimStart]. rewrite H.
  destruct (Js.is_space c); [exact IH | reflexivity].
Qed.

Lemma trimEnd_map_chars f s :
  (forall c, Js.is_space (f c) = Js.is_space c) ->
  Js.trimEnd (Js.map_chars f s) = Js.map_chars f (Js.trimEnd s).
Proof.
  intros H. induction s as [| c s IH]; [reflexivity |].
  cbn [Js.map_chars Js.trimEnd]. rewrite IH, H.
  destruct (Js.trimEnd s); cbn [Js.map_chars];
    [destruct (Js.is_space c) |]; reflexivity.
Qed.

Lemma trim_map_chars f s :
  (forall c, Js.is_space (f c) = Js.is_space c) ->
  Js.trim (Js.map_chars f s) = Js.map_chars f (Js.trim s).
Proof.
  intros H. unfold Js.trim.
  rewrite trimStart_map_chars, trimEnd_map_chars by exact H. reflexivity.
Qed.

Lemma trimEnd_cons c s :
  Js.trimEnd (String c s)
  = match Js.trimEnd s with
    | EmptyString => if Js.is_space c then EmptyString else String c EmptyString
    | r => String c r
    end.
Proof. reflexivity. Qed.

Lemma trimEnd_idem s : Js.trimEnd (Js.trimEnd s) = Js.trimEnd s.
Proof.
  induction s as [| c s IH]; [reflexivity |].
  rewrite trimEnd_cons. destruct (Js.trimEnd s) as [| d r] eqn:E.
  - destruct (Js.is_space c) eqn:Sc; [reflexivity |].
    rewrite trimEnd_cons. cbn [Js.trimEnd]. rewrite Sc. reflexivity.
  - rewrite trimEnd_cons, IH. reflexivity.
Qed.

(** A string is free of leading white space. *)
Lemma trimStart_head s :
  match Js.trimStart s with
  | EmptyString => True
  | String c _ => Js.is_space c = false
  end.
Proof.
  induction s as [| c s IH]; [exact I |].
  cbn [Js.trimStart]. destruct (Js.is_space c) eqn:E; [exact IH | exact E].
Qed.

Lemma trimEnd_head c s :
  Js.is_space c = false ->
  exists r, Js.trimEnd (String c s) = String c r.
Proof.
  intros H. cbn [Js.trimEnd]. rewrite H.
  destruct (Js.trimEnd s); eauto.
Qed.

Lemma trim_idem s : Js.trim (Js.trim s) = Js.trim s.
Proof.
  unfold Js.trim. pose proof (trimStart_head s) as H.
  destruct (Js.trimStart s) as [| c r]; [reflexivity |].
  destruct (trimEnd_head c r H) as (r' & E). rewrite E.
  cbn [Js.trimStart]. rewrite H, <- E. apply trimEnd_idem.
Qed.

Lemma truthy_map_chars f s : Js.truthy (Js.map_chars f s) = Js.truthy s.
Proof. destruct s; reflexivity. Qed.

(** X21.  The e-mail normalisation of the public route is idempotent, and
    it does not see the letter case of its input nor the white space
    around it; a normalised e-mail is never the empty string. *)
Theorem toLowerEmail_normal_form (v : option string) (s : string) :
  toLowerEmail (toLowerEmail v) = toLowerEmail v
  /\ toLowerEmail (Some (Js.toUpperCase s)) = toLowerEmail (Some s)
  /\ toLowerEmail (Some (Js.trim s)) = toLowerEmail (Some s)
  /\ toLowerEmail v <> Some EmptyString.
Proof.
  assert (forall x, Js.toLowerCase (Js.trim (Js.toLowerCase (Js.trim x)))
                    = Js.toLowerCase (Js.trim x)) as Hidem.
  { intros x. unfold Js.toLowerCase.
    rewrite (trim_map_chars Js.lower_char) by apply is_space_lower.
    rewrite trim_idem, map_chars_map_chars.
    apply map_chars_ext, lower_lower_char. }
  repeat split.
  - unfold toLowerEmail.
    destruct (Js.truthy (Js.toLowerCase (Js.trim (default EmptyString v)))) eqn:T.
    + cbn [from_option id]. rewrite Hidem, T. reflexivity.
    + reflexivity.
  - unfold toLowerEmail, Js.toLowerCase, Js.toUpperCase. cbn [from_option id].
    rewrite (trim_map_chars Js.upper_char) by apply is_space_upper.
    rewrite map_chars_map_chars.
    rewrite (map_chars_ext _ Js.lower_char) by apply lower_upper_char.
    reflexivity.
  - unfold toLowerEmail. cbn [from_option id]. rewrite trim_idem. reflexivity.
  - unfold toLowerEmail. destruct (Js.truthy _) eqn:T; [| discriminate].
    intros [= E]. rewrite E in T. discriminate.
Qed.

(** ** Reservation codes of the repository *)

Lemma alphabet_at_in (i : Z) :
  0 <= i < 32 ->
  exists c, alphabet_at i = String c EmptyString
            /\ c ∈ list_ascii_of_string code_alphabet.
Proof.
  intros Hi.
  assert (Forall (fun j => exists c, alphabet_at j = String c EmptyString
                                     /\ c ∈ list_ascii_of_string code_alphabet)
            (map Z.of_nat (seq 0 32))) as Hall.
  { repeat (constructor;
            [eexists; split; [reflexivity |];
             apply list_elem_of_In; vm_compute; tauto |]).
    constructor. }
  rewrite Forall_forall in Hall. apply Hall.
  apply elem_of_map_iff. exists (Z.to_nat i).
  split; [lia |]. apply list_elem_of_In, in_seq. lia.
Qed.

Lemma genCode_chars bytes :
  Forall (fun b => 0 <= b < 256) bytes ->
  String.length (genCode bytes) = length bytes
  /\ Forall (fun c => c ∈ list_ascii_of_string code_alphabet)
       (list_ascii_of_string (genCode bytes)).
Proof.
  intros F. induction F as [| b bytes Hb F [IH1 IH2]]; [split; [reflexivity | constructor] |].
  cbn [genCode]. change (Z.of_nat (String.length code_alphabet)) with 32.
  destruct (alphabet_at_in (b mod 32)) as (c & E & Hc);
    [apply Z.mod_pos_bound; lia |].
  rewrite E, append_cons.
  change (EmptyString ++ genCode bytes) with (genCode bytes).
  cbn [String.length length list_ascii_of_string].
  split; [rewrite IH1; reflexivity | constructor; assumption].
Qed.

(** X22.  The repository's [genCode]: from bytes in 0..255 it builds a
    code of as many characters, all of the 32-symbol alphabet; and every
    symbol of the alphabet is selected by exactly 8 of the 256 byte values,
    so that uniform bytes give uniform symbols. *)
Theorem genCode_alphabet_uniform (bytes : list Z) (c : ascii) :
  Forall (fun b => 0 <= b < 256) bytes ->
  c ∈ list_ascii_of_string code_alphabet ->
  String.length (genCode bytes) = length bytes
  /\ Forall (fun x => x ∈ list_ascii_of_string code_alphabet)
       (list_ascii_of_string (genCode bytes))
  /\ length (bytes_selecting c) = 8%nat.
Proof.
  intros F Hc. destruct (genCode_chars bytes F) as [H1 H2].
  split; [exact H1 |]. split; [exact H2 |].
  assert (forallb (fun x => Nat.eqb (length (bytes_selecting x)) 8)
            (list_ascii_of_string code_alphabet) = true) as Hall
    by (vm_compute; reflexivity).
  rewrite forallb_forall in Hall.
  apply Nat.eqb_eq, Hall, list_elem_of_In, Hc.
Qed.

Lemma genCode_alphabet_uniform_witness :
  genCode [0; 33; 255; 64; 7; 200] = "AB9AHJ"
  /\ length (bytes_selecting "K"%char) = 8%nat.
Proof.
  split; [reflexivity |].
  refine (proj2 (proj2 (genCode_alphabet_uniform [0; 33; 255; 64; 7; 200]
                          "K"%char _ _))).
  - repeat constructor; lia.
  - apply list_elem_of_In. vm_compute. tauto.
Defined.

Lemma uniqueReservationCode_loop_spec randomBytes n s :
  (forall k, six_bytes (randomBytes k)) ->
  let r := run (uniqueReservationCode_loop randomBytes n) s in
  db r.2 = db s
  /\ (rngCalls r.2 <= rngCalls s + n)%nat
  /\ match r.1 with
     | Some code =>
         code_ok code /\ reservationCode_exists code (db s) = false
     | None =>
         rngCalls r.2 = (rngCalls s + n)%nat
         /\ forall j, (j < n)%nat ->
              reservationCode_exists (genCode (randomBytes (rngCalls s + j)%nat))
                (db s) = true
     end.
Proof.
  intros Hbytes. revert s. induction n as [| n IH]; intros s; cbv zeta.
  - cbn [uniqueReservationCode_loop run fst snd].
    split; [reflexivity |]. split; [lia |]. split; [lia |]. intros j Hj. lia.
  - cbn [uniqueReservationCode_loop run fst snd].
    destruct (reservationCode_exists (genCode (randomBytes (rngCalls s))) (db s))
      eqn:Ex; cbn [negb].
    + specialize (IH {| db := db s; rngCalls := S (rngCalls s);
                        idCalls := idCalls s; tokCalls := tokCalls s |}).
      cbv zeta in IH. cbn [db rngCalls] in IH.
      destruct IH as (Hdb & Hcalls & Hres).
      split; [exact Hdb |]. split; [lia |].
      destruct (run _ _).1 as [code |]; [exact Hres |].
      destruct Hres as [Hc Hall]. split; [lia |].
      intros j Hj. destruct j as [| j].
      * rewrite Nat.add_0_r. exact Ex.
      * replace (rngCalls s + S j)%nat with (S (rngCalls s) + j)%nat by lia.
        apply Hall. lia.
    + cbn [run fst snd db rngCalls]. split; [reflexivity |]. split; [lia |].
      split; [| exact Ex].
      destruct (Hbytes (rngCalls s)) as [L F].
      destruct (genCode_chars _ F) as [H1 H2].
      split; [rewrite H1; exact L | exact H2].
Qed.

(** X23.  The repository's [uniqueReservationCode], with random bytes in
    0..255: it reads the store at most 25 times and never writes; a code it
    returns has 6 characters of the alphabet and is not held by any
    reservation of the store; it throws only when all 25 codes it drew are
    taken. *)
Theorem uniqueReservationCode_never_taken
  (randomBytes : nat -> list Z) (s : Sys) :
  (forall k, six_bytes (randomBytes k)) ->
  let r := run (uniqueReservationCode randomBytes) s in
  within 25 (uniqueReservationCode randomBytes)
  /\ db r.2 = db s
  /\ match r.1 with
     | Some code =>
         code_ok code /\ reservationCode_exists code (db s) = false
     | None =>
         forall j, (j < 25)%nat ->
           reservationCode_exists (genCode (randomBytes (rngCalls s + j)%nat))
             (db s) = true
     end.
Proof.
  intros Hbytes. cbv zeta. split.
  - unfold uniqueReservationCode. generalize 25%nat as n.
    induction n as [| n IH]; cbn [uniqueReservationCode_loop];
      [constructor |].
    constructor. intros [code ex]. cbn [fst snd].
    destruct (negb ex); [constructor | exact IH].
  - destruct (uniqueReservationCode_loop_spec randomBytes 25 s Hbytes)
      as (Hdb & _ & Hres).
    fold (uniqueReservationCode randomBytes) in Hdb, Hres.
    split; [exact Hdb |].
    destruct (run (uniqueReservationCode randomBytes) s).1; [exact Hres |].
    exact (proj2 Hres).
Qed.

Lemma uniqueReservationCode_never_taken_witness :
  let randomBytes := fun k : nat => [Z.of_nat (k mod 256); 0; 0; 0; 0; 0] in
  let s := Scenario.sys_of Scenario.store_AAAAAA in
  (forall k, six_bytes (randomBytes k))
  /\ (run (uniqueReservationCode randomBytes) s).1 = Some "BAAAAA"
  /\ reservationCode_exists "BAAAAA" (db s) = false.
Proof.
  cbv zeta.
  assert (forall k, six_bytes [Z.of_nat (k mod 256); 0; 0; 0; 0; 0]) as Hb.
  { intros k. split; [reflexivity |].
    pose proof (Nat.mod_upper_bound k 256 ltac:(lia)).
    repeat constructor; lia. }
  split; [exact Hb |].
  assert ((run (uniqueReservationCode
                  (fun k => [Z.of_nat (k mod 256); 0; 0; 0; 0; 0]))
             (Scenario.sys_of Scenario.store_AAAAAA)).1 = Some "BAAAAA") as E
    by (vm_compute; reflexivity).
  split; [exact E |].
  pose proof (uniqueReservationCode_never_taken
                (fun k => [Z.of_nat (k mod 256); 0; 0; 0; 0; 0])
                (Scenario.sys_of Scenario.store_AAAAAA) Hb) as H.
  cbv zeta in H. destruct H as (_ & _ & H). rewrite E in H. exact (proj2 H).
Defined.

(** ** Listing the reservations *)

(** X24.  A search text that is, once trimmed, six letters or digits is
    only ever looked up as a reservation code: the result is empty with
    total 0, or it is the one reservation that holds the upper-cased text as
    its code, with total 1.  A reservation that merely contains the text in
    its name or contact is never returned. *)
Theorem six_character_search_is_code_lookup
  (w : World) (p : FindManyParams.t) (st : Store) :
  is_code_search p = true ->
  let code := Js.toUpperCase (Js.trim (default EmptyString (FindManyParams.search p))) in
  let page := findMany w p st in
  (items page = [] /\ total page = 0)
  \/ (exists r,
        items page = [r] /\ total page = 1
        /\ reservation_findByCode code st = Some r
        /\ Reservation.reservationCode r = Some code).
Proof.
  intros H. cbv zeta. unfold findMany. unfold is_code_search in H.
  cbv zeta in H. rewrite H.
  destruct (reservation_findByCode _ st) as [hit |] eqn:F; [| left; split; reflexivity].
  repeat match goal with
         | |- context [if ?c then empty_page else _] =>
             destruct c; [left; split; reflexivity |]
         end.
  right. exists hit. repeat split.
  unfold reservation_findByCode in F. apply find_Some_elem in F as [_ F].
  apply bool_decide_eq_true in F. exact F.
Qed.

Lemma six_character_search_is_code_lookup_witness :
  let p := {| FindManyParams.search := Some " aaaaaa ";
              FindManyParams.unit := None;
              FindManyParams.unitId := None;
              FindManyParams.areaId := None;
              FindManyParams.from := None;
              FindManyParams.to := None;
              FindManyParams.skip := Some 0;
              FindManyParams.take := Some 20 |} in
  is_code_search p = true
  /\ exists r, items (findMany Scenario.world0 p Scenario.store_AAAAAA) = [r]
               /\ Reservation.reservationCode r = Some "AAAAAA".
Proof.
  cbv zeta. split; [reflexivity |].
  destruct (six_character_search_is_code_lookup Scenario.world0
              {| FindManyParams.search := Some " aaaaaa ";
                 FindManyParams.unit := None;
                 FindManyParams.unitId := None;
                 FindManyParams.areaId := None;
                 FindManyParams.from := None;
                 FindManyParams.to := None;
                 FindManyParams.skip := Some 0;
                 FindManyParams.take := Some 20 |}
              Scenario.store_AAAAAA eq_refl)
    as [[E _] | (r & E & _ & _ & Hc)].
  - vm_compute in E. discriminate E.
  - exists r. split; [exact E | exact Hc].
Defined.

Lemma insert_by_perm {A} (leb : A -> A -> bool) x l :
  insert_by leb x l ≡ₚ x :: l.
Proof.
  induction l as [| y l IH]; [reflexivity |].
  cbn [insert_by]. destruct (leb x y); [reflexivity |].
  rewrite IH. apply Permutation_swap.
Qed.

Lemma sort_by_perm {A} (leb : A -> A -> bool) l : sort_by leb l ≡ₚ l.
Proof.
  induction l as [| x l IH]; [reflexivity |].
  unfold sort_by in *. cbn [foldr]. rewrite insert_by_perm, IH. reflexivity.
Qed.

Lemma insert_by_ordered {A} (leb : A -> A -> bool) x l :
  (forall a b, leb a b = false -> leb b a = true) ->
  (forall a b c, leb a b = true -> leb b c = true -> leb a c = true) ->
  ForallOrdPairs (fun a b => leb a b = true) l ->
  ForallOrdPairs (fun a b => leb a b = true) (insert_by leb x l).
Proof.
  intros Htot Htrans H. induction H as [| y l Hy H IH]; cbn [insert_by].
  - repeat constructor.
  - destruct (leb x y) eqn:E.
    + constructor; [| constructor; assumption].
      constructor; [exact E |].
      eapply Forall_impl; [exact Hy |]. intros z Hz. cbn beta in *.
      eapply Htrans; eassumption.
    + constructor; [| exact IH].
      rewrite insert_by_perm. constructor; [apply Htot, E | exact Hy].
Qed.

Lemma sort_by_ordered {A} (leb : A -> A -> bool) l :
  (forall a b, leb a b = false -> leb b a = true) ->
  (forall a b c, leb a b = true -> leb b c = true -> leb a c = true) ->
  ForallOrdPairs (fun a b => leb a b = true) (sort_by leb l).
Proof.
  intros Htot Htrans. induction l as [| x l IH]; [constructor |].
  unfold sort_by in *. cbn [foldr]. apply insert_by_ordered; assumption.
Qed.

Lemma newest_first_strict rows :
  NoDup (map Reservation.createdAt rows) ->
  ForallOrdPairs
    (fun a b => Reservation.createdAt b < Reservation.createdAt a)
    (newest_first rows).
Proof.
  intros Hnd.
  assert (NoDup (map Reservation.createdAt (newest_first rows))) as Hnd'.
  { unfold newest_first. rewrite sort_by_perm. exact Hnd. }
  assert (ForallOrdPairs
            (fun a b => (Reservation.createdAt b <=? Reservation.createdAt a) = true)
            (newest_first rows)) as Hs.
  { apply sort_by_ordered.
    - intros a b H. apply Z.leb_gt in H. apply Z.leb_le. lia.
    - intros a b c H1 H2. apply Z.leb_le in H1, H2. apply Z.leb_le. lia. }
  induction Hs as [| x l Hx Hs IH]; [constructor |].
  cbn [map] in Hnd'. apply NoDup_cons in Hnd' as [Hin Hnd'].
  constructor; [| apply IH, Hnd'].
  rewrite Forall_forall in Hx. apply Forall_forall. intros y Hy.
  pose proof (Hx y Hy) as Hle. apply Z.leb_le in Hle.
  assert (Reservation.createdAt x <> Reservation.createdAt y).
  { intros E. apply Hin. rewrite E. apply list_elem_of_fmap. eauto. }
  lia.
Qed.

Lemma concat_pages {A} (l : list A) (n k : nat) :
  concat (map (fun i => take n (drop (i * n) l)) (seq 0 k)) = take (k * n) l.
Proof.
  induction k as [| k IH]; [reflexivity |].
  rewrite seq_S, map_app, concat_app, IH. cbn [map concat plus].
  rewrite app_nil_r, take_take_drop. f_equal. lia.
Qed.

(** X25.  Pagination of the normal path (a search text that is not a
    six-character code, creation instants distinct): with a page size
    between 1 and 100, every page reports the same total, the number of
    matching reservations, and holds at most the page size; the pages
    0, 1, 2, ... put end to end list the matching reservations newest
    first, each exactly once. *)
Theorem pages_cover_the_matches
  (w : World) (p : FindManyParams.t) (st : Store) (n : Z) (k : nat) :
  is_code_search p = false ->
  NoDup (map Reservation.createdAt (reservations st)) ->
  1 <= n <= 100 ->
  let q := Js.trim (default EmptyString (FindManyParams.search p)) in
  let matches := filter (findMany_where w p q) (reservations st) in
  let page := fun i => findMany w (page_params p n i) st in
  (forall i, total (page i) = Z.of_nat (length matches)
             /\ Z.of_nat (length (items (page i))) <= n)
  /\ exists all,
       all ≡ₚ matches
       /\ ForallOrdPairs
            (fun a b => Reservation.createdAt b < Reservation.createdAt a) all
       /\ concat (map (fun i => items (page i)) (seq 0 k))
          = take (k * Z.to_nat n) all
       /\ (Z.of_nat (length matches) <= Z.of_nat k * n ->
           concat (map (fun i => items (page i)) (seq 0 k)) = all).
Proof.
  intros Hq Hnd Hn. cbv zeta.
  set (q := Js.trim (default EmptyString (FindManyParams.search p))).
  set (matches := filter (findMany_where w p q) (reservations st)).
  assert (forall i, findMany w (page_params p n i) st
                    = {| items := take (Z.to_nat n)
                                    (drop (i * Z.to_nat n) (newest_first matches));
                         total := Z.of_nat (length matches) |}) as Hpage.
  { intros i. unfold findMany. unfold is_code_search in Hq. cbv zeta in Hq.
    cbn [page_params FindManyParams.search]. fold q. fold q in Hq. rewrite Hq.
    unfold safeTake, safeSkip. cbn [page_params FindManyParams.take
                                      FindManyParams.skip from_option id].
    destruct (Z.eqb_spec n 0) as [E | _]; [lia |].
    replace (Z.min 100 (Z.max 1 n)) with n by lia.
    replace (Z.to_nat (Z.max 0 (Z.of_nat i * n))) with (i * Z.to_nat n)%nat by lia.
    reflexivity. }
  split.
  - intros i. rewrite Hpage. cbn [items total]. split; [reflexivity |].
    rewrite length_take. lia.
  - exists (newest_first matches).
    split; [apply sort_by_perm |].
    split.
    { apply newest_first_strict. unfold matches.
      eapply sublist_NoDup; [exact Hnd | apply fmap_sublist, sublist_filter]. }
    assert (concat (map (fun i => items (findMany w (page_params p n i) st))
                      (seq 0 k))
            = take (k * Z.to_nat n) (newest_first matches)) as Hc.
    { rewrite <- concat_pages. f_equal. apply map_ext. intros i.
      rewrite Hpage. reflexivity. }
    split; [exact Hc |].
    intros Hk. rewrite Hc. apply take_ge.
    unfold newest_first. rewrite sort_by_perm. lia.
Qed.


Lemma pages_cover_the_matches_witness :
  let p := {| FindManyParams.search := Some "Maria";
              FindManyParams.unit := None;
              FindManyParams.unitId := Some "u1";
              FindManyParams.areaId := None;
              FindManyParams.from := None;
              FindManyParams.to := None;
              FindManyParams.skip := None;
              FindManyParams.take := None |} in
  is_code_search p = false
  /\ NoDup (map Reservation.createdAt (reservations Scenario.store_1300))
  /\ length (concat (map (fun i => items (findMany Scenario.world0
                                            (page_params p 20 i)
                                            Scenario.store_1300))
                       (seq 0 1))) = 1%nat.
Proof.
  cbv zeta. split; [reflexivity |].
  assert (NoDup (map Reservation.createdAt (reservations Scenario.store_1300)))
    as Hnd by (cbn; apply NoDup_singleton).
  split; [exact Hnd |].
  destruct (pages_cover_the_matches Scenario.world0
              {| FindManyParams.search := Some "Maria";
                 FindManyParams.unit := None;
                 FindManyParams.unitId := Some "u1";
                 FindManyParams.areaId := None;
                 FindManyParams.from := None;
                 FindManyParams.to := None;
                 FindManyParams.skip := None;
                 FindManyParams.take := None |}
              Scenario.store_1300 20 1 eq_refl Hnd ltac:(lia))
    as (_ & all & Hperm & _ & _ & Hcover).
  rewrite Hcover.
  - rewrite Hperm. vm_compute. reflexivity.
  - vm_compute. discriminate.
Defined.

(** ** What a created reservation refers to *)

Lemma checkAndCreate_created_refs w req dt p k e ph s row s' :
  run (checkAndCreate w req dt p k e ph) s = (Created row, s') ->
  exists u a,
    unit_findUnique (default EmptyString (Body.unitId (body req))) (db s) = Some u
    /\ area_findUnique (default EmptyString (Body.areaId (body req))) (db s) = Some a
    /\ Unit.isActive u = true /\ Area.isActive a = true
    /\ Area.unitId a = Unit.id u
    /\ Reservation.unitId row = Some (Unit.id u)
    /\ Reservation.unit row = Some (Unit.name u)
    /\ Reservation.areaId row = Some (Area.id a)
    /\ Reservation.areaName row = Some (Area.name a)
    /\ Reservation.people row = Z.max 0 (Qfloor p)
    /\ Reservation.kids row = Z.max 0 (Qfloor k)
    /\ Reservation.reservationDate row = dt
    /\ spec_blocked (db s) (Unit.id u) (Area.id a) dt
         [ReservationBlockPeriod.ALL_DAY; blockPeriodOf (getPeriodFromDate dt)]
       = false
    /\ willUse_of p k
       <= Z.max 0 (periodCapacity (getPeriodFromDate dt) a
                   - spec_used (db s) (Area.id a)
                       (spec_window (getPeriodFromDate dt) dt)).
Proof.
  unfold checkAndCreate. cbn [run query].
  destruct (unit_findUnique _ (db s)) as [u |]; [| discriminate].
  destruct (Unit.isActive u) eqn:Hu; cbn [negb]; [| discriminate].
  destruct (area_findUnique _ (db s)) as [a |]; [| discriminate].
  destruct (Area.isActive a) eqn:Ha; cbn [negb orb]; [| discriminate].
  destruct (String.eqb_spec (Area.unitId a) (Unit.id u)) as [Hau | Hau];
    cbn [negb]; [| discriminate].
  cbn [run query]. rewrite blocksFor_spec.
  destruct (spec_blocked _ _ _ _ _) eqn:Hb; [discriminate |].
  cbn [run query]. rewrite alreadyUsed_spec, periodWindowOfDate_spec.
  fold (periodCapacity (getPeriodFromDate dt) a).
  destruct (Z.gtb_spec (willUse_of p k)
              (Z.max 0 (periodCapacity (getPeriodFromDate dt) a
                        - spec_used (db s) (Area.id a)
                            (spec_window (getPeriodFromDate dt) dt))))
    as [Hgt | Hle]; [discriminate |].
  match goal with
  | |- context [bind (generateUniqueReservationCode w) ?f] =>
      match f with
      | (fun code => Await (fun s0 => let '(tok, s1) := _ in
                                      reservation_create w (fun id => @?mk code tok id) s1) _) =>
          intros H;
          destruct (create_tail_created w mk s row s' H)
            as (n & tok & id & -> & _ & _)
      end
  end.
  exists u, a. cbn. repeat split; assumption.
Qed.

(** X26.  What the public route creates is consistent: the reservation
    refers to an active unit and to an active area of that unit, and carries
    their names; it is AWAITING_CHECKIN, not checked in, with a QR valid for
    48 hours; its party is at least one person and no negative number of
    children; and when the capacity was checked the day was not blocked and
    the party fitted into what was left of the period. *)
Theorem created_reservation_is_consistent
  (w : World) (req : Request) (s s' : Sys) (row : Reservation.t) :
  run (createPublicReservation w req) s = (Created row, s') ->
  exists u a dt,
    u ∈ units (db s) /\ Unit.isActive u = true
    /\ a ∈ areas (db s) /\ Area.isActive a = true
    /\ Area.unitId a = Unit.id u
    /\ Reservation.unitId row = Some (Unit.id u)
    /\ Reservation.unit row = Some (Unit.name u)
    /\ Reservation.areaId row = Some (Area.id a)
    /\ Reservation.areaName row = Some (Area.name a)
    /\ Body.reservationDate (body req) = Some dt
    /\ Reservation.reservationDate row = dt
    /\ Reservation.status row = ReservationStatus.AWAITING_CHECKIN
    /\ Reservation.checkedInAt row = None
    /\ Reservation.qrExpiresAt row = Some (now w + 48 * 3600000)
    /\ 1 <= Reservation.people row /\ 0 <= Reservation.kids row
    /\ spec_blocked (db s) (Unit.id u) (Area.id a) dt
         [ReservationBlockPeriod.ALL_DAY; blockPeriodOf (getPeriodFromDate dt)]
       = false
    /\ spec_used (db s) (Area.id a) (spec_window (getPeriodFromDate dt) dt)
       + (Reservation.people row + Reservation.kids row)
       <= periodCapacity (getPeriodFromDate dt) a.
Proof.
  intros Hrun.
  destruct (createPublicReservation_created _ _ _ _ _ Hrun)
    as (V & _ & _ & _ & _ & Hst & Hci & Hqr & _ & _).
  pose proof (requested_pos req V) as Hpos.
  assert (exists dt, Body.reservationDate (body req) = Some dt) as [dt Hdt].
  { unfold basicValidation in V.
    repeat match type of V with
           | (if ?c then _ else _) = _ => destruct c; [discriminate |]
           end.
    destruct (Body.reservationDate (body req)) as [dt |]; [eauto | discriminate]. }
  assert (1 <= Z.max 0 (Qfloor (default 0%Q (Body.people (body req))))) as Hp.
  { unfold basicValidation in V.
    destruct (negb _ || _); [discriminate |].
    destruct (Qeq_bool _ 0 || Js.Qltb _ 1) eqn:E; [discriminate |].
    apply orb_false_iff in E as [_ E]. unfold Js.Qltb in E.
    apply negb_false_iff, Qle_bool_iff in E.
    apply Qfloor_resp_le in E. change (Qfloor 1) with 1 in E. lia. }
  assert (run (checkAndCreate w req dt
                 (default 0%Q (Body.people (body req)))
                 (default 0%Q (Body.kids (body req)))
                 (toLowerEmail (Body.email (body req)))
                 (phoneNorm_of (Body.phone (body req)))) s = (Created row, s'))
    as Hc.
  { revert Hrun. unfold createPublicReservation. rewrite V, Hdt.
    cbn [from_option id].
    destruct (Js.truthy_opt _ || Js.truthy_opt _); [| exact (fun H => H)].
    cbn [run query].
    destruct (findActiveByContact _ _ (db s)); [discriminate | exact (fun H => H)]. }
  destruct (checkAndCreate_created_refs _ _ _ _ _ _ _ _ _ _ Hc)
    as (u & a & Fu & Fa & Hu & Ha & Hau & R1 & R2 & R3 & R4 & Rp & Rk & Rd
        & Hb & Hfit).
  apply (find_id_eq Unit.id) in Fu as [Hinu _].
  apply (find_id_eq Area.id) in Fa as [Hina _].
  exists u, a, dt. rewrite Rp, Rk, Hqr. unfold willUse_of in Hfit.
  repeat (split; [first [assumption | reflexivity | lia | f_equal; lia] |]).
  lia.
Qed.

Lemma created_reservation_is_consistent_witness :
  let req := Scenario.request_of 2 (newDate Scenario.day0 13 0 0 0) None in
  let p := run (createPublicReservation Scenario.world0 req)
             (Scenario.sys_of Scenario.store_1300) in
  exists row,
    p.1 = Created row
    /\ Reservation.areaId row = Some "a1"
    /\ 1 <= Reservation.people row.
Proof.
  cbv zeta.
  remember (run (createPublicReservation Scenario.world0
                   (Scenario.request_of 2 (newDate Scenario.day0 13 0 0 0) None))
              (Scenario.sys_of Scenario.store_1300)) as p eqn:Ep.
  assert (match p.1 with
          | Created r => Reservation.areaId r = Some "a1"
          | _ => False
          end) as Hc by (rewrite Ep; vm_compute; reflexivity).
  destruct p as [[st c d | row] s']; [destruct Hc |].
  destruct (created_reservation_is_consistent Scenario.world0
              (Scenario.request_of 2 (newDate Scenario.day0 13 0 0 0) None)
              (Scenario.sys_of Scenario.store_1300) s' row (eq_sym Ep))
    as (u & a & dt & H).
  exists row. split; [reflexivity |]. split; [exact Hc |].
  decompose [and] H. assumption.
Defined.

(** ** Resolution of the unit and of the area *)

(** X27.  What [resolveUnit] and [resolveArea] return is in the store: the
    id and the name of one of its units, or of one of its areas; an id that
    names a unit, or an area, wins over the free text; and an area resolved
    from the free text belongs to the given unit. *)
Theorem resolution_is_sound
  (w : World) (st : Store) (unitId unit areaId area uid : option string) :
  (forall i n, resolveUnit w st unitId unit = (Some i, n) ->
     exists u, u ∈ units st /\ Unit.id u = i /\ n = Some (Unit.name u))
  /\ (forall u, Js.truthy_opt unitId = true ->
        unit_findUnique (default EmptyString unitId) st = Some u ->
        resolveUnit w st unitId unit = (Some (Unit.id u), Some (Unit.name u)))
  /\ (forall i n, resolveArea w st areaId area uid = (Some i, n) ->
        exists a, a ∈ areas st /\ Area.id a = i /\ n = Some (Area.name a)
                  /\ ((Js.truthy_opt areaId = true
                       /\ area_findUnique (default EmptyString areaId) st = Some a)
                      \/ Area.unitId a = default EmptyString uid))
  /\ (forall a, Js.truthy_opt areaId = true ->
        area_findUnique (default EmptyString areaId) st = Some a ->
        resolveArea w st areaId area uid = (Some (Area.id a), Some (Area.name a))).
Proof.
  split; [| split; [| split]].
  - intros i n. unfold resolveUnit.
    destruct (if Js.truthy_opt unitId then _ else None) as [u |] eqn:F0.
    + intros [= <- <-]. exists u.
      destruct (Js.truthy_opt unitId); [| discriminate].
      apply find_Some_elem in F0 as [F0 _]. auto.
    + destruct (Js.truthy _); [| discriminate]. cbv zeta. unfold or_else.
      repeat match goal with
             | |- context [List.find ?f ?l] =>
                 let F := fresh "F" in destruct (List.find f l) eqn:F
             end;
        intros [= <- <-];
        match goal with
        | F : List.find _ _ = Some ?u |- _ =>
            exists u; apply find_Some_elem in F as [F _]; auto
        end.
  - intros u T F. unfold resolveUnit. rewrite T, F. reflexivity.
  - intros i n. unfold resolveArea.
    destruct (if Js.truthy_opt areaId then _ else None) as [a |] eqn:F0.
    + intros [= <- <-]. exists a.
      destruct (Js.truthy_opt areaId); [| discriminate].
      pose proof F0 as F'. apply find_Some_elem in F' as [F' _]. auto 10.
    + destruct (Js.truthy _ && Js.truthy_opt uid); [| discriminate].
      cbv zeta. unfold or_else.
      repeat match goal with
             | |- context [List.find ?f ?l] =>
                 let F := fresh "F" in destruct (List.find f l) eqn:F
             end;
        intros [= <- <-];
        match goal with
        | F : List.find _ _ = Some ?u |- _ =>
            exists u; apply find_Some_elem in F as [F _];
            apply list_elem_of_filter in F as [Hunit Hmem];
            apply Is_true_true, String.eqb_eq in Hunit; auto 10
        end.
  - intros a T F. unfold resolveArea. rewrite T, F. reflexivity.
Qed.


Lemma resolution_is_sound_witness :
  resolveUnit Scenario.world0 Scenario.store_free (Some "u1") (Some "Norte")
  = (Some "u1", Some "Centro").
Proof.
  exact (proj1 (proj2 (resolution_is_sound Scenario.world0 Scenario.store_free
                         (Some "u1") (Some "Norte") None None None))
           Scenario.unit1 eq_refl eq_refl).
Defined.

(* ------------------------------------------------------------------ *)
(** ** The date parse of the concrete runs *)

(** The format and the strict flag of [dayjs(s, 'YYYY-MM-DD', true)] have no
    effect without the customParseFormat plug-in: strings the strict reading
    refuses are read as dates, with one-digit groups, without separators,
    with other separators, without a month, with a time, and with a month or
    a day out of range carried over; only strings outside the parse pattern
    are left to the engine. *)
Lemma strict_flag_is_ignored :
  let d0 := newDate Scenario.day0 0 0 0 0 in
  dayjsParse "2025-03-10" = Some d0
  /\ strictYMD "2025-03-10" = Some d0
  /\ (strictYMD "2025-3-10" = None /\ dayjsParse "2025-3-10" = Some d0)
  /\ (strictYMD "20250310" = None /\ dayjsParse "20250310" = Some d0)
  /\ (strictYMD "2025/03/10" = None /\ dayjsParse "2025/03/10" = Some d0)
  /\ (strictYMD "2025-02-38" = None /\ dayjsParse "2025-02-38" = Some d0)
  /\ (strictYMD "2025-13-01" = None
      /\ dayjsParse "2025-13-01"
         = Some (newDate (days_from_civil 2026 1 1) 0 0 0 0))
  /\ (strictYMD "2025" = None
      /\ dayjsParse "2025" = Some (newDate (days_from_civil 2025 1 1) 0 0 0 0))
  /\ (strictYMD "2025-03-10T19:30" = None
      /\ dayjsParse "2025-03-10T19:30"
         = Some (newDate Scenario.day0 19 30 0 0))
  /\ dayjsParse "amanha" = None
  /\ dayjsParse EmptyString = None.
Proof. vm_compute. repeat split; reflexivity. Qed.
